(** * Alluvial: the CSV-to-Sankey transformers, loaders and hover highlighting

    A shallow embedding of the script blocks of three pages of the repository:

    - [Test2]: app/pages/test2.vue, one theme per row, themes to years;
    - [Test4]: app/pages/test4.vue, several themes per row (separated by
      a semicolon), themes to events;
    - [Historical]: the page "Historical Themes Flow Through Decades", whose
      CSV carries a discriminator column and which falls back to a hardcoded
      dataset.

    JavaScript values are modelled as follows.  A string is a [string] whose
    characters stand for UTF-16 code units below 256.  A value that is a
    string or [undefined] is an [option string], [None] being [undefined].
    A CSV row (an object of d3.csv) is a [gmap string string] from column
    name to field.  A number produced by [parseInt] is a [JsNum]: [NaN] or an
    exact integer (exact on the safe-integer range of a double).  Opacities
    and widths are rationals.  Code that can throw, writes to the console or
    assigns the page's refs runs in the monad [M]. *)

From Stdlib Require Import ZArith QArith Qminmax Lqa Ascii.
From stdpp Require Import base option list strings gmap pretty sorting.

Open Scope Z_scope.

(** ** JavaScript runtime pieces used by the pages *)

Module Js.

(** [undefined] or a string. *)
Abbreviation JsVal := (option string).

(** A row of d3.csv: header name to field. *)
Abbreviation Row := (gmap string string).

Inductive JsNum :=
| NaN
| Num (z : Z).

#[export] Instance JsNum_eq_dec : EqDecision JsNum.
Proof. solve_decision. Defined.

Inductive JsError :=
| TypeError (prop : string)
| Error (msg : string).

(** [err.message]; for an engine-made TypeError the text is V8's. *)
Definition message (e : JsError) : string :=
  match e with
  | TypeError prop =>
      "Cannot read properties of undefined (reading '" +:+ prop +:+ "')"
  | Error msg => msg
  end.

(** A value inside a template literal. *)
Definition interpolate (v : JsVal) : string :=
  match v with
  | Some s => s
  | None => "undefined"
  end.

(** *** Strings *)

(** WhiteSpace and LineTerminator code units below 256: TAB, LF, VT, FF, CR,
    SP and NBSP. *)
Definition isWhiteSpace (c : ascii) : bool :=
  let n := N_of_ascii c in
  bool_decide (n = 9 ∨ n = 10 ∨ n = 11 ∨ n = 12 ∨ n = 13 ∨ n = 32 ∨ n = 160)%N.

Fixpoint trimStart (s : string) : string :=
  match s with
  | EmptyString => EmptyString
  | String c s' => if isWhiteSpace c then trimStart s' else s
  end.

Fixpoint trimEnd (s : string) : string :=
  match s with
  | EmptyString => EmptyString
  | String c s' =>
      match trimEnd s' with
      | EmptyString => if isWhiteSpace c then EmptyString else String c EmptyString
      | t => String c t
      end
  end.

(** [s.trim()] *)
Definition trim (s : string) : string := trimEnd (trimStart s).

(** [s.split(sep)] for a separator of one code unit. *)
Fixpoint split (sep : ascii) (s : string) : list string :=
  match s with
  | EmptyString => [EmptyString]
  | String c s' =>
      if decide (c = sep) then EmptyString :: split sep s'
      else match split sep s' with
           | [] => [String c EmptyString]
           | w :: ws => String c w :: ws
           end
  end.

(** *** parseInt with no radix argument *)

Definition digitValue (c : ascii) : option Z :=
  let n := Z.of_N (N_of_ascii c) in
  if bool_decide (48 ≤ n ≤ 57) then Some (n - 48)
  else if bool_decide (97 ≤ n ≤ 122) then Some (n - 87)
  else if bool_decide (65 ≤ n ≤ 90) then Some (n - 55)
  else None.

(** The longest prefix of radix-[R] digits, read left to right; [None] when
    that prefix is empty. *)
Fixpoint readDigits (R : Z) (s : string) (acc : option Z) : option Z :=
  match s with
  | EmptyString => acc
  | String c s' =>
      match digitValue c with
      | Some d =>
          if bool_decide (d < R)
          then readDigits R s' (Some (default 0 acc * R + d))
          else acc
      | None => acc
      end
  end.

Definition stripSign (s : string) : Z * string :=
  match s with
  | String "-" s' => (-1, s')
  | String "+" s' => (1, s')
  | _ => (1, s)
  end.

Definition stripHexPrefix (s : string) : Z * string :=
  match s with
  | String "0" (String "x" s') => (16, s')
  | String "0" (String "X" s') => (16, s')
  | _ => (10, s)
  end.

Definition parseIntString (s : string) : JsNum :=
  let '(sign, s1) := stripSign (trimStart s) in
  let '(R, s2) := stripHexPrefix s1 in
  match readDigits R s2 None with
  | Some n => Num (sign * n)
  | None => NaN
  end.

(** [parseInt(v)]: the argument goes through ToString first, and
    "undefined" has no digits. *)
Definition parseInt (v : JsVal) : JsNum := parseIntString (interpolate v).

(** [Number.isSafeInteger(n)]: on such numbers the model's exact integers
    and the doubles of the page agree, also in the sign of a difference. *)
Definition isSafeInteger (n : JsNum) : Prop :=
  match n with
  | Num z => - 2 ^ 53 < z < 2 ^ 53
  | NaN => False
  end.

(** [a - b] on the results of [parseInt]. *)
Definition sub (a b : JsNum) : JsNum :=
  match a, b with
  | Num x, Num y => Num (x - y)
  | _, _ => NaN
  end.

(** *** Arrays *)

Section Arrays.
Context {A : Type} `{EqDecision A}.

Fixpoint indexOfFrom (l : list A) (x : A) (i : Z) : Z :=
  match l with
  | [] => -1
  | y :: l' => if decide (y = x) then i else indexOfFrom l' x (i + 1)
  end.

(** [l.indexOf(x)]: the first position of [x], or -1. *)
Definition indexOf (l : list A) (x : A) : Z := indexOfFrom l x 0.

(** [seen.add(x)] for each [x] of [l]: a Set keeps a value at its first
    insertion. *)
Definition addAll (seen l : list A) : list A :=
  fold_left (λ seen x, if decide (x ∈ seen) then seen else seen ++ [x]) l seen.

(** [[...new Set(l)]] *)
Definition newSet (l : list A) : list A := addAll [] l.

(** The spec's "first-seen order", written on its own: each value once, at
    the place of its first occurrence. *)
Fixpoint firstSeen (l : list A) : list A :=
  match l with
  | [] => []
  | x :: l' => x :: filter (λ y, y ≠ x) (firstSeen l')
  end.

End Arrays.

(** [l.map((x, index) => f index x)] with the index as a JavaScript number. *)
Definition mapi {A B} (f : Z → A → B) (l : list A) : list B :=
  imap (λ i, f (Z.of_nat i)) l.

(** [l.length] *)
Definition len {A} (l : list A) : Z := Z.of_nat (length l).

(** The row has every column of [columns]. *)
Definition carries (columns : list string) (row : Row) : Prop :=
  Forall (λ c, is_Some (row !! c)) columns.

#[export] Instance carries_dec columns row : Decision (carries columns row).
Proof. unfold carries. apply _. Defined.

(** *** Console *)

Inductive Level := LogLevel | WarnLevel | ErrorLevel.

#[export] Instance Level_eq_dec : EqDecision Level.
Proof. solve_decision. Defined.

(** One console call: its level and its first (text) argument.  The objects
    passed after the text are not kept. *)
Record ConsoleEntry := { level : Level; text : string }.

End Js.

(** ** The effects of a page: exceptions, the console and the page's refs *)

Module Eff.
Import Js.

(** What a call ends with: a value, or a thrown error. *)
Inductive Outcome (A : Type) :=
| Returned (a : A)
| Thrown (e : JsError).
Arguments Returned {A} a.
Arguments Thrown {A} e.

(** The state a page's code can touch: its refs [V] and the console. *)
Record World (V : Type) := { refs : V; console : list ConsoleEntry }.
Arguments refs {V} w.
Arguments console {V} w.
Arguments Build_World {V} refs console.

Definition M (V A : Type) : Type := World V → Outcome A * World V.

Definition run {V A} (m : M V A) (w : World V) : Outcome A * World V := m w.

#[export] Instance M_ret {V} : MRet (M V) := λ A a w, (Returned a, w).

#[export] Instance M_bind {V} : MBind (M V) := λ A B f m w,
  match m w with
  | (Returned a, w') => f a w'
  | (Thrown e, w') => (Thrown e, w')
  end.

Definition throw {V A} (e : JsError) : M V A := λ w, (Thrown e, w).

(** [try { body } catch (err) { handler err }] *)
Definition tryCatch {V A} (body : M V A) (handler : JsError → M V A) : M V A :=
  λ w,
    match body w with
    | (Returned a, w') => (Returned a, w')
    | (Thrown e, w') => handler e w'
    end.

(** The world after the console lines [es]. *)
Definition logged {V} (es : list ConsoleEntry) (w : World V) : World V :=
  {| refs := refs w; console := console w ++ es |}.

Definition getRefs {V} : M V V := λ w, (Returned (refs w), w).

Definition setRefs {V} (f : V → V) : M V () :=
  λ w, (Returned (), {| refs := f (refs w); console := console w |}).

Definition consoleWrite {V} (l : Level) (t : string) : M V () :=
  λ w, (Returned (),
        {| refs := refs w; console := console w ++ [{| level := l; text := t |}] |}).

Definition consoleLog {V} : string → M V () := consoleWrite LogLevel.
Definition consoleWarn {V} : string → M V () := consoleWrite WarnLevel.
Definition consoleError {V} : string → M V () := consoleWrite ErrorLevel.

(** Reading property [prop] of [v] ([v.prop], or calling [v.prop(...)]):
    a TypeError when [v] is [undefined]. *)
Definition receiver {V} (prop : string) (v : JsVal) : M V string :=
  match v with
  | Some s => mret s
  | None => throw (TypeError prop)
  end.

(** [l.map((x, index) => f index x)] for a callback with effects. *)
Fixpoint mapFrom {V A B} (f : Z → A → M V B) (i : Z) (l : list A) : M V (list B) :=
  match l with
  | [] => mret []
  | x :: l' => y ← f i x; ys ← mapFrom f (i + 1) l'; mret (y :: ys)
  end.

(** [l.forEach((x, index) => ...)] whose body updates a local [acc]. *)
Fixpoint forEachFrom {V A B} (f : B → Z → A → M V B) (i : Z) (l : list A) (acc : B)
  : M V B :=
  match l with
  | [] => mret acc
  | x :: l' => acc' ← f acc i x; forEachFrom f (i + 1) l' acc'
  end.

(** What a [forEach] that appends [out index x] for each [x] leaves in its
    array. *)
Fixpoint collectFrom {A C} (out : Z → A → list C) (i : Z) (l : list A) : list C :=
  match l with
  | [] => []
  | x :: l' => out i x ++ collectFrom out (i + 1) l'
  end.

(** [l.sort(cmp)].  The sort is stable, and a NaN from the comparator counts
    as 0.  For a consistent comparator every stable sort returns the list
    computed here; which pairs an engine compares, and the order it reaches
    with an inconsistent comparator, are the engine's own. *)
Section Sort.
Context {V A : Type} (cmp : A → A → M V JsNum).

Definition sortCompare (x y : A) : M V Z :=
  v ← cmp x y;
  mret (match v with NaN => 0 | Num z => z end).

Fixpoint insertSorted (x : A) (l : list A) : M V (list A) :=
  match l with
  | [] => mret [x]
  | y :: l' =>
      v ← sortCompare x y;
      if bool_decide (v ≤ 0) then mret (x :: y :: l')
      else r ← insertSorted x l'; mret (y :: r)
  end.

Fixpoint sort (l : list A) : M V (list A) :=
  match l with
  | [] => mret []
  | x :: l' => s ← sort l'; insertSorted x s
  end.

End Sort.

(** [m] reads nothing of the world and leaves the refs as they are: what it
    returns or throws is the same in every world. *)
Definition stateless {V A} (m : M V A) : Prop :=
  ∀ w1 w2 : World V,
    (run m w1).1 = (run m w2).1 ∧ refs (run m w1).2 = refs w1.

(** [m] run two times in a row. *)
Definition twice {V A} (m : M V A) : M V (A * A) :=
  d1 ← m; d2 ← m; mret (d1, d2).

(** What [await d3.csv(path)] yields. *)
Inductive Fetched :=
| Rejected (e : JsError)
| Resolved (rows : list Row).

Definition await {V} (f : Fetched) : M V (list Row) :=
  match f with
  | Rejected e => throw e
  | Resolved rows => mret rows
  end.

End Eff.

(** ** The SVG elements a page draws and restyles *)

Module Svg.

(** The presentation of one element: the attributes given at creation and
    the inline style properties set later.  Only opacity, stroke-width and
    stroke are kept; an inline style wins over the attribute. *)
Record Shape := {
  attrOpacity : option Q;
  attrStrokeWidth : option Q;
  attrStroke : option string;
  styleOpacity : option Q;
  styleStrokeWidth : option Q;
  styleStroke : option string
}.

(** The opacity in effect; with nothing set it is the initial value 1. *)
Definition opacity (s : Shape) : Q :=
  default (default 1%Q (attrOpacity s)) (styleOpacity s).

(** The stroke width in effect; with nothing set it is the initial value 1. *)
Definition strokeWidth (s : Shape) : Q :=
  default (default 1%Q (attrStrokeWidth s)) (styleStrokeWidth s).

Definition withAttrs (o w : option Q) (c : option string) : Shape :=
  {| attrOpacity := o; attrStrokeWidth := w; attrStroke := c;
     styleOpacity := None; styleStrokeWidth := None; styleStroke := None |}.

Definition styleOpacityTo (v : Q) (s : Shape) : Shape :=
  {| attrOpacity := attrOpacity s; attrStrokeWidth := attrStrokeWidth s;
     attrStroke := attrStroke s;
     styleOpacity := Some v; styleStrokeWidth := styleStrokeWidth s;
     styleStroke := styleStroke s |}.

Definition styleStrokeWidthTo (v : Q) (s : Shape) : Shape :=
  {| attrOpacity := attrOpacity s; attrStrokeWidth := attrStrokeWidth s;
     attrStroke := attrStroke s;
     styleOpacity := styleOpacity s; styleStrokeWidth := Some v;
     styleStroke := styleStroke s |}.

Definition styleStrokeTo (c : option string) (s : Shape) : Shape :=
  {| attrOpacity := attrOpacity s; attrStrokeWidth := attrStrokeWidth s;
     attrStroke := attrStroke s;
     styleOpacity := styleOpacity s; styleStrokeWidth := styleStrokeWidth s;
     styleStroke := c |}.

(** What the layout leaves on a link: [source.index], [target.index] and
    [width]. *)
Record LinkDatum := { sourceIndex : nat; targetIndex : nat; width : Q }.

(** What the layout leaves on a node: [index] and [x0].  A node has no
    property [x]. *)
Record NodeDatum := { index : nat; x0 : Q }.

(** The layout's output as the drawing code reads it. *)
Record Layout := { layoutLinks : list LinkDatum; layoutNodes : list NodeDatum }.

(** A d3 selection: the elements in document order, each with its bound
    datum. *)
Definition Selection (D : Type) : Type := list (D * Shape).

(** [sel.style(...)] and [sel.filter(p).style(...)]: the elements of the
    page are restyled in place, the selection keeps all of them. *)
Definition restyle {D} (p : D → bool) (f : D → Shape → Shape) (sel : Selection D)
  : Selection D :=
  map (λ e, if p (fst e) then (fst e, f (fst e) (snd e)) else e) sel.

Definition all {D} (d : D) : bool := true.

(** [.data(ds).enter().append(...)] with the attributes [f] sets. *)
Definition enter {D} (f : D → Shape) (ds : list D) : Selection D :=
  map (λ d, (d, f d)) ds.

(** [a < b] and [a >= b] where [a] may be [undefined]: [undefined] becomes
    NaN and both comparisons are false. *)
Definition lt (a : option Q) (b : Q) : bool :=
  match a with
  | Some a => if Qlt_le_dec a b then true else false
  | None => false
  end.

Definition ge (a : option Q) (b : Q) : bool :=
  match a with
  | Some a => if Qlt_le_dec a b then false else true
  | None => false
  end.

(** [d.x0] *)
Definition x0Of (d : NodeDatum) : option Q := Some (x0 d).

(** [d.x]: not a property of a layout node, so [undefined]. *)
Definition xOf (d : NodeDatum) : option Q := None.

(** [d.x0 < chartWidth / 2]: the node is in the left column. *)
Definition onLeft (chartWidth : Q) (d : NodeDatum) : bool :=
  lt (x0Of d) (chartWidth / 2).

(** A datum with the stroke width in effect on its element. *)
Definition girth {D} (e : D * Shape) : D * Q := (e.1, strokeWidth e.2).

(** What is seen of a selection: each datum with the opacity and the stroke
    width in effect on its element. *)
Definition seen {D} (sel : Selection D) : list (D * (Q * Q)) :=
  map (λ e, (e.1, (opacity e.2, strokeWidth e.2))) sel.

(** The paths, the rectangles and the node labels of a page. *)
Record View := {
  viewLinks : Selection LinkDatum;
  viewNodes : Selection NodeDatum;
  viewLabels : Selection NodeDatum
}.

(** The spec's rule for entering Focused(n) on a node of the left column,
    written on its own.  [idle] is the page before the pointer enters,
    [focused] the page after.  The links from [n] get a higher opacity and a
    thicker stroke, the other links a low opacity; the nodes of the right
    column and their labels a middle opacity; the other nodes of the left
    column and their labels a low opacity. *)
Definition focusRule (chartWidth : Q) (n : nat) (idle focused : View) : Prop :=
  ∃ lowLink lowNode middle high : Q,
    (lowLink < middle)%Q ∧ (lowNode < middle)%Q ∧ (middle < high)%Q
    ∧ Forall2 (λ e e',
        e'.1 = e.1
        ∧ if decide (sourceIndex e.1 = n)
          then (opacity e'.2 == high)%Q ∧ (strokeWidth e.2 < strokeWidth e'.2)%Q
          else (opacity e'.2 == lowLink)%Q) (viewLinks idle) (viewLinks focused)
    ∧ Forall (λ e,
        if onLeft chartWidth e.1
        then index e.1 ≠ n → (opacity e.2 == lowNode)%Q
        else (opacity e.2 == middle)%Q) (viewNodes focused)
    ∧ Forall (λ e,
        if onLeft chartWidth e.1
        then index e.1 ≠ n → (opacity e.2 == lowNode)%Q
        else (opacity e.2 == middle)%Q) (viewLabels focused).

(** [arr[i % arr.length]] *)
Definition pick (arr : list string) (i : nat) : option string :=
  arr !! (i mod length arr)%nat.

(** d3.schemeCategory10 *)
Definition schemeCategory10 : list string :=
  ["#1f77b4"; "#ff7f0e"; "#2ca02c"; "#d62728"; "#9467bd";
   "#8c564b"; "#e377c2"; "#7f7f7f"; "#bcbd22"; "#17becf"].

End Svg.

(** ** app/pages/test2.vue: themes to years *)

Module Test2.
Import Js Eff.

Inductive NodeType := type_theme | type_year.

Record Node := { id : Z; name : JsVal; type : NodeType; x_position : Z }.

Record Link := {
  source : Z;
  target : Z;
  value : Z;
  description : JsVal;
  fullDescription : JsVal;
  year : JsVal;
  theme : JsVal
}.

Record Dataset := { nodes : list Node; links : list Link }.

(** The refs of the page.  [chartContainer] is [None] while the element is
    not attached; attached, it holds the diagram drawn in it, if any. *)
Record Refs := {
  chartContainer : option (option Dataset);
  loading : bool;
  error : JsVal;
  debugInfo : string;
  currentData : option Dataset
}.

Definition setChartContainer (c : option (option Dataset)) (r : Refs) : Refs :=
  {| chartContainer := c; loading := loading r; error := error r;
     debugInfo := debugInfo r; currentData := currentData r |}.

Definition setLoading (b : bool) (r : Refs) : Refs :=
  {| chartContainer := chartContainer r; loading := b; error := error r;
     debugInfo := debugInfo r; currentData := currentData r |}.

Definition setError (e : JsVal) (r : Refs) : Refs :=
  {| chartContainer := chartContainer r; loading := loading r; error := e;
     debugInfo := debugInfo r; currentData := currentData r |}.

Definition setDebugInfo (s : string) (r : Refs) : Refs :=
  {| chartContainer := chartContainer r; loading := loading r; error := error r;
     debugInfo := s; currentData := currentData r |}.

Definition setCurrentData (d : option Dataset) (r : Refs) : Refs :=
  {| chartContainer := chartContainer r; loading := loading r; error := error r;
     debugInfo := debugInfo r; currentData := d |}.

(** The refs when the page is mounted. *)
Definition mounted : Refs :=
  {| chartContainer := Some None; loading := true; error := None;
     debugInfo := "Initializing..."; currentData := None |}.

(** The refs a load has ended with: not loading, with this error, this
    current data and this content of the chart container. *)
Definition settled (r : Refs) (err : JsVal) (data : option Dataset)
    (chart : option (option Dataset)) : Prop :=
  loading r = false ∧ error r = err ∧ currentData r = data ∧ chartContainer r = chart.

Definition transformCSVToSankey {V} (csvData : list Row) (themes years : list JsVal)
  : M V Dataset :=
  yearNodes ← mapFrom (λ index year,
      name ← receiver "toString" year;
      mret {| id := len themes + index; name := Some name;
              type := type_year; x_position := 1 |}) 0 years;
  let nodes :=
    mapi (λ index theme,
      {| id := index; name := theme; type := type_theme; x_position := 0 |}) themes
    ++ yearNodes in
  let links :=
    map (λ row : Row,
      let themeIndex := indexOf themes (row !! "Theme") in
      let yearIndex := indexOf years (row !! "Year") in
      {| source := themeIndex;
         target := len themes + yearIndex;
         value := 1;
         description := row !! "Title";
         fullDescription := row !! "Description";
         year := row !! "Year";
         theme := row !! "Theme" |}) csvData in
  mret {| nodes := nodes; links := links |}.

Section Page.
(** The layout of d3-sankey: [Some msg] when it throws on a dataset. *)
Variable layoutError : Dataset → option string.

Definition createSankeyDiagram (data : Dataset) : M Refs () :=
  r ← getRefs;
  match chartContainer r with
  | None => mret ()
  | Some _ =>
      setRefs (setChartContainer (Some None));;
      match layoutError data with
      | Some msg => throw (Error msg)
      | None => setRefs (setChartContainer (Some (Some data)))
      end
  end.

(** The values of a column, each once, in the order first seen. *)
Definition distinct (column : string) (csvData : list Row) : list JsVal :=
  newSet (map (λ row : Row, row !! column) csvData).

(** [loadData], run from where [d3.csv] settles with [fetched] on. *)
Definition loadData (fetched : Fetched) : M Refs () :=
  tryCatch
    (setRefs (setLoading true);;
     setRefs (setError None);;
     setRefs (setDebugInfo "Loading sample site data...");;
     csvData ← await fetched;
     consoleLog "Raw CSV data:";;
     setRefs (setDebugInfo ("CSV loaded: " +:+ pretty (length csvData) +:+ " rows"));;
     if bool_decide (length csvData = 0%nat) then throw (Error "CSV data was empty")
     else
       let themes := distinct "Theme" csvData in
       let years := distinct "Year" csvData in
       consoleLog "Unique themes:";;
       consoleLog "Unique years:";;
       setRefs (setDebugInfo ("Found " +:+ pretty (length themes) +:+ " themes and "
                              +:+ pretty (length years) +:+ " years"));;
       sankeyData ← transformCSVToSankey csvData themes years;
       consoleLog "Transformed Sankey data:";;
       setRefs (setDebugInfo "CSV data processed successfully");;
       setRefs (setLoading false);;
       setRefs (setCurrentData (Some sankeyData));;
       createSankeyDiagram sankeyData)
    (λ err,
       consoleError "Error loading CSV data:";;
       setRefs (setError (Some (message err)));;
       setRefs (setDebugInfo ("CSV failed: " +:+ message err));;
       setRefs (setLoading false)).

(** The callback of the resize observer. *)
Definition onResize : M Refs () :=
  r ← getRefs;
  match chartContainer r, loading r, currentData r with
  | Some _, false, Some data => createSankeyDiagram data
  | _, _, _ => mret ()
  end.

End Page.

(** *** Hover highlighting *)

Module Hover.
Import Svg.

(** The three selections [createChartElements] returns. *)
Record Chart := {
  links : Selection LinkDatum;
  nodes : Selection NodeDatum;
  labels : Selection NodeDatum
}.

Definition createChartElements (result : Layout) : Chart :=
  {| links := enter (λ d,
        withAttrs (Some 0.7%Q) (Some (Qmax 2 (width d)))
                  (pick schemeCategory10 (sourceIndex d))) (layoutLinks result);
     nodes := enter (λ _, withAttrs None (Some 1%Q) (Some "#000")) (layoutNodes result);
     labels := enter (λ _, withAttrs None None None) (layoutNodes result) |}.

Section Width.
(** The chart width the handlers were created with. *)
Variable chartWidth : Q.

Definition isLeftSide (d : NodeDatum) : bool := lt (x0Of d) (chartWidth / 2).

Definition highlightThemeFlows (themeIndex : nat) (c : Chart) : Chart :=
  let links1 := restyle all (λ _, styleOpacityTo 0.1) (links c) in
  let links2 :=
    restyle (λ link, bool_decide (sourceIndex link = themeIndex))
      (λ d s, styleStrokeWidthTo (Qmax 3 (width d + 1)) (styleOpacityTo 0.9 s)) links1 in
  let nodes1 :=
    restyle (λ node, lt (x0Of node) (chartWidth / 2)
                     && bool_decide (index node ≠ themeIndex))
      (λ _, styleOpacityTo 0.3) (nodes c) in
  let nodes2 :=
    restyle (λ node, ge (x0Of node) (chartWidth / 2)) (λ _, styleOpacityTo 0.7) nodes1 in
  let labels1 :=
    restyle (λ label, lt (xOf label) (chartWidth / 2)
                      && bool_decide (index label ≠ themeIndex))
      (λ _, styleOpacityTo 0.3) (labels c) in
  {| links := links2; nodes := nodes2; labels := labels1 |}.

Definition highlightYearFlows (yearIndex : nat) (c : Chart) : Chart :=
  let links1 := restyle all (λ _, styleOpacityTo 0.1) (links c) in
  let links2 :=
    restyle (λ link, bool_decide (targetIndex link = yearIndex))
      (λ d s, styleStrokeWidthTo (Qmax 3 (width d + 1)) (styleOpacityTo 0.9 s)) links1 in
  let nodes1 :=
    restyle (λ node, ge (x0Of node) (chartWidth / 2)
                     && bool_decide (index node ≠ yearIndex))
      (λ _, styleOpacityTo 0.3) (nodes c) in
  let nodes2 :=
    restyle (λ node, lt (x0Of node) (chartWidth / 2)) (λ _, styleOpacityTo 0.7) nodes1 in
  let labels1 :=
    restyle (λ label, ge (xOf label) (chartWidth / 2)
                      && bool_decide (index label ≠ yearIndex))
      (λ _, styleOpacityTo 0.3) (labels c) in
  {| links := links2; nodes := nodes2; labels := labels1 |}.

Definition resetHighlighting (c : Chart) : Chart :=
  {| links := restyle all (λ d s, styleStrokeWidthTo (Qmax 2 (width d))
                                    (styleOpacityTo 0.7 s)) (links c);
     nodes := restyle all (λ _, styleOpacityTo 1) (nodes c);
     labels := restyle all (λ _, styleOpacityTo 1) (labels c) |}.

Definition view (c : Chart) : View :=
  {| viewLinks := links c; viewNodes := nodes c; viewLabels := labels c |}.

(** The pointer events the page listens to; the number is the position of
    the element in its selection. *)
Inductive Event :=
| NodeEnter (i : nat)
| NodeLeave (i : nat)
| LinkEnter (j : nat)
| LinkLeave (j : nat).

(** The handlers installed by [addHoverInteractions] and, for the links'
    own opacity and stroke, by [addTooltipEvents]. *)
Definition handle (c : Chart) (ev : Event) : Chart :=
  match ev with
  | NodeEnter i =>
      match nodes c !! i with
      | Some (d, _) =>
          if isLeftSide d then highlightThemeFlows (index d) c
          else highlightYearFlows (index d) c
      | None => c
      end
  | NodeLeave i =>
      match nodes c !! i with
      | Some _ => resetHighlighting c
      | None => c
      end
  | LinkEnter j =>
      {| links := alter (λ e,
           (e.1, styleStrokeTo (pick schemeCategory10 (sourceIndex e.1))
                   (styleStrokeWidthTo (Qmax 4 (width e.1 + 2))
                      (styleOpacityTo 1 e.2)))) j (links c);
         nodes := nodes c; labels := labels c |}
  | LinkLeave j =>
      {| links := alter (λ e,
           (e.1, styleStrokeWidthTo (Qmax 2 (width e.1)) (styleOpacityTo 0.7 e.2)))
           j (links c);
         nodes := nodes c; labels := labels c |}
  end.

(** The chart after a sequence of events. *)
Definition after (evs : list Event) (c : Chart) : Chart := fold_left handle evs c.

End Width.
End Hover.
End Test2.

(** ** app/pages/test4.vue: several themes per row, themes to events *)

Module Test4.
Import Js Eff.

(** CHART_CONFIG, the opacities *)
Definition defaultOpacity : Q := 0.5.
Definition linkOpacityHover : Q := 1.
Definition backgroundOpacity : Q := 0.1.
Definition nodeOpacityHighlight : Q := 0.9.

(** COLORS.custom and COLORS.border *)
Definition custom : list string :=
  ["#8863EB"; "#E163EB"; "#636AEB"; "#EB63AB"; "#B463EB"; "#D3B1EB"].
Definition border : string := "#000".

Inductive NodeType := type_theme | type_event.

(** A theme node has [id], [name], [type] and [x_position]; an event node
    has [year], [title] and [description] besides. *)
Inductive Node :=
| ThemeNode (id : Z) (name : string)
| EventNode (id : Z) (name : string) (year : JsNum) (title description : JsVal).

Definition id (n : Node) : Z :=
  match n with
  | ThemeNode i _ => i
  | EventNode i _ _ _ _ => i
  end.

Definition name (n : Node) : string :=
  match n with
  | ThemeNode _ s => s
  | EventNode _ s _ _ _ => s
  end.

Definition type (n : Node) : NodeType :=
  match n with
  | ThemeNode _ _ => type_theme
  | EventNode _ _ _ _ _ => type_event
  end.

Definition x_position (n : Node) : Z :=
  match n with
  | ThemeNode _ _ => 0
  | EventNode _ _ _ _ _ => 1
  end.

Record Link := {
  source : Z;
  target : Z;
  value : Z;
  description : JsVal;
  fullDescription : JsVal;
  year : JsNum;
  theme : string
}.

Record Dataset := { nodes : list Node; links : list Link }.

Record Refs := {
  chartContainer : option (option Dataset);
  loading : bool;
  error : JsVal;
  debugInfo : string;
  currentData : option Dataset
}.

Definition setChartContainer (c : option (option Dataset)) (r : Refs) : Refs :=
  {| chartContainer := c; loading := loading r; error := error r;
     debugInfo := debugInfo r; currentData := currentData r |}.

Definition setLoading (b : bool) (r : Refs) : Refs :=
  {| chartContainer := chartContainer r; loading := b; error := error r;
     debugInfo := debugInfo r; currentData := currentData r |}.

Definition setError (e : JsVal) (r : Refs) : Refs :=
  {| chartContainer := chartContainer r; loading := loading r; error := e;
     debugInfo := debugInfo r; currentData := currentData r |}.

Definition setDebugInfo (s : string) (r : Refs) : Refs :=
  {| chartContainer := chartContainer r; loading := loading r; error := error r;
     debugInfo := s; currentData := currentData r |}.

Definition setCurrentData (d : option Dataset) (r : Refs) : Refs :=
  {| chartContainer := chartContainer r; loading := loading r; error := error r;
     debugInfo := debugInfo r; currentData := d |}.

Definition mounted : Refs :=
  {| chartContainer := Some None; loading := true; error := None;
     debugInfo := "Initializing..."; currentData := None |}.

(** The refs a load has ended with: not loading, with this error, this
    current data and this content of the chart container. *)
Definition settled (r : Refs) (err : JsVal) (data : option Dataset)
    (chart : option (option Dataset)) : Prop :=
  loading r = false ∧ error r = err ∧ currentData r = data ∧ chartContainer r = chart.

(** The quotation mark of the console texts. *)
Definition quote : string := String "034"%char EmptyString.

(** [themeString.split(';').map(t => t.trim())] *)
Definition splitThemes (themeString : string) : list string :=
  map trim (split ";" themeString).

(** [node.year]: the event nodes have one, on a theme node it is
    [undefined], which a subtraction turns into NaN. *)
Definition nodeYear (n : Node) : JsNum :=
  match n with
  | ThemeNode _ _ => NaN
  | EventNode _ _ y _ _ => y
  end.

(** The comparator [createSankeyLayout] gives to [nodeSort]. *)
Definition nodeSort (a b : Node) : JsNum :=
  if decide (x_position a ≠ x_position b) then Num (x_position a - x_position b)
  else if decide (x_position a = 1) then sub (nodeYear a) (nodeYear b)
  else Num 0.

Section Page.
(** [a.localeCompare(b)] of the host: negative, zero or positive. *)
Variable localeCompare : string → string → Z.
(** The layout of d3-sankey: [Some msg] when it throws on a dataset. *)
Variable layoutError : Dataset → option string.

(** The comparator given to [sort]. *)
Definition compareRows {V} (a b : Row) : M V JsNum :=
  let yearDiff := sub (parseInt (a !! "Year")) (parseInt (b !! "Year")) in
  if decide (yearDiff ≠ Num 0) then mret yearDiff
  else
    themeA ← receiver "localeCompare" (a !! "Theme");
    mret (Num (localeCompare themeA (interpolate (b !! "Theme")))).

Definition eventNode (themes : list string) (index : Z) (row : Row) : Node :=
  EventNode (len themes + index)
    (interpolate (row !! "Year") +:+ " - " +:+ interpolate (row !! "Title"))
    (parseInt (row !! "Year"))
    (row !! "Title")
    (row !! "Description").

(** The link pushed for [theme] of [row]. *)
Definition makeLink (themeIndex eventIndex : Z) (row : Row) (theme : string) : Link :=
  {| source := themeIndex;
     target := eventIndex;
     value := 1;
     description := row !! "Title";
     fullDescription := row !! "Description";
     year := parseInt (row !! "Year");
     theme := theme |}.

Definition eventLog (row : Row) : ConsoleEntry :=
  {| level := LogLevel;
     text := "Event " +:+ quote +:+ interpolate (row !! "Title") +:+ quote
             +:+ " has themes:" |}.

Definition themeWarning (theme : string) : ConsoleEntry :=
  {| level := WarnLevel;
     text := "Theme " +:+ quote +:+ theme +:+ quote +:+ " not found in themes list:" |}.

Definition createdLog (links : list Link) (sortedData : list Row) : ConsoleEntry :=
  {| level := LogLevel;
     text := "Created " +:+ pretty (length links) +:+ " links for "
             +:+ pretty (length sortedData) +:+ " events" |}.

Definition transformCSVToSankey {V} (csvData : list Row) (themes : list string)
  : M V Dataset :=
  sortedData ← sort compareRows csvData;
  let nodes := mapi (λ index theme, ThemeNode index theme) themes
               ++ mapi (eventNode themes) sortedData in
  links ← forEachFrom (λ links index (row : Row),
      let eventIndex := len themes + index in
      themeString ← receiver "split" (row !! "Theme");
      let eventThemes := splitThemes themeString in
      consoleLog (text (eventLog row));;
      forEachFrom (λ links _ theme,
          let themeIndex := indexOf themes theme in
          if decide (themeIndex ≠ -1) then
            mret (links ++ [makeLink themeIndex eventIndex row theme])
          else
            consoleWarn (text (themeWarning theme));;
            mret links) 0 eventThemes links) 0 sortedData [];
  consoleLog (text (createdLog links sortedData));;
  mret {| nodes := nodes; links := links |}.

(** *** The loops of [transformCSVToSankey] read as list functions

    These are what the sort and the two nested [forEach] compute when no row
    lacks its Theme; [transformCSVToSankey4_run] below proves it. *)

(** The comparator's number as the sort reads it. *)
Definition compareKey (a b : Row) : Z :=
  match sub (parseInt (a !! "Year")) (parseInt (b !! "Year")) with
  | NaN => 0
  | Num 0 => localeCompare (interpolate (a !! "Theme")) (interpolate (b !! "Theme"))
  | Num z => z
  end.

Fixpoint insertRow (x : Row) (l : list Row) : list Row :=
  match l with
  | [] => [x]
  | y :: l' => if bool_decide (compareKey x y ≤ 0) then x :: y :: l' else y :: insertRow x l'
  end.

Fixpoint sortRows (l : list Row) : list Row :=
  match l with
  | [] => []
  | x :: l' => insertRow x (sortRows l')
  end.

(** Both years are numbers, and [a]'s is not the later one. *)
Definition notLater (a b : Row) : Prop :=
  match parseInt (a !! "Year"), parseInt (b !! "Year") with
  | Num x, Num y => x ≤ y
  | _, _ => False
  end.

(** The themes a row lists. *)
Definition listedThemes (row : Row) : list string :=
  splitThemes (default "" (row !! "Theme")).

Definition rowLinks (themes : list string) (eventIndex : Z) (row : Row) : list Link :=
  collectFrom (λ _ theme,
      if decide (indexOf themes theme ≠ -1)
      then [makeLink (indexOf themes theme) eventIndex row theme]
      else []) 0 (listedThemes row).

Definition rowWarnings (themes : list string) (row : Row) : list ConsoleEntry :=
  collectFrom (λ _ theme,
      if decide (indexOf themes theme ≠ -1) then [] else [themeWarning theme])
    0 (listedThemes row).

Definition rowLog (themes : list string) (row : Row) : list ConsoleEntry :=
  eventLog row :: rowWarnings themes row.

Definition linksFrom (themes : list string) (index : Z) (rows : list Row) : list Link :=
  collectFrom (λ index row, rowLinks themes (len themes + index) row) index rows.

Definition logOf (themes : list string) (rows : list Row) : list ConsoleEntry :=
  collectFrom (λ _ row, rowLog themes row) 0 rows.

Definition createSankeyDiagram (data : Dataset) : M Refs () :=
  r ← getRefs;
  match chartContainer r with
  | None => mret ()
  | Some _ =>
      setRefs (setChartContainer (Some None));;
      match layoutError data with
      | Some msg => throw (Error msg)
      | None => setRefs (setChartContainer (Some (Some data)))
      end
  end.

(** The themes of all rows, each once, in the order first seen:
    [[...new Set(allThemes.flatMap(...))]]. *)
Definition uniqueThemes {V} (csvData : list Row) : M V (list string) :=
  let allThemes := map (λ row : Row, row !! "Theme") csvData in
  listed ← mapFrom (λ _ themeString,
      s ← receiver "split" themeString; mret (splitThemes s)) 0 allThemes;
  mret (newSet (concat listed)).

(** [loadData], run from where [d3.csv] settles with [fetched] on. *)
Definition loadData (fetched : Fetched) : M Refs () :=
  tryCatch
    (setRefs (setLoading true);;
     setRefs (setError None);;
     setRefs (setDebugInfo "Loading sample site data...");;
     csvData ← await fetched;
     consoleLog "Raw CSV data:";;
     setRefs (setDebugInfo ("CSV loaded: " +:+ pretty (length csvData) +:+ " rows"));;
     if bool_decide (length csvData = 0%nat) then throw (Error "CSV data was empty")
     else
       themes ← uniqueThemes csvData;
       consoleLog "All theme strings from CSV:";;
       consoleLog "Unique themes after splitting:";;
       setRefs (setDebugInfo ("Found " +:+ pretty (length themes)
                              +:+ " unique themes and " +:+ pretty (length csvData)
                              +:+ " events"));;
       sankeyData ← transformCSVToSankey csvData themes;
       consoleLog "Transformed Sankey data:";;
       setRefs (setDebugInfo
         ("CSV processed: " +:+ pretty (length (nodes sankeyData)) +:+ " nodes ("
          +:+ pretty (length themes) +:+ " themes + " +:+ pretty (length csvData)
          +:+ " events) with " +:+ pretty (length (links sankeyData))
          +:+ " total connections"));;
       setRefs (setLoading false);;
       setRefs (setCurrentData (Some sankeyData));;
       createSankeyDiagram sankeyData)
    (λ err,
       consoleError "Error loading CSV data:";;
       setRefs (setError (Some (message err)));;
       setRefs (setDebugInfo ("CSV failed: " +:+ message err));;
       setRefs (setLoading false)).

Definition onResize : M Refs () :=
  r ← getRefs;
  match chartContainer r, loading r, currentData r with
  | Some _, false, Some data => createSankeyDiagram data
  | _, _, _ => mret ()
  end.

End Page.

(** *** Hover highlighting *)

Module Hover.
Import Svg.

(** [createLabels] returns three selections. *)
Record Labels := {
  themeLabels : Selection NodeDatum;
  yearLabels : Selection NodeDatum;
  titleLabels : Selection NodeDatum
}.

Record Chart := {
  links : Selection LinkDatum;
  nodes : Selection NodeDatum;
  labels : Labels
}.

Section Width.
Variable chartWidth : Q.

Definition createLinks (result : Layout) : Selection LinkDatum :=
  enter (λ d, withAttrs (Some defaultOpacity) (Some (Qmax 4 (width d + 2)))
                (pick custom (sourceIndex d))) (layoutLinks result).

Definition createNodes (result : Layout) : Selection NodeDatum :=
  enter (λ _, withAttrs None (Some 1%Q) (Some border)) (layoutNodes result).

Definition createThemeLabels (result : Layout) : Selection NodeDatum :=
  enter (λ _, withAttrs None None None)
    (filter (λ d, lt (x0Of d) (chartWidth / 2) = true) (layoutNodes result)).

Definition createYearLabels (result : Layout) : Selection NodeDatum :=
  enter (λ _, withAttrs None None None)
    (filter (λ d, ge (x0Of d) (chartWidth / 2) = true) (layoutNodes result)).

Definition createTitleLabels (result : Layout) : Selection NodeDatum :=
  enter (λ _, withAttrs None None None)
    (filter (λ d, ge (x0Of d) (chartWidth / 2) = true) (layoutNodes result)).

Definition createLabels (result : Layout) : Labels :=
  {| themeLabels := createThemeLabels result;
     yearLabels := createYearLabels result;
     titleLabels := createTitleLabels result |}.

Definition createChartElements (result : Layout) : Chart :=
  {| links := createLinks result;
     nodes := createNodes result;
     labels := createLabels result |}.

Definition isThemeNode (d : NodeDatum) : bool := lt (x0Of d) (chartWidth / 2).

Definition highlightThemeFlows (themeIndex : nat) (c : Chart) : Chart :=
  let links1 := restyle all (λ _, styleOpacityTo backgroundOpacity) (links c) in
  let links2 :=
    restyle (λ link, bool_decide (sourceIndex link = themeIndex))
      (λ _ s, styleStrokeTo (pick custom themeIndex)
                (styleOpacityTo nodeOpacityHighlight s)) links1 in
  let nodes1 :=
    restyle (λ node, lt (x0Of node) (chartWidth / 2)
                     && bool_decide (index node ≠ themeIndex))
      (λ _, styleOpacityTo backgroundOpacity) (nodes c) in
  let nodes2 :=
    restyle (λ node, ge (x0Of node) (chartWidth / 2))
      (λ _, styleOpacityTo backgroundOpacity) nodes1 in
  {| links := links2;
     nodes := nodes2;
     labels :=
       {| themeLabels :=
            restyle (λ label, bool_decide (index label ≠ themeIndex))
              (λ _, styleOpacityTo backgroundOpacity) (themeLabels (labels c));
          yearLabels := yearLabels (labels c);
          titleLabels := titleLabels (labels c) |} |}.

Definition highlightEventFlows (eventIndex : nat) (c : Chart) : Chart :=
  let links1 := restyle all (λ _, styleOpacityTo backgroundOpacity) (links c) in
  let links2 :=
    restyle (λ link, bool_decide (targetIndex link = eventIndex))
      (λ _, styleOpacityTo nodeOpacityHighlight) links1 in
  let nodes1 :=
    restyle (λ node, ge (x0Of node) (chartWidth / 2)
                     && bool_decide (index node ≠ eventIndex))
      (λ _, styleOpacityTo backgroundOpacity) (nodes c) in
  let nodes2 :=
    restyle (λ node, lt (x0Of node) (chartWidth / 2))
      (λ _, styleOpacityTo backgroundOpacity) nodes1 in
  {| links := links2;
     nodes := nodes2;
     labels :=
       {| themeLabels := themeLabels (labels c);
          yearLabels :=
            restyle (λ label, bool_decide (index label ≠ eventIndex))
              (λ _, styleOpacityTo backgroundOpacity) (yearLabels (labels c));
          titleLabels :=
            restyle (λ label, bool_decide (index label ≠ eventIndex))
              (λ _, styleOpacityTo backgroundOpacity) (titleLabels (labels c)) |} |}.

Definition resetHighlighting (c : Chart) : Chart :=
  {| links := restyle all (λ _, styleOpacityTo defaultOpacity) (links c);
     nodes := restyle all (λ _, styleOpacityTo defaultOpacity) (nodes c);
     labels :=
       {| themeLabels := restyle all (λ _, styleOpacityTo 1) (themeLabels (labels c));
          yearLabels := restyle all (λ _, styleOpacityTo 1) (yearLabels (labels c));
          titleLabels := restyle all (λ _, styleOpacityTo 1) (titleLabels (labels c)) |} |}.

Definition view (c : Chart) : View :=
  {| viewLinks := links c;
     viewNodes := nodes c;
     viewLabels := themeLabels (labels c) ++ yearLabels (labels c)
                   ++ titleLabels (labels c) |}.

Inductive Event :=
| NodeEnter (i : nat)
| NodeLeave (i : nat)
| LinkEnter (j : nat)
| LinkLeave (j : nat).

Definition handle (c : Chart) (ev : Event) : Chart :=
  match ev with
  | NodeEnter i =>
      match nodes c !! i with
      | Some (d, _) =>
          if isThemeNode d then highlightThemeFlows (index d) c
          else highlightEventFlows (index d) c
      | None => c
      end
  | NodeLeave i =>
      match nodes c !! i with
      | Some _ => resetHighlighting c
      | None => c
      end
  | LinkEnter j =>
      {| links := alter (λ e,
           (e.1, styleStrokeTo (pick custom (sourceIndex e.1))
                   (styleOpacityTo linkOpacityHover e.2))) j (links c);
         nodes := nodes c; labels := labels c |}
  | LinkLeave j =>
      {| links := alter (λ e, (e.1, styleOpacityTo defaultOpacity e.2)) j (links c);
         nodes := nodes c; labels := labels c |}
  end.

Definition after (evs : list Event) (c : Chart) : Chart := fold_left handle evs c.

End Width.
End Hover.
End Test4.

(** ** The page "Historical Themes Flow Through Decades" *)

Module Historical.
Import Js Eff.

Inductive NodeType := type_theme | type_decade.

Record Node := { id : JsNum; name : JsVal; type : NodeType; x_position : JsNum }.

Record Link := {
  source : JsNum;
  target : JsNum;
  value : JsNum;
  description : string
}.

Record Dataset := { nodes : list Node; links : list Link }.

Record Refs := {
  chartContainer : option (option Dataset);
  loading : bool;
  error : JsVal;
  currentData : option Dataset
}.

Definition setChartContainer (c : option (option Dataset)) (r : Refs) : Refs :=
  {| chartContainer := c; loading := loading r; error := error r;
     currentData := currentData r |}.

Definition setLoading (b : bool) (r : Refs) : Refs :=
  {| chartContainer := chartContainer r; loading := b; error := error r;
     currentData := currentData r |}.

Definition setError (e : JsVal) (r : Refs) : Refs :=
  {| chartContainer := chartContainer r; loading := loading r; error := e;
     currentData := currentData r |}.

Definition setCurrentData (d : option Dataset) (r : Refs) : Refs :=
  {| chartContainer := chartContainer r; loading := loading r; error := error r;
     currentData := d |}.

Definition mounted : Refs :=
  {| chartContainer := Some None; loading := true; error := None;
     currentData := None |}.

(** The refs a load has ended with: not loading, with this error, this
    current data and this content of the chart container. *)
Definition settled (r : Refs) (err : JsVal) (data : option Dataset)
    (chart : option (option Dataset)) : Prop :=
  loading r = false ∧ error r = err ∧ currentData r = data ∧ chartContainer r = chart.

(** The rows whose [type] column is 'node', and those where it is 'link'. *)
Definition parseCSVData (csvData : list Row) : list Row * list Row :=
  (filter (λ row : Row, row !! "type" = Some "node") csvData,
   filter (λ row : Row, row !! "type" = Some "link") csvData).

Definition transformData (nodes links : list Row) : Dataset :=
  {| nodes := map (λ node : Row,
       {| id := parseInt (node !! "id");
          name := node !! "name";
          type := if decide (node !! "x_position" = Some "0") then type_theme
                  else type_decade;
          x_position := parseInt (node !! "x_position") |}) nodes;
     links := map (λ link : Row,
       {| source := parseInt (link !! "source");
          target := parseInt (link !! "target");
          value := parseInt (link !! "value");
          description := default "" (link !! "description") |}) links |}.

Definition themeNode (i : Z) (s : string) : Node :=
  {| id := Num i; name := Some s; type := type_theme; x_position := Num 0 |}.

Definition decadeNode (i : Z) (s : string) : Node :=
  {| id := Num i; name := Some s; type := type_decade; x_position := Num 1 |}.

Definition flow (s t v : Z) (d : string) : Link :=
  {| source := Num s; target := Num t; value := Num v; description := d |}.

(** The dataset written out in [useFallbackData]. *)
Definition fallbackData : Dataset :=
  {| nodes :=
       [ themeNode 0 "Industrial Revolution";
         themeNode 1 "World Wars";
         themeNode 2 "Colonialism";
         themeNode 3 "Economic Crisis";
         decadeNode 4 "1900-1910";
         decadeNode 5 "1910-1920";
         decadeNode 6 "1920-1930";
         decadeNode 7 "1930-1940";
         decadeNode 8 "1940-1950" ];
     links :=
       [ flow 0 4 25 "Industrial Revolution to 1900s";
         flow 0 5 20 "Industrial Revolution to 1910s";
         flow 0 6 15 "Industrial Revolution to 1920s";
         flow 1 5 30 "World Wars to 1910s";
         flow 1 7 35 "World Wars to 1930s";
         flow 1 8 40 "World Wars to 1940s";
         flow 2 4 20 "Colonialism to 1900s";
         flow 2 5 18 "Colonialism to 1910s";
         flow 2 6 15 "Colonialism to 1920s";
         flow 2 7 12 "Colonialism to 1930s";
         flow 2 8 8 "Colonialism to 1940s";
         flow 3 6 25 "Economic Crisis to 1920s";
         flow 3 7 45 "Economic Crisis to 1930s";
         flow 3 8 20 "Economic Crisis to 1940s" ] |}.

(** The failures of the fetch path, written on their own: the retrieval or
    the parsing fails with [e], or the result has no row of type 'node' or
    no row of type 'link' (an empty result has neither). *)
Definition fetchFailure (fetched : Fetched) : option JsError :=
  match fetched with
  | Rejected e => Some e
  | Resolved csvData =>
      if decide (Exists (λ row : Row, row !! "type" = Some "node") csvData
                 ∧ Exists (λ row : Row, row !! "type" = Some "link") csvData)
      then None
      else Some (Error "Invalid or empty CSV data")
  end.

(** The diagram of [data] is what the chart container shows. *)
Definition rendered (data : Dataset) (r : Refs) : Prop :=
  chartContainer r = Some (Some data).

(** [createSankeyLayout]: the node padding, and the height of the extent,
    for [nodeCount] nodes in a chart [height] high. *)
Definition dynamicNodePadding (nodeCount : nat) : Q :=
  Qmax 10 (50 - inject_Z (Z.of_nat nodeCount) * 2).

Definition dynamicHeight (height : Q) (nodeCount : nat) : Q :=
  Qmax height (inject_Z (Z.of_nat nodeCount) * 60).

Section Page.
(** The layout of d3-sankey: [Some msg] when it throws on a dataset. *)
Variable layoutError : Dataset → option string.

Definition createSankeyDiagram (data : Dataset) : M Refs () :=
  r ← getRefs;
  match chartContainer r with
  | None => mret ()
  | Some _ =>
      setRefs (setChartContainer (Some None));;
      match layoutError data with
      | Some msg => throw (Error msg)
      | None => setRefs (setChartContainer (Some (Some data)))
      end
  end.

Definition useFallbackData : M Refs () :=
  setRefs (setLoading false);;
  setRefs (setCurrentData (Some fallbackData));;
  createSankeyDiagram fallbackData.

(** [loadData], run from where [d3.csv] settles with [fetched] on. *)
Definition loadData (fetched : Fetched) : M Refs () :=
  tryCatch
    (setRefs (setLoading true);;
     setRefs (setError None);;
     csvData ← await fetched;
     let invalid := throw (Error "Invalid or empty CSV data") in
     if bool_decide (0 < length csvData)%nat then
       let '(nodes, links) := parseCSVData csvData in
       if bool_decide (0 < length nodes)%nat && bool_decide (0 < length links)%nat
       then
         let sankeyData := transformData nodes links in
         setRefs (setLoading false);;
         setRefs (setCurrentData (Some sankeyData));;
         createSankeyDiagram sankeyData
       else invalid
     else invalid)
    (λ err,
       consoleError "Error loading CSV data:";;
       setRefs (setError (Some (message err)));;
       useFallbackData).

Definition onResize : M Refs () :=
  r ← getRefs;
  match chartContainer r, loading r, currentData r with
  | Some _, false, Some data => createSankeyDiagram data
  | _, _, _ => mret ()
  end.

End Page.

(** *** Hover highlighting *)

Module Hover.
Import Svg.

(** The selections [addHoverInteractions] takes from the drawing: the
    paths, the rectangles, the node labels and the flow labels.  A flow
    label is bound to the link at its own position of [result.links]. *)
Record Chart := {
  links : Selection LinkDatum;
  nodes : Selection NodeDatum;
  labels : Selection NodeDatum;
  flowLabels : Selection LinkDatum
}.

(** [drawLinks], [drawNodes], [drawLabels] and [drawFlowLabels] *)
Definition draw (result : Layout) : Chart :=
  {| links := enter (λ d,
        withAttrs (Some 0.7%Q) (Some (Qmax 2 (width d)))
                  (pick schemeCategory10 (sourceIndex d))) (layoutLinks result);
     nodes := enter (λ _, withAttrs None (Some 1%Q) (Some "#000")) (layoutNodes result);
     labels := enter (λ _, withAttrs None None None) (layoutNodes result);
     flowLabels := enter (λ _, withAttrs None None None) (layoutLinks result) |}.

Section Width.
Variable chartWidth : Q.

Definition highlightThemeFlows (themeIndex : nat) (c : Chart) : Chart :=
  let links1 := restyle all (λ _, styleOpacityTo 0.1) (links c) in
  let links2 :=
    restyle (λ link, bool_decide (sourceIndex link = themeIndex))
      (λ d s, styleStrokeWidthTo (Qmax 3 (width d + 1)) (styleOpacityTo 0.9 s)) links1 in
  let nodes1 :=
    restyle (λ node, lt (x0Of node) (chartWidth / 2)
                     && bool_decide (index node ≠ themeIndex))
      (λ _, styleOpacityTo 0.3) (nodes c) in
  let nodes2 :=
    restyle (λ node, ge (x0Of node) (chartWidth / 2)) (λ _, styleOpacityTo 0.7) nodes1 in
  let labels1 :=
    restyle (λ label, lt (xOf label) (chartWidth / 2)
                      && bool_decide (index label ≠ themeIndex))
      (λ _, styleOpacityTo 0.3) (labels c) in
  let flowLabels1 :=
    restyle (λ label, bool_decide (sourceIndex label ≠ themeIndex))
      (λ _, styleOpacityTo 0.1) (flowLabels c) in
  {| links := links2; nodes := nodes2; labels := labels1; flowLabels := flowLabels1 |}.

Definition highlightDecadeFlows (decadeIndex : nat) (c : Chart) : Chart :=
  let links1 := restyle all (λ _, styleOpacityTo 0.1) (links c) in
  let links2 :=
    restyle (λ link, bool_decide (targetIndex link = decadeIndex))
      (λ d s, styleStrokeWidthTo (Qmax 3 (width d + 1)) (styleOpacityTo 0.9 s)) links1 in
  let nodes1 :=
    restyle (λ node, ge (x0Of node) (chartWidth / 2)
                     && bool_decide (index node ≠ decadeIndex))
      (λ _, styleOpacityTo 0.3) (nodes c) in
  let nodes2 :=
    restyle (λ node, lt (x0Of node) (chartWidth / 2)) (λ _, styleOpacityTo 0.7) nodes1 in
  let labels1 :=
    restyle (λ label, ge (xOf label) (chartWidth / 2)
                      && bool_decide (index label ≠ decadeIndex))
      (λ _, styleOpacityTo 0.3) (labels c) in
  let flowLabels1 :=
    restyle (λ label, bool_decide (targetIndex label ≠ decadeIndex))
      (λ _, styleOpacityTo 0.1) (flowLabels c) in
  {| links := links2; nodes := nodes2; labels := labels1; flowLabels := flowLabels1 |}.

Definition resetHighlighting (c : Chart) : Chart :=
  {| links := restyle all (λ d s, styleStrokeWidthTo (Qmax 2 (width d))
                                    (styleOpacityTo 0.7 s)) (links c);
     nodes := restyle all (λ _, styleOpacityTo 1) (nodes c);
     labels := restyle all (λ _, styleOpacityTo 1) (labels c);
     flowLabels := restyle all (λ _, styleOpacityTo 1) (flowLabels c) |}.

Definition view (c : Chart) : View :=
  {| viewLinks := links c; viewNodes := nodes c; viewLabels := labels c |}.

Inductive Event :=
| NodeEnter (i : nat)
| NodeLeave (i : nat).

Definition handle (c : Chart) (ev : Event) : Chart :=
  match ev with
  | NodeEnter i =>
      match nodes c !! i with
      | Some (d, _) =>
          if lt (x0Of d) (chartWidth / 2) then highlightThemeFlows (index d) c
          else if ge (x0Of d) (chartWidth / 2) then highlightDecadeFlows (index d) c
          else c
      | None => c
      end
  | NodeLeave i =>
      match nodes c !! i with
      | Some _ => resetHighlighting c
      | None => c
      end
  end.

Definition after (evs : list Event) (c : Chart) : Chart := fold_left handle evs c.

End Width.
End Hover.
End Historical.

(** ** Sample inputs *)

Module Sample.
Import Js Eff.

Definition csvRow (theme year title description : string) : Row :=
  <["Theme" := theme]> (<["Year" := year]> (<["Title" := title]>
    (<["Description" := description]> ∅))).

(** A [localeCompare] that orders strings by their code units. *)
Definition byCodeUnits (a b : string) : Z :=
  match String.compare a b with
  | Lt => -1
  | Eq => 0
  | Gt => 1
  end.

(** A world with nothing on the console. *)
Definition fresh {V} (r : V) : World V := {| refs := r; console := [] |}.

Definition colonialism : list Row :=
  [csvRow "Colonialism" "1900s" "Conference" "";
   csvRow "Colonialism" "1910s" "Treaty" ""].

Definition twoThemes : list Row :=
  [csvRow "A;B" "1910" "Strike" "General strike";
   csvRow "B; C" "1905" "Reform" "School reform"].

(** Two layouts as d3-sankey leaves them for a chart 300 wide: the left
    column at 0, the right column at 300 less the node width. *)
Definition oneFlow : Svg.Layout :=
  {| Svg.layoutLinks := [{| Svg.sourceIndex := 0; Svg.targetIndex := 1; Svg.width := 10 |}];
     Svg.layoutNodes := [{| Svg.index := 0; Svg.x0 := 0 |};
                         {| Svg.index := 1; Svg.x0 := 275 |}] |}.

Definition twoFlows : Svg.Layout :=
  {| Svg.layoutLinks := [{| Svg.sourceIndex := 0; Svg.targetIndex := 2; Svg.width := 10 |};
                         {| Svg.sourceIndex := 1; Svg.targetIndex := 2; Svg.width := 10 |}];
     Svg.layoutNodes := [{| Svg.index := 0; Svg.x0 := 0 |};
                         {| Svg.index := 1; Svg.x0 := 0 |};
                         {| Svg.index := 2; Svg.x0 := 220 |}] |}.

(** test2.vue, [oneFlow]: before the pointer enters node 0, and after. *)
Definition idle2 : Test2.Hover.Chart := Test2.Hover.createChartElements oneFlow.
Definition focused2 : Test2.Hover.Chart := Test2.Hover.highlightThemeFlows 300 0 idle2.

(** test4.vue, [twoFlows]: before the pointer enters node 0, after, and
    once it has left again. *)
Definition idle4 : Test4.Hover.Chart := Test4.Hover.createChartElements 300 twoFlows.
Definition focused4 : Test4.Hover.Chart := Test4.Hover.highlightThemeFlows 300 0 idle4.
Definition left4 : Test4.Hover.Chart :=
  Test4.Hover.after 300 [Test4.Hover.NodeEnter 0; Test4.Hover.NodeLeave 0] idle4.

(** The refs of the historical page once its component is unmounted
    while the CSV is still on its way. *)
Definition detached : Historical.Refs :=
  Historical.setChartContainer None Historical.mounted.

(** The world the historical page is left in when the fetch is answered
    with 404 after the component was unmounted. *)
Definition afterFailedLoad : World Historical.Refs :=
  (run (Historical.loadData (λ _, None) (Rejected (Error "404 Not Found")))
       (fresh detached)).2.

(** Rows for test4.vue, one of them listing a theme that the caller does
    not pass. *)
Definition strayTheme : list Row :=
  [csvRow "A;Zeta" "1910" "Strike" "General strike"].

(** A CSV whose header has no Year column, and one whose header has no
    Theme column. *)
Definition themesOnly : list Row := [<["Theme" := "A"]> ∅; <["Theme" := "B"]> ∅].
Definition yearsOnly : list Row := [<["Year" := "1900"]> ∅].

(** A layout that accepts every dataset, and one that throws on every
    dataset. *)
Definition accepting {D} (data : D) : option string := None.


(** Rows of a CSV for the historical page: two nodes and the link between
    them. *)
Definition historicalCsv : list Row :=
  [ <["type" := "node"]> (<["id" := "0"]> (<["name" := "Colonialism"]>
      (<["x_position" := "0"]> ∅)));
    <["type" := "node"]> (<["id" := "1"]> (<["name" := "1900-1910"]>
      (<["x_position" := "1"]> ∅)));
    <["type" := "link"]> (<["source" := "0"]> (<["target" := "1"]>
      (<["value" := "20"]> (<["description" := "Colonialism to 1900s"]> ∅)))) ].

End Sample.
(** * Properties *)

(** ** Arrays and strings *)

Section ArrayFacts.
Import Js.
Context {A : Type} `{EqDecision A}.
Implicit Types (l : list A) (x : A).

Lemma indexOfFrom_absent l x i : x ∉ l → indexOfFrom l x i = -1.
Proof.
  revert i. induction l as [|y l IH]; intros i Hx; simpl; [done|].
  apply not_elem_of_cons in Hx as [Hne Hx].
  destruct (decide (y = x)); [congruence|]. by apply IH.
Qed.

Lemma indexOfFrom_present l x i :
  x ∈ l →
  ∃ n : nat, indexOfFrom l x i = i + Z.of_nat n ∧ l !! n = Some x ∧ (n < length l)%nat.
Proof.
  revert i. induction l as [|y l IH]; intros i Hx; [by apply elem_of_nil in Hx|].
  simpl. destruct (decide (y = x)) as [->|Hne].
  - exists 0%nat. split; [lia|]. split; [done|]. simpl; lia.
  - apply elem_of_cons in Hx as [->|Hx]; [done|].
    destruct (IH (i + 1) Hx) as (n & Hn & Hl & Hlt).
    exists (S n). split; [lia|]. split; [done|]. simpl; lia.
Qed.

Lemma indexOf_absent l x : x ∉ l → indexOf l x = -1.
Proof. apply indexOfFrom_absent. Qed.

Lemma indexOf_present l x : x ∈ l → 0 ≤ indexOf l x < len l.
Proof.
  intros Hx. destruct (indexOfFrom_present l x 0 Hx) as (n & Hn & _ & Hlt).
  unfold indexOf, len. lia.
Qed.

Lemma indexOf_lookup l x :
  x ∈ l → l !! Z.to_nat (indexOf l x) = Some x.
Proof.
  intros Hx. destruct (indexOfFrom_present l x 0 Hx) as (n & Hn & Hl & _).
  unfold indexOf. rewrite Hn. by replace (Z.to_nat (0 + Z.of_nat n)) with n by lia.
Qed.

Lemma indexOf_found l x : indexOf l x ≠ -1 ↔ x ∈ l.
Proof.
  split.
  - intros Hi. destruct (decide (x ∈ l)) as [|Hn]; [done|].
    by apply indexOf_absent in Hn.
  - intros Hx. apply indexOf_present in Hx. lia.
Qed.

Lemma addAll_cons seen y l :
  addAll seen (y :: l) = addAll (if decide (y ∈ seen) then seen else seen ++ [y]) l.
Proof. reflexivity. Qed.

Lemma addAll_snoc seen l y :
  addAll seen (l ++ [y])
  = if decide (y ∈ addAll seen l) then addAll seen l else addAll seen l ++ [y].
Proof. unfold addAll. by rewrite fold_left_app. Qed.

Lemma addAll_elem seen l x : x ∈ addAll seen l ↔ x ∈ seen ∨ x ∈ l.
Proof.
  revert seen. induction l as [|y l IH]; intros seen.
  - simpl. rewrite elem_of_nil. tauto.
  - rewrite addAll_cons, IH. destruct (decide (y ∈ seen)).
    + rewrite elem_of_cons. split; [tauto|]. intros [?|[->|?]]; tauto.
    + rewrite elem_of_app, list_elem_of_singleton, elem_of_cons. tauto.
Qed.

Lemma addAll_NoDup seen l : NoDup seen → NoDup (addAll seen l).
Proof.
  revert seen. induction l as [|y l IH]; intros seen Hnd; [done|].
  rewrite addAll_cons. apply IH. destruct (decide (y ∈ seen)); [done|].
  apply NoDup_app. split; [done|]. split.
  - intros z Hz Hz'. apply list_elem_of_singleton in Hz'. by subst.
  - apply NoDup_singleton.
Qed.

Lemma addAll_app seen l :
  addAll seen l = seen ++ filter (λ x, x ∉ seen) (addAll [] l).
Proof.
  induction l as [|y l IH] using rev_ind.
  - simpl. by rewrite app_nil_r.
  - rewrite !addAll_snoc, IH.
    destruct (decide (y ∈ addAll [] l)) as [Hb|Hb].
    + rewrite decide_True; [done|].
      apply elem_of_app. destruct (decide (y ∈ seen)); [by left|right].
      by apply list_elem_of_filter.
    + destruct (decide (y ∈ seen)) as [Hs|Hs].
      * rewrite decide_True by (apply elem_of_app; by left).
        rewrite filter_app. rewrite (filter_cons_False _ y []) by tauto.
        by rewrite filter_nil, app_nil_r.
      * rewrite decide_False.
        2:{ rewrite elem_of_app, list_elem_of_filter. tauto. }
        rewrite filter_app. rewrite (filter_cons_True _ y []) by done.
        by rewrite filter_nil, app_assoc.
Qed.

Lemma elem_of_newSet l x : x ∈ newSet l ↔ x ∈ l.
Proof.
  unfold newSet. rewrite addAll_elem, elem_of_nil. tauto.
Qed.

Lemma NoDup_newSet l : NoDup (newSet l).
Proof. apply (addAll_NoDup [] l), NoDup_nil_2. Qed.

(** A set keeps the first occurrence of each value, in order. *)
Lemma newSet_cons x l : newSet (x :: l) = x :: filter (λ y, y ≠ x) (newSet l).
Proof.
  unfold newSet. rewrite addAll_cons, decide_False by apply not_elem_of_nil.
  simpl. rewrite addAll_app. simpl. f_equal.
  apply list_filter_iff. intros y. rewrite list_elem_of_singleton. done.
Qed.

Lemma newSet_firstSeen l : newSet l = firstSeen l.
Proof.
  induction l as [|x l IH]; [done|]. by rewrite newSet_cons, IH.
Qed.

Lemma newSet_nonempty l : l ≠ [] → newSet l ≠ [].
Proof.
  destruct l as [|x l]; [done|]. intros _. by rewrite newSet_cons.
Qed.

End ArrayFacts.

Section MapiFacts.
Import Js.
Context {A B : Type}.

Lemma mapi_length (f : Z → A → B) l : length (mapi f l) = length l.
Proof. unfold mapi. apply length_imap. Qed.

Lemma mapi_lookup (f : Z → A → B) l (i : nat) :
  mapi f l !! i = f (Z.of_nat i) <$> l !! i.
Proof. unfold mapi. by rewrite list_lookup_imap. Qed.

Lemma elem_of_mapi (f : Z → A → B) l y :
  y ∈ mapi f l ↔ ∃ (i : nat) x, l !! i = Some x ∧ y = f (Z.of_nat i) x.
Proof.
  rewrite list_elem_of_lookup. split.
  - intros [i Hi]. rewrite mapi_lookup in Hi.
    destruct (l !! i) as [x|] eqn:Hx; [|done]. simpl in Hi.
    exists i, x. split; [done|congruence].
  - intros (i & x & Hx & ->). exists i. by rewrite mapi_lookup, Hx.
Qed.

End MapiFacts.

Lemma split_nonempty sep s : Js.split sep s ≠ [].
Proof.
  destruct s as [|c s]; simpl; [done|].
  destruct (decide (c = sep)); [done|]. by destruct (Js.split sep s).
Qed.

(** ** The monad *)

Section EffFacts.
Import Js Eff.
Context {V : Type}.
Implicit Types (w : World V).

Lemma run_bind {A B} (m : M V A) (f : A → M V B) w :
  run (m ≫= f) w
  = match run m w with
    | (Returned a, w') => run (f a) w'
    | (Thrown e, w') => (Thrown e, w')
    end.
Proof. reflexivity. Qed.

Lemma run_bind_returned {A B} (m : M V A) (f : A → M V B) w a w' :
  run m w = (Returned a, w') → run (m ≫= f) w = run (f a) w'.
Proof. intros Hm. by rewrite run_bind, Hm. Qed.

Lemma run_bind_thrown {A B} (m : M V A) (f : A → M V B) w e w' :
  run m w = (Thrown e, w') → run (m ≫= f) w = (Thrown e, w').
Proof. intros Hm. by rewrite run_bind, Hm. Qed.

Lemma logged_nil w : logged [] w = w.
Proof. destruct w. unfold logged. simpl. by rewrite app_nil_r. Qed.

Lemma logged_logged es1 es2 w : logged es2 (logged es1 w) = logged (es1 ++ es2) w.
Proof. unfold logged. simpl. by rewrite app_assoc. Qed.

Lemma run_consoleWrite l t w :
  run (consoleWrite l t) w = (Returned (), logged [{| level := l; text := t |}] w).
Proof. reflexivity. Qed.

(** *** Computations that do not depend on the world *)

Lemma stateless_ret {A} (a : A) : stateless (mret a : M V A).
Proof. by intros w1 w2. Qed.

Lemma stateless_throw {A} e : stateless (throw e : M V A).
Proof. by intros w1 w2. Qed.

Lemma stateless_consoleWrite l t : stateless (consoleWrite l t : M V ()).
Proof. by intros w1 w2. Qed.

Lemma stateless_receiver prop v : stateless (receiver prop v : M V string).
Proof. destruct v; [apply stateless_ret|apply stateless_throw]. Qed.

Lemma stateless_bind {A B} (m : M V A) (f : A → M V B) :
  stateless m → (∀ a, stateless (f a)) → stateless (m ≫= f).
Proof.
  intros Hm Hf w1 w2. rewrite !run_bind.
  destruct (Hm w1 w2) as [Ho Hr]. destruct (Hm w2 w1) as [_ Hr2].
  destruct (run m w1) as [[a1|e1] w1'], (run m w2) as [[a2|e2] w2'];
    simpl in *; try discriminate.
  - injection Ho as ->. destruct (Hf a2 w1' w2') as [Ho' Hr'].
    split; [done|]. by rewrite Hr'.
  - by injection Ho as ->.
Qed.

Lemma stateless_mapFrom {A B} (f : Z → A → M V B) i l :
  (∀ j x, stateless (f j x)) → stateless (mapFrom f i l).
Proof.
  intros Hf. revert i. induction l as [|x l IH]; intros i; simpl.
  - apply stateless_ret.
  - apply stateless_bind; [apply Hf|]. intros y.
    apply stateless_bind; [apply IH|]. intros ys. apply stateless_ret.
Qed.

Lemma stateless_forEachFrom {A B} (f : B → Z → A → M V B) i l acc :
  (∀ b j x, stateless (f b j x)) → stateless (forEachFrom f i l acc).
Proof.
  intros Hf. revert i acc. induction l as [|x l IH]; intros i acc; simpl.
  - apply stateless_ret.
  - apply stateless_bind; [apply Hf|]. intros b. apply IH.
Qed.

Lemma stateless_insertSorted {A} (cmp : A → A → M V JsNum) x l :
  (∀ a b, stateless (cmp a b)) → stateless (insertSorted cmp x l).
Proof.
  intros Hc. induction l as [|y l IH]; simpl.
  - apply stateless_ret.
  - apply stateless_bind.
    + unfold sortCompare. apply stateless_bind; [apply Hc|].
      intros v. apply stateless_ret.
    + intros v. destruct (bool_decide (v ≤ 0)); [apply stateless_ret|].
      apply stateless_bind; [apply IH|]. intros r. apply stateless_ret.
Qed.

Lemma stateless_sort {A} (cmp : A → A → M V JsNum) l :
  (∀ a b, stateless (cmp a b)) → stateless (sort cmp l).
Proof.
  intros Hc. induction l as [|x l IH]; simpl.
  - apply stateless_ret.
  - apply stateless_bind; [apply IH|]. intros s. by apply stateless_insertSorted.
Qed.

(** Run twice in a row, a stateless computation gives the same result
    both times. *)
Lemma stateless_twice {A} (m : M V A) w :
  stateless m →
  (run (twice m) w).1
  = match (run m w).1 with
    | Returned d => Returned (d, d)
    | Thrown e => Thrown e
    end.
Proof.
  intros Hm. unfold twice. rewrite run_bind.
  destruct (run m w) as [[d1|e1] w1] eqn:H1; simpl; [|done].
  rewrite run_bind. destruct (Hm w1 w) as [Ho _]. rewrite H1 in Ho.
  destruct (run m w1) as [[d2|e2] w2]; simpl in *; [|done].
  by injection Ho as ->.
Qed.

(** *** Loops whose bodies return *)

Lemma mapFrom_returns {A B} (f : Z → A → M V B) (g : Z → A → B) i l w :
  (∀ j x, x ∈ l → run (f j x) w = (Returned (g j x), w)) →
  run (mapFrom f i l) w = (Returned (mapi (λ j, g (i + j)) l), w).
Proof.
  revert i. induction l as [|x l IH]; intros i Hf; [done|].
  simpl. rewrite (run_bind_returned _ _ _ _ _ (Hf i x (list_elem_of_here _ _))).
  rewrite (run_bind_returned _ _ _ _ _
             (IH (i + 1) (λ j y Hy, Hf j y (list_elem_of_further _ _ _ Hy)))).
  unfold mapi. rewrite imap_cons. simpl. rewrite Z.add_0_r.
  change (run (mret ?a) w) with (Returned a, w).
  do 3 f_equal. apply imap_ext. intros j y _. simpl. f_equal. lia.
Qed.

End EffFacts.

(** ** Identifiers handed out by position *)

Lemma ids_mapi {A B} (f : Z → A → B) (idOf : B → Z) (a : Z) (l : list A) :
  (∀ i x, idOf (f i x) = a + i) →
  idOf <$> Js.mapi f l = seqZ a (Js.len l).
Proof.
  intros Hid. apply list_eq. intros i.
  rewrite list_lookup_fmap, mapi_lookup.
  destruct (l !! i) as [x|] eqn:Hx; simpl.
  - rewrite Hid. symmetry. apply lookup_seqZ_lt.
    apply lookup_lt_Some in Hx. unfold Js.len. lia.
  - symmetry. apply lookup_seqZ_ge.
    apply lookup_ge_None in Hx. unfold Js.len. lia.
Qed.

Lemma distinct_values (column : string) (rows : list Js.Row) (v : Js.JsVal) :
  v ∈ Test2.distinct column rows ↔ ∃ row, row ∈ rows ∧ row !! column = v.
Proof.
  unfold Test2.distinct. rewrite elem_of_newSet, list_elem_of_fmap.
  split; intros (row & ? & ?); exists row; done.
Qed.

Lemma distinct_defined (column : string) (rows : list Js.Row) :
  Forall (λ row : Js.Row, is_Some (row !! column)) rows →
  Forall is_Some (Test2.distinct column rows).
Proof.
  rewrite !Forall_forall. intros Hrows v Hv.
  apply distinct_values in Hv as (row & Hrow & <-). by apply Hrows.
Qed.

Lemma distinct_nonempty (column : string) (rows : list Js.Row) :
  rows ≠ [] → Test2.distinct column rows ≠ [].
Proof.
  intros Hrows. apply newSet_nonempty. by destruct rows.
Qed.

(** ** test2.vue: what the transformer returns *)

Section Test2Facts.
Import Js Eff Test2.
Context {V : Type}.
Implicit Types (w : World V) (rows : list Row) (themes years : list JsVal).

Lemma transformCSVToSankey2_run rows themes years w :
  Forall is_Some years →
  run (transformCSVToSankey rows themes years) w
  = (Returned
       {| nodes :=
            mapi (λ index theme,
              {| id := index; name := theme; type := type_theme; x_position := 0 |})
              themes
            ++ mapi (λ index year,
              {| id := len themes + index; name := year; type := type_year;
                 x_position := 1 |}) years;
          links :=
            map (λ row : Row,
              {| source := indexOf themes (row !! "Theme");
                 target := len themes + indexOf years (row !! "Year");
                 value := 1;
                 description := row !! "Title";
                 fullDescription := row !! "Description";
                 year := row !! "Year";
                 theme := row !! "Theme" |}) rows |}, w).
Proof.
  intros Hyears. unfold transformCSVToSankey.
  set (yearNode := λ index year,
    {| id := len themes + index; name := year; type := type_year; x_position := 1 |}).
  rewrite (run_bind_returned _ _ w (mapi yearNode years) w); [reflexivity|].
  rewrite (mapFrom_returns _ yearNode).
  - do 2 f_equal.
  - intros j y Hy. rewrite Forall_forall in Hyears.
    destruct (Hyears y Hy) as [s ->]. reflexivity.
Qed.

Lemma transformCSVToSankey2_throws rows themes years w :
  ¬ Forall is_Some years →
  run (transformCSVToSankey rows themes years) w = (Thrown (TypeError "toString"), w).
Proof.
  intros Hyears. unfold transformCSVToSankey.
  apply run_bind_thrown. generalize 0.
  induction years as [|y years IH]; intros i.
  - destruct Hyears. constructor.
  - simpl. destruct y as [s|]; [|reflexivity].
    rewrite run_bind. simpl.
    rewrite run_bind, IH; [done|]. intros H. apply Hyears. by constructor.
Qed.

Lemma stateless_transformCSVToSankey2 rows themes years :
  stateless (transformCSVToSankey rows themes years : M V Dataset).
Proof.
  unfold transformCSVToSankey. apply stateless_bind.
  - apply stateless_mapFrom. intros j y.
    apply stateless_bind; [apply stateless_receiver|]. intros s. apply stateless_ret.
  - intros ns. apply stateless_ret.
Qed.

End Test2Facts.

(** ** Appending loops *)

Section CollectFacts.
Import Js Eff.
Context {A C : Type}.
Implicit Types (out : Z → A → list C) (l : list A).

Lemma elem_of_collectFrom out i l y :
  y ∈ collectFrom out i l
  ↔ ∃ (j : nat) x, l !! j = Some x ∧ y ∈ out (i + Z.of_nat j) x.
Proof.
  revert i. induction l as [|x l IH]; intros i; simpl.
  - split; [by intros ?%elem_of_nil|]. by intros (j & x & ? & _).
  - rewrite elem_of_app, IH. split.
    + intros [Hy|(j & x' & Hj & Hy)].
      * exists 0%nat, x. split; [done|]. by rewrite Z.add_0_r.
      * exists (S j), x'. split; [done|].
        by replace (i + Z.of_nat (S j)) with (i + 1 + Z.of_nat j) by lia.
    + intros ([|j] & x' & Hj & Hy); simpl in Hj.
      * injection Hj as <-. left. by rewrite Z.add_0_r in Hy.
      * right. exists j, x'. split; [done|].
        by replace (i + 1 + Z.of_nat j) with (i + Z.of_nat (S j)) by lia.
Qed.

Lemma length_collectFrom out i l :
  length (collectFrom out i l)
  = sum_list (imap (λ j x, length (out (i + Z.of_nat j) x)) l).
Proof.
  revert i. induction l as [|x l IH]; intros i; simpl; [done|].
  rewrite length_app, IH, Z.add_0_r. f_equal. f_equal.
  apply imap_ext. intros j y _. simpl. do 2 f_equal. lia.
Qed.

Lemma collectFrom_filter (P : C → Prop) `{∀ y, Decision (P y)} out i l :
  filter P (collectFrom out i l) = collectFrom (λ j x, filter P (out j x)) i l.
Proof.
  revert i. induction l as [|x l IH]; intros i; simpl; [done|].
  by rewrite filter_app, IH.
Qed.

Lemma collectFrom_nil out i l :
  (∀ (j : nat) x, l !! j = Some x → out (i + Z.of_nat j) x = []) →
  collectFrom out i l = [].
Proof.
  revert i. induction l as [|x l IH]; intros i Hout; simpl; [done|].
  rewrite (IH (i + 1)).
  - specialize (Hout 0%nat x eq_refl). rewrite Z.add_0_r in Hout.
    by rewrite Hout.
  - intros j y Hj. specialize (Hout (S j) y Hj).
    by replace (i + 1 + Z.of_nat j) with (i + Z.of_nat (S j)) by lia.
Qed.

(** Only position [j] contributes. *)
Lemma collectFrom_single out i l (j : nat) x :
  l !! j = Some x →
  (∀ (j' : nat) x', j' ≠ j → l !! j' = Some x' → out (i + Z.of_nat j') x' = []) →
  collectFrom out i l = out (i + Z.of_nat j) x.
Proof.
  revert i j. induction l as [|y l IH]; intros i j Hj Hout; [done|].
  destruct j as [|j]; simpl in *.
  - injection Hj as ->. rewrite Z.add_0_r, collectFrom_nil, app_nil_r; [done|].
    intros j' x' Hj'. specialize (Hout (S j') x' (Nat.neq_succ_0 _) Hj').
    by replace (i + 1 + Z.of_nat j') with (i + Z.of_nat (S j')) by lia.
  - pose proof (Hout 0%nat y (Nat.neq_0_succ _) eq_refl) as H0.
    simpl in H0. rewrite Z.add_0_r in H0. rewrite H0. simpl.
    rewrite (IH (i + 1) j Hj).
    + f_equal. lia.
    + intros j' x' Hne Hj'.
      replace (i + 1 + Z.of_nat j') with (i + Z.of_nat (S j')) by lia.
      apply Hout; [lia|done].
Qed.

Context {V : Type}.

Lemma forEachFrom_collect (f : list C → Z → A → M V (list C)) out
    (log : Z → A → list ConsoleEntry) i l acc (w : World V) :
  (∀ acc' j x w', x ∈ l →
     run (f acc' j x) w' = (Returned (acc' ++ out j x), logged (log j x) w')) →
  run (forEachFrom f i l acc) w
  = (Returned (acc ++ collectFrom out i l), logged (collectFrom log i l) w).
Proof.
  revert i acc w. induction l as [|x l IH]; intros i acc w Hf; simpl.
  - by rewrite app_nil_r, logged_nil.
  - rewrite (run_bind_returned _ _ _ _ _ (Hf acc i x w (list_elem_of_here _ _))).
    rewrite IH by (intros; apply Hf; by apply list_elem_of_further).
    by rewrite logged_logged, app_assoc.
Qed.

End CollectFacts.

(** A loop whose output ignores the position gives the same elements for
    every order of its input. *)
Lemma collectFrom_shift {A C} (out : A → list C) i i' (l : list A) :
  Eff.collectFrom (λ _, out) i l = Eff.collectFrom (λ _, out) i' l.
Proof.
  revert i i'. induction l as [|x l IH]; intros i i'; simpl; [done|].
  by rewrite (IH (i + 1) (i' + 1)).
Qed.

Lemma collectFrom_Permutation {A C} (out : A → list C) i i' (l l' : list A) :
  l ≡ₚ l' → Eff.collectFrom (λ _, out) i l ≡ₚ Eff.collectFrom (λ _, out) i' l'.
Proof.
  intros Hp. revert i i'. induction Hp; intros i i'; simpl.
  - done.
  - by rewrite (IHHp (i + 1) (i' + 1)).
  - rewrite !app_assoc.
    rewrite (Permutation_app_comm (out y) (out x)).
    by rewrite (collectFrom_shift out (i + 1 + 1) (i' + 1 + 1)).
  - etrans; [apply (IHHp1 i i)|apply IHHp2].
Qed.

(** ** test4.vue: the sort *)

Section Test4Sort.
Import Js Eff Test4.
Variable localeCompare : string → string → Z.
Context {V : Type}.
Implicit Types (w : World V) (a b x : Row) (l : list Row).

Lemma sortCompare_run a b w :
  is_Some (a !! "Theme") →
  run (sortCompare (compareRows localeCompare) a b) w
  = (Returned (compareKey localeCompare a b), w).
Proof.
  intros [themeA Ha]. unfold sortCompare, compareRows, compareKey.
  destruct (sub (parseInt (a !! "Year")) (parseInt (b !! "Year"))) as [|z] eqn:Hd.
  - reflexivity.
  - destruct (decide (Num z ≠ Num 0)) as [Hz|Hz].
    + assert (z ≠ 0) by congruence. by destruct z.
    + assert (z = 0) as ->.
      { destruct (decide (z = 0)) as [|Hne]; [done|]. destruct Hz. congruence. }
      rewrite Ha. reflexivity.
Qed.

Lemma insertSorted_run x l w :
  is_Some (x !! "Theme") →
  run (insertSorted (compareRows localeCompare) x l) w
  = (Returned (insertRow localeCompare x l), w).
Proof.
  intros Hx. induction l as [|y l IH]; simpl; [done|].
  rewrite (run_bind_returned _ _ _ _ _ (sortCompare_run x y w Hx)).
  destruct (bool_decide (compareKey localeCompare x y ≤ 0)); [done|].
  by rewrite (run_bind_returned _ _ _ _ _ IH).
Qed.

Lemma insertRow_Permutation x l : insertRow localeCompare x l ≡ₚ x :: l.
Proof.
  induction l as [|y l IH]; simpl; [done|].
  destruct (bool_decide _); [done|]. rewrite IH. apply Permutation_swap.
Qed.

Lemma sortRows_Permutation l : sortRows localeCompare l ≡ₚ l.
Proof.
  induction l as [|x l IH]; simpl; [done|].
  by rewrite insertRow_Permutation, IH.
Qed.

Lemma sortRows_length l : length (sortRows localeCompare l) = length l.
Proof. by rewrite sortRows_Permutation. Qed.

Lemma sortRows_Forall (P : Row → Prop) l :
  Forall P l → Forall P (sortRows localeCompare l).
Proof. by rewrite sortRows_Permutation. Qed.

Lemma sort_run l w :
  Forall (λ row : Row, is_Some (row !! "Theme")) l →
  run (sort (compareRows localeCompare) l) w = (Returned (sortRows localeCompare l), w).
Proof.
  induction 1 as [|x l Hx Hl IH]; simpl; [done|].
  rewrite (run_bind_returned _ _ _ _ _ IH). by apply insertSorted_run.
Qed.

(** When every year is a number the comparator orders by year first, and
    the sorted rows are in the order of their years. *)
Lemma compareKey_notLater a b :
  parseInt (a !! "Year") ≠ NaN → parseInt (b !! "Year") ≠ NaN →
  (compareKey localeCompare a b ≤ 0 → notLater a b)
  ∧ (¬ compareKey localeCompare a b ≤ 0 → notLater b a).
Proof.
  unfold compareKey, notLater.
  destruct (parseInt (a !! "Year")) as [|ya], (parseInt (b !! "Year")) as [|yb];
    try done.
  intros _ _. simpl.
  destruct (ya - yb) as [|p|p] eqn:Hd; split; intros; lia.
Qed.

Lemma insertRow_Sorted x l :
  parseInt (x !! "Year") ≠ NaN →
  Forall (λ row : Row, parseInt (row !! "Year") ≠ NaN) l →
  Sorted notLater l → Sorted notLater (insertRow localeCompare x l).
Proof.
  intros Hx Hl Hs. induction l as [|y l IH]; simpl.
  - by repeat constructor.
  - apply Forall_cons in Hl as [Hy Hl]. apply Sorted_inv in Hs as [Hs Hhd].
    destruct (compareKey_notLater x y Hx Hy) as [Hle Hgt].
    case_bool_decide as Hc.
    + constructor; [by constructor|]. constructor. by apply Hle.
    + constructor; [by apply IH|].
      destruct l as [|z l]; simpl.
      * constructor. by apply Hgt.
      * case_bool_decide; constructor; [by apply Hgt|].
        by apply HdRel_inv in Hhd.
Qed.

Lemma sortRows_Sorted l :
  Forall (λ row : Row, parseInt (row !! "Year") ≠ NaN) l →
  Sorted notLater (sortRows localeCompare l).
Proof.
  induction 1 as [|x l Hx Hl IH]; simpl; [constructor|].
  apply insertRow_Sorted; [done| |done]. by apply sortRows_Forall.
Qed.

End Test4Sort.

Lemma length_collectFrom_with {A C} (out : Z → A → list C) (n : A → nat) i (l : list A) :
  (∀ j x, x ∈ l → length (out j x) = n x) →
  length (Eff.collectFrom out i l) = sum_list_with n l.
Proof.
  revert i. induction l as [|x l IH]; intros i Hn; simpl; [done|].
  rewrite length_app, (Hn i x) by apply list_elem_of_here.
  rewrite IH; [done|]. intros j y Hy. apply Hn. by apply list_elem_of_further.
Qed.

Lemma filter_all {A} (P : A → Prop) `{∀ x, Decision (P x)} (l : list A) :
  Forall P l → filter P l = l.
Proof.
  induction 1 as [|x l Hx Hl IH]; [done|]. by rewrite filter_cons_True, IH.
Qed.

Lemma filter_none {A} (P : A → Prop) `{∀ x, Decision (P x)} (l : list A) :
  Forall (λ x, ¬ P x) l → filter P l = [].
Proof.
  induction 1 as [|x l Hx Hl IH]; [done|]. by rewrite filter_cons_False.
Qed.

Lemma elem_of_concat {A} (ls : list (list A)) (x : A) :
  x ∈ concat ls ↔ ∃ l, l ∈ ls ∧ x ∈ l.
Proof.
  induction ls as [|l ls IH]; simpl.
  - split; [by intros ?%elem_of_nil|]. by intros (l & ?%elem_of_nil & _).
  - rewrite elem_of_app, IH. split.
    + intros [Hx|(l' & Hl' & Hx)]; [exists l|exists l']; split; try done.
      * apply list_elem_of_here.
      * by apply list_elem_of_further.
    + intros (l' & [->|Hl']%elem_of_cons & Hx); [by left|right]. by exists l'.
Qed.

(** ** test4.vue: what the transformer returns *)

Section Test4Facts.
Import Js Eff Test4.
Variable localeCompare : string → string → Z.
Context {V : Type}.
Implicit Types (w : World V) (row : Row) (rows : list Row) (themes : list string).

Lemma transformCSVToSankey4_run rows themes w :
  Forall (λ row, is_Some (row !! "Theme")) rows →
  run (transformCSVToSankey localeCompare rows themes) w
  = (Returned
       {| nodes := mapi (λ index theme, ThemeNode index theme) themes
                   ++ mapi (eventNode themes) (sortRows localeCompare rows);
          links := linksFrom themes 0 (sortRows localeCompare rows) |},
     logged (logOf themes (sortRows localeCompare rows)
             ++ [createdLog (linksFrom themes 0 (sortRows localeCompare rows))
                   (sortRows localeCompare rows)]) w).
Proof.
  intros Hrows. unfold transformCSVToSankey.
  rewrite (run_bind_returned _ _ _ _ _ (sort_run localeCompare rows w Hrows)).
  pose proof (sortRows_Forall localeCompare _ _ Hrows) as Hsorted.
  set (sortedData := sortRows localeCompare rows) in *.
  erewrite run_bind_returned.
  2:{ apply (forEachFrom_collect _
         (λ index row, rowLinks themes (len themes + index) row)
         (λ _ row, rowLog themes row)).
      intros acc j row w' Hrow. rewrite Forall_forall in Hsorted.
      destruct (Hsorted row Hrow) as [s Hs]. rewrite Hs.
      rewrite (run_bind_returned _ _ w' s w' eq_refl). cbv beta.
      rewrite (run_bind_returned _ _ w' () (logged [eventLog row] w') eq_refl).
      erewrite (forEachFrom_collect _
         (λ _ theme, if decide (indexOf themes theme ≠ -1)
                     then [makeLink (indexOf themes theme) (len themes + j) row theme]
                     else [])
         (λ _ theme, if decide (indexOf themes theme ≠ -1) then []
                     else [themeWarning theme])).
      - rewrite logged_logged. unfold rowLinks, rowLog, rowWarnings, listedThemes.
        rewrite Hs. reflexivity.
      - intros acc' _ theme w'' _. cbv beta zeta.
        destruct (decide (indexOf themes theme ≠ -1)).
        + by rewrite logged_nil.
        + by rewrite app_nil_r. }
  rewrite <- logged_logged. reflexivity.
Qed.

Lemma stateless_transformCSVToSankey4 rows themes :
  stateless (transformCSVToSankey localeCompare rows themes : M V Dataset).
Proof.
  unfold transformCSVToSankey. apply stateless_bind.
  - apply stateless_sort. intros a b. unfold compareRows.
    destruct (decide _); [apply stateless_ret|].
    apply stateless_bind; [apply stateless_receiver|]. intros s. apply stateless_ret.
  - intros sortedData. apply stateless_bind.
    + apply stateless_forEachFrom. intros links index row.
      apply stateless_bind; [apply stateless_receiver|]. intros s.
      apply stateless_bind; [apply stateless_consoleWrite|]. intros _.
      apply stateless_forEachFrom. intros links' _ theme.
      destruct (decide _); [apply stateless_ret|].
      apply stateless_bind; [apply stateless_consoleWrite|]. intros _.
      apply stateless_ret.
    + intros links. apply stateless_bind; [apply stateless_consoleWrite|].
      intros _. apply stateless_ret.
Qed.

Lemma uniqueThemes_run rows w :
  Forall (λ row, is_Some (row !! "Theme")) rows →
  run (uniqueThemes rows) w = (Returned (newSet (concat (listedThemes <$> rows))), w).
Proof.
  intros Hrows. unfold uniqueThemes.
  erewrite run_bind_returned.
  2:{ apply (mapFrom_returns _ (λ _ v, splitThemes (default "" v))).
      intros j v Hv. apply list_elem_of_fmap in Hv as (row & -> & Hrow).
      rewrite Forall_forall in Hrows. destruct (Hrows row Hrow) as [s ->].
      reflexivity. }
  unfold mapi. rewrite (imap_const (λ v, splitThemes (default "" v))).
  rewrite <- list_fmap_compose. reflexivity.
Qed.

Lemma stateless_uniqueThemes rows : stateless (uniqueThemes rows : M V (list string)).
Proof.
  unfold uniqueThemes. apply stateless_bind.
  - apply stateless_mapFrom. intros j v.
    apply stateless_bind; [apply stateless_receiver|]. intros s. apply stateless_ret.
  - intros listed. apply stateless_ret.
Qed.

Lemma elem_of_uniqueThemes rows theme :
  theme ∈ newSet (concat (listedThemes <$> rows))
  ↔ ∃ row, row ∈ rows ∧ theme ∈ listedThemes row.
Proof.
  rewrite elem_of_newSet, elem_of_concat. split.
  - intros (ts & Hts & Ht). apply list_elem_of_fmap in Hts as (row & -> & Hrow).
    by exists row.
  - intros (row & Hrow & Ht). exists (listedThemes row). split; [|done].
    apply list_elem_of_fmap. by exists row.
Qed.

(** *** The links *)

Lemma elem_of_rowLinks themes eventIndex row link :
  link ∈ rowLinks themes eventIndex row
  ↔ ∃ theme, theme ∈ listedThemes row ∧ theme ∈ themes
             ∧ link = makeLink (indexOf themes theme) eventIndex row theme.
Proof.
  unfold rowLinks. rewrite elem_of_collectFrom. split.
  - intros (j & theme & Hj & Hl). destruct (decide _) as [Hi|]; [|by apply elem_of_nil in Hl].
    apply list_elem_of_singleton in Hl. exists theme.
    split; [by eapply list_elem_of_lookup_2|]. split; [by apply indexOf_found|done].
  - intros (theme & Ht & Hk & ->). apply list_elem_of_lookup in Ht as [j Hj].
    exists j, theme. split; [done|].
    rewrite decide_True by by apply indexOf_found. apply list_elem_of_here.
Qed.

Lemma rowLinks_target themes eventIndex row :
  Forall (λ link, target link = eventIndex) (rowLinks themes eventIndex row).
Proof.
  apply Forall_forall. intros link (theme & _ & _ & ->)%elem_of_rowLinks. done.
Qed.

Lemma rowLinks_known themes eventIndex row :
  Forall (λ theme, theme ∈ themes) (listedThemes row) →
  rowLinks themes eventIndex row
  = (λ theme, makeLink (indexOf themes theme) eventIndex row theme) <$> listedThemes row.
Proof.
  intros Hknown. unfold rowLinks. generalize 0.
  induction Hknown as [|theme ts Ht Hts IH]; intros i; [done|].
  simpl. rewrite decide_True by by apply indexOf_found. simpl. by rewrite IH.
Qed.

Lemma rowWarnings_known themes row :
  Forall (λ theme, theme ∈ themes) (listedThemes row) → rowWarnings themes row = [].
Proof.
  intros Hknown. unfold rowWarnings. generalize 0.
  induction Hknown as [|theme ts Ht Hts IH]; intros i; [done|].
  simpl. rewrite decide_True by by apply indexOf_found. apply IH.
Qed.

Lemma elem_of_rowWarnings themes row entry :
  entry ∈ rowWarnings themes row
  ↔ ∃ theme, theme ∈ listedThemes row ∧ (theme ∉ themes) ∧ entry = themeWarning theme.
Proof.
  unfold rowWarnings. rewrite elem_of_collectFrom. split.
  - intros (j & theme & Hj & Hl). destruct (decide _) as [|Hi]; [by apply elem_of_nil in Hl|].
    apply list_elem_of_singleton in Hl. exists theme.
    split; [by eapply list_elem_of_lookup_2|]. split; [|done].
    intros Hin. by apply Hi, indexOf_found.
  - intros (theme & Ht & Hk & ->). apply list_elem_of_lookup in Ht as [j Hj].
    exists j, theme. split; [done|].
    rewrite decide_False; [apply list_elem_of_here|]. intros Hi. by apply Hk, indexOf_found.
Qed.

Lemma elem_of_linksFrom themes rows link :
  link ∈ linksFrom themes 0 rows
  ↔ ∃ (j : nat) row theme,
      rows !! j = Some row ∧ theme ∈ listedThemes row ∧ theme ∈ themes
      ∧ link = makeLink (indexOf themes theme) (len themes + Z.of_nat j) row theme.
Proof.
  unfold linksFrom. rewrite elem_of_collectFrom. split.
  - intros (j & row & Hj & (theme & ? & ? & ->)%elem_of_rowLinks).
    exists j, row, theme. rewrite Z.add_0_l. by repeat split.
  - intros (j & row & theme & Hj & ? & ? & ->). exists j, row. split; [done|].
    apply elem_of_rowLinks. exists theme. rewrite Z.add_0_l. by repeat split.
Qed.

(** The links that end at the event of position [j] are those of its row. *)
Lemma linksFrom_of_event themes rows (j : nat) row :
  rows !! j = Some row →
  filter (λ link, target link = len themes + Z.of_nat j) (linksFrom themes 0 rows)
  = rowLinks themes (len themes + Z.of_nat j) row.
Proof.
  intros Hj. unfold linksFrom. rewrite collectFrom_filter.
  rewrite (collectFrom_single _ 0 rows j row Hj).
  - rewrite Z.add_0_l. apply filter_all, rowLinks_target.
  - intros j' row' Hne _. rewrite Z.add_0_l. apply filter_none.
    eapply Forall_impl; [apply rowLinks_target|]. simpl. intros link ->. lia.
Qed.

Lemma logOf_warnings themes rows entry :
  entry ∈ logOf themes rows
  ↔ ∃ row, row ∈ rows ∧ (entry = eventLog row ∨ entry ∈ rowWarnings themes row).
Proof.
  unfold logOf. rewrite elem_of_collectFrom. split.
  - intros (j & row & Hj & Hl). exists row. split; [by eapply list_elem_of_lookup_2|].
    by apply elem_of_cons in Hl.
  - intros (row & Hrow & Hl). apply list_elem_of_lookup in Hrow as [j Hj].
    exists j, row. split; [done|]. by apply elem_of_cons.
Qed.

End Test4Facts.

(** *** A row without Theme

    The sort may or may not call [localeCompare] on such a row; the loop
    over the sorted rows calls [split] on it in any case. *)

Section Test4Throws.
Import Js Eff Test4.
Variable localeCompare : string → string → Z.
Context {V : Type}.
Implicit Types (w : World V) (row : Row) (rows : list Row) (themes : list string).

Lemma sortCompare_outcome (a b : Row) w :
  run (sortCompare (compareRows localeCompare) a b) w
  = (Returned (compareKey localeCompare a b), w)
  ∨ run (sortCompare (compareRows localeCompare) a b) w
    = (Thrown (TypeError "localeCompare"), w).
Proof.
  destruct (a !! "Theme") as [themeA|] eqn:Ha.
  - left. apply sortCompare_run. by rewrite Ha.
  - unfold sortCompare, compareRows, compareKey.
    destruct (sub (parseInt (a !! "Year")) (parseInt (b !! "Year"))) as [|z];
      [by left|].
    destruct (decide (Num z ≠ Num 0)) as [Hz|Hz].
    + left. assert (z ≠ 0) by congruence. by destruct z.
    + right. by rewrite Ha.
Qed.

Lemma insertSorted_outcome (x : Row) rows w :
  run (insertSorted (compareRows localeCompare) x rows) w
  = (Returned (insertRow localeCompare x rows), w)
  ∨ run (insertSorted (compareRows localeCompare) x rows) w
    = (Thrown (TypeError "localeCompare"), w).
Proof.
  induction rows as [|y rows IH]; simpl; [by left|].
  destruct (sortCompare_outcome x y w) as [Hc|Hc].
  - rewrite (run_bind_returned _ _ _ _ _ Hc).
    destruct (bool_decide (compareKey localeCompare x y ≤ 0)); [by left|].
    destruct IH as [IH|IH].
    + left. by rewrite (run_bind_returned _ _ _ _ _ IH).
    + right. by rewrite (run_bind_thrown _ _ _ _ _ IH).
  - right. by rewrite (run_bind_thrown _ _ _ _ _ Hc).
Qed.

Lemma sort_outcome rows w :
  run (sort (compareRows localeCompare) rows) w
  = (Returned (sortRows localeCompare rows), w)
  ∨ run (sort (compareRows localeCompare) rows) w
    = (Thrown (TypeError "localeCompare"), w).
Proof.
  induction rows as [|x rows IH]; simpl; [by left|].
  destruct IH as [IH|IH].
  - rewrite (run_bind_returned _ _ _ _ _ IH). apply insertSorted_outcome.
  - right. by rewrite (run_bind_thrown _ _ _ _ _ IH).
Qed.

(** A loop whose body returns on some elements and throws [e] on the
    others throws [e] as soon as there is one of the others. *)
Lemma forEachFrom_throws {A B} (f : B → Z → A → M V B) (good : A → Prop)
    `{∀ x, Decision (good x)} e i l acc w :
  (∀ acc' j x w', good x → ∃ b w'', run (f acc' j x) w' = (Returned b, w'')) →
  (∀ acc' j x w', ¬ good x → ∃ w'', run (f acc' j x) w' = (Thrown e, w'')) →
  ¬ Forall good l →
  ∃ w', run (forEachFrom f i l acc) w = (Thrown e, w').
Proof.
  intros Hgood Hbad. revert i acc w.
  induction l as [|x l IH]; intros i acc w Hl; [by destruct Hl|].
  simpl. destruct (decide (good x)) as [Hx|Hx].
  - destruct (Hgood acc i x w Hx) as (b & w'' & Hb).
    rewrite (run_bind_returned _ _ _ _ _ Hb). apply IH.
    intros Hall. apply Hl. by constructor.
  - destruct (Hbad acc i x w Hx) as (w'' & Hb).
    exists w''. by rewrite (run_bind_thrown _ _ _ _ _ Hb).
Qed.

Lemma transformCSVToSankey4_throws rows themes w :
  ¬ Forall (λ row, is_Some (row !! "Theme")) rows →
  ∃ prop w',
    run (transformCSVToSankey localeCompare rows themes) w = (Thrown (TypeError prop), w').
Proof.
  intros Hrows. unfold transformCSVToSankey.
  destruct (sort_outcome rows w) as [Hs|Hs].
  2:{ exists "localeCompare", w. by rewrite (run_bind_thrown _ _ _ _ _ Hs). }
  rewrite (run_bind_returned _ _ _ _ _ Hs).
  assert (¬ Forall (λ row, is_Some (row !! "Theme")) (sortRows localeCompare rows))
    as Hsorted by by rewrite sortRows_Permutation.
  match goal with
  | |- ∃ _ _, run (forEachFrom ?f ?i ?l ?acc ≫= _) ?w0 = _ =>
      destruct (forEachFrom_throws f (λ row : Row, is_Some (row !! "Theme"))
                  (TypeError "split") i l acc w0) as (w' & Hw');
        [| |exact Hsorted|]
  end.
  3:{ exists "split", w'. by rewrite (run_bind_thrown _ _ _ _ _ Hw'). }
  - intros acc j row w1 [s Hrow]. rewrite Hrow.
    rewrite (run_bind_returned _ _ w1 s w1 eq_refl). cbv beta.
    rewrite (run_bind_returned _ _ w1 () (logged [eventLog row] w1) eq_refl).
    eexists _, _.
    apply (forEachFrom_collect _
      (λ _ theme, if decide (indexOf themes theme ≠ -1)
                  then [makeLink (indexOf themes theme) (len themes + j) row theme]
                  else [])
      (λ _ theme, if decide (indexOf themes theme ≠ -1) then []
                  else [themeWarning theme])).
    intros acc' _ theme w'' _. cbv beta zeta.
    destruct (decide (indexOf themes theme ≠ -1)).
    + by rewrite logged_nil.
    + by rewrite app_nil_r.
  - intros acc j row w1 Hrow. exists w1.
    destruct (row !! "Theme") as [s|] eqn:Hs'; [by destruct Hrow|]. reflexivity.
Qed.

End Test4Throws.

(** ** The nodes of test4.vue *)

Section Test4Nodes.
Import Js Eff Test4.
Implicit Types (themes : list string) (rows : list Row).

Lemma nodes4_ids themes rows :
  id <$> (mapi (λ index theme, ThemeNode index theme) themes
          ++ mapi (eventNode themes) rows)
  = seqZ 0 (len themes + len rows).
Proof.
  rewrite fmap_app, (ids_mapi _ id 0), (ids_mapi _ id (len themes)) by done.
  unfold len. by rewrite seqZ_app by lia.
Qed.

Lemma nodes4_event themes rows (j : nat) row :
  rows !! j = Some row →
  (mapi (λ index theme, ThemeNode index theme) themes ++ mapi (eventNode themes) rows)
    !! (length themes + j)%nat
  = Some (eventNode themes (Z.of_nat j) row).
Proof.
  intros Hj. rewrite lookup_app_r by (rewrite mapi_length; lia).
  rewrite mapi_length, Nat.add_comm, Nat.add_sub, mapi_lookup, Hj. done.
Qed.

Lemma listedThemes_nonempty (row : Row) : listedThemes row ≠ [].
Proof.
  unfold listedThemes, splitThemes.
  pose proof (split_nonempty ";" (default "" (row !! "Theme"))) as Hs.
  by destruct (split _ _).
Qed.

Lemma carries_Theme rows :
  Forall (carries ["Theme"]) rows → Forall (λ row : Row, is_Some (row !! "Theme")) rows.
Proof.
  intros Hc. eapply Forall_impl; [exact Hc|].
  intros row Hr. by apply Forall_cons in Hr as [? _].
Qed.

Lemma carries_Theme_Year rows :
  Forall (carries ["Theme"; "Year"]) rows →
  Forall (λ row : Row, is_Some (row !! "Theme")) rows
  ∧ Forall (λ row : Row, is_Some (row !! "Year")) rows.
Proof.
  intros Hc. split; (eapply Forall_impl; [exact Hc|]); intros row Hr.
  - by apply Forall_cons in Hr as [? _].
  - by apply Forall_cons in Hr as [_ [? _]%Forall_cons].
Qed.

End Test4Nodes.

(** ** The claims about the transformers *)

Section Transformers.
Import Js Eff.
Variable localeCompare : string → string → Z.
Context {V : Type}.
Implicit Types (w : World V) (csvData : list Row).

(** C1.  Given at least one CSV row, every row carrying the Theme and Year
    columns, and the theme and year lists the loader computes from the rows,
    each transformer returns a dataset with at least two nodes and at least
    one link, and the source and the target of every link are ids of nodes
    of that dataset.  First conjunct: test2.vue; second: test4.vue. *)
Theorem transformer_dataset_well_formed csvData w :
  csvData ≠ [] →
  Forall (carries ["Theme"; "Year"]) csvData →
  (∃ d,
     run (Test2.transformCSVToSankey csvData
            (Test2.distinct "Theme" csvData) (Test2.distinct "Year" csvData)) w
     = (Returned d, w)
     ∧ (2 ≤ length (Test2.nodes d))%nat
     ∧ (1 ≤ length (Test2.links d))%nat
     ∧ Forall (λ link,
          Test2.source link ∈ Test2.id <$> Test2.nodes d
          ∧ Test2.target link ∈ Test2.id <$> Test2.nodes d) (Test2.links d))
  ∧ (∃ d w',
       run (themes ← Test4.uniqueThemes csvData;
            Test4.transformCSVToSankey localeCompare csvData themes) w
       = (Returned d, w')
       ∧ (2 ≤ length (Test4.nodes d))%nat
       ∧ (1 ≤ length (Test4.links d))%nat
       ∧ Forall (λ link,
            Test4.source link ∈ Test4.id <$> Test4.nodes d
            ∧ Test4.target link ∈ Test4.id <$> Test4.nodes d) (Test4.links d)).
Proof.
  intros Hne Hcols. destruct (carries_Theme_Year _ Hcols) as [Hthemes Hyears].
  split.
  - eexists. split.
    { apply transformCSVToSankey2_run. by apply distinct_defined. }
    pose proof (distinct_nonempty "Theme" csvData Hne) as Hk.
    pose proof (distinct_nonempty "Year" csvData Hne) as Hm.
    set (themes := Test2.distinct "Theme" csvData) in *.
    set (years := Test2.distinct "Year" csvData) in *.
    simpl. split; [|split].
    + rewrite length_app, !mapi_length.
      destruct themes, years; simpl; try done; lia.
    + rewrite length_map. destruct csvData; simpl; [done|lia].
    + rewrite fmap_app, (ids_mapi _ Test2.id 0),
        (ids_mapi _ Test2.id (len themes)) by done.
      apply Forall_forall. intros link (row & -> & Hrow)%list_elem_of_fmap. simpl.
      assert (row !! "Theme" ∈ themes) as Ht by (apply distinct_values; eauto).
      assert (row !! "Year" ∈ years) as Hy by (apply distinct_values; eauto).
      apply indexOf_present in Ht, Hy.
      split; apply elem_of_app; [left|right]; apply elem_of_seqZ; lia.
  - pose proof (uniqueThemes_run (V:=V) csvData w Hthemes) as Hu.
    set (themes := newSet (concat (Test4.listedThemes <$> csvData))) in *.
    pose proof (transformCSVToSankey4_run localeCompare csvData themes w Hthemes) as Ht.
    set (sortedData := Test4.sortRows localeCompare csvData) in *.
    eexists _, _. split.
    { rewrite (run_bind_returned _ _ _ _ _ Hu). exact Ht. }
    assert (length sortedData = length csvData) as Hlen by apply sortRows_length.
    assert (∀ (j : nat) row theme, sortedData !! j = Some row →
              theme ∈ Test4.listedThemes row → theme ∈ themes) as Hknown.
    { intros j row theme Hj Hl. apply elem_of_uniqueThemes. exists row.
      split; [|done]. rewrite <- (sortRows_Permutation localeCompare csvData).
      by eapply list_elem_of_lookup_2. }
    simpl. split; [|split].
    + rewrite length_app, !mapi_length, Hlen.
      destruct csvData as [|row0 rows]; [done|].
      destruct (Test4.listedThemes row0) as [|t ts] eqn:Hl0;
        [by apply listedThemes_nonempty in Hl0|].
      assert (t ∈ themes) as Hin.
      { apply elem_of_uniqueThemes. exists row0. split; [apply list_elem_of_here|].
        rewrite Hl0. apply list_elem_of_here. }
      destruct themes; [by apply elem_of_nil in Hin|]. simpl. lia.
    + destruct sortedData as [|row0 rows] eqn:Hs;
        [destruct csvData; [done|simpl in Hlen; lia]|].
      destruct (Test4.listedThemes row0) as [|t ts] eqn:Hl0;
        [by apply listedThemes_nonempty in Hl0|].
      assert (Test4.makeLink (indexOf themes t) (len themes + Z.of_nat 0) row0 t
              ∈ Test4.linksFrom themes 0 (row0 :: rows)) as Hin.
      { apply elem_of_linksFrom. exists 0%nat, row0, t.
        split; [done|]. split; [rewrite Hl0; apply list_elem_of_here|].
        split; [|done]. apply (Hknown 0%nat row0); [done|].
        rewrite Hl0. apply list_elem_of_here. }
      destruct (Test4.linksFrom themes 0 (row0 :: rows));
        [by apply elem_of_nil in Hin|simpl; lia].
    + rewrite nodes4_ids. apply Forall_forall.
      intros link (j & row & theme & Hj & Hl & Hin & ->)%elem_of_linksFrom. simpl.
      apply indexOf_present in Hin. apply lookup_lt_Some in Hj.
      split; apply elem_of_seqZ; unfold len in *; lia.
Qed.


(** C2.  The theme nodes get the identifiers 0 to k-1 and the nodes of the
    second category the identifiers k to k+m-1, where k and m count the
    theme values and the second-category nodes.  In test2.vue both lists hold
    each value once, in the order first seen in the rows; in test4.vue the
    themes are in the order first listed and the events follow the sorted
    rows, which are in the order of their years when every year is a safe
    integer. *)
Theorem node_identifiers_consecutive csvData w :
  Forall (carries ["Theme"; "Year"]) csvData →
  (∃ d,
     let themes := Test2.distinct "Theme" csvData in
     let years := Test2.distinct "Year" csvData in
     run (Test2.transformCSVToSankey csvData themes years) w = (Returned d, w)
     ∧ themes = firstSeen ((λ row : Row, row !! "Theme") <$> csvData)
     ∧ years = firstSeen ((λ row : Row, row !! "Year") <$> csvData)
     ∧ NoDup themes ∧ NoDup years
     ∧ Test2.id <$> Test2.nodes d = seqZ 0 (len themes + len years)
     ∧ (λ node, (Test2.name node, Test2.type node)) <$> Test2.nodes d
       = ((λ theme, (theme, Test2.type_theme)) <$> themes)
         ++ ((λ year, (year, Test2.type_year)) <$> years))
  ∧ (∃ themes d w' sortedData,
       run (Test4.uniqueThemes csvData) w = (Returned themes, w)
       ∧ run (Test4.transformCSVToSankey localeCompare csvData themes) w
         = (Returned d, w')
       ∧ themes = firstSeen (concat (Test4.listedThemes <$> csvData))
       ∧ NoDup themes
       ∧ sortedData ≡ₚ csvData
       ∧ (Forall (λ row : Row, isSafeInteger (parseInt (row !! "Year"))) csvData →
          Sorted Test4.notLater sortedData)
       ∧ Test4.id <$> Test4.nodes d = seqZ 0 (len themes + len csvData)
       ∧ Test4.nodes d
         = mapi (λ index theme, Test4.ThemeNode index theme) themes
           ++ mapi (Test4.eventNode themes) sortedData).
Proof.
  intros Hcols. destruct (carries_Theme_Year _ Hcols) as [Hthemes Hyears].
  split.
  - eexists. cbv zeta. split.
    { apply transformCSVToSankey2_run. by apply distinct_defined. }
    split; [apply newSet_firstSeen|]. split; [apply newSet_firstSeen|].
    split; [apply NoDup_newSet|]. split; [apply NoDup_newSet|].
    simpl. split.
    + rewrite fmap_app, (ids_mapi _ Test2.id 0),
        (ids_mapi _ Test2.id (len (Test2.distinct "Theme" csvData))) by done.
      unfold len. by rewrite seqZ_app by lia.
    + rewrite fmap_app. unfold mapi. rewrite !fmap_imap.
      by rewrite <- !imap_const.
  - exists (newSet (concat (Test4.listedThemes <$> csvData))).
    eexists _, _, (Test4.sortRows localeCompare csvData).
    split; [by apply uniqueThemes_run|].
    split; [by apply transformCSVToSankey4_run|].
    split; [apply newSet_firstSeen|]. split; [apply NoDup_newSet|].
    split; [apply sortRows_Permutation|].
    split.
    { intros Hsafe. apply sortRows_Sorted. eapply Forall_impl; [exact Hsafe|].
      intros row Hrow Hnan. simpl in Hrow. by rewrite Hnan in Hrow. }
    simpl. split; [|done].
    rewrite nodes4_ids. unfold len. by rewrite sortRows_length.
Qed.

(** C3.  In test4.vue, a row that lists exactly two different themes, both
    among the known themes, gets exactly two links (the links that end at
    the row's event node): one per theme, in the order listed, equal in
    target, value, description, fullDescription and year. *)
Theorem two_themes_two_links csvData themes row a b w :
  Forall (carries ["Theme"]) csvData →
  row ∈ csvData →
  Test4.listedThemes row = [a; b] →
  a ≠ b → a ∈ themes → b ∈ themes →
  ∃ d w' (j : nat) linkA linkB,
    run (Test4.transformCSVToSankey localeCompare csvData themes) w = (Returned d, w')
    ∧ Test4.nodes d !! (length themes + j)%nat
      = Some (Test4.eventNode themes (Z.of_nat j) row)
    ∧ filter (λ link, Test4.target link = len themes + Z.of_nat j) (Test4.links d)
      = [linkA; linkB]
    ∧ Test4.theme linkA = a ∧ Test4.theme linkB = b
    ∧ Test4.theme linkA ≠ Test4.theme linkB
    ∧ Test4.target linkA = Test4.target linkB
    ∧ Test4.value linkA = Test4.value linkB
    ∧ Test4.description linkA = Test4.description linkB
    ∧ Test4.fullDescription linkA = Test4.fullDescription linkB
    ∧ Test4.year linkA = Test4.year linkB.
Proof.
  intros Hcols Hrow Hlisted Hab Ha Hb. apply carries_Theme in Hcols.
  rewrite <- (sortRows_Permutation localeCompare csvData) in Hrow.
  apply list_elem_of_lookup in Hrow as [j Hj].
  eexists _, _, j, _, _. split; [by apply transformCSVToSankey4_run|].
  simpl. split; [by apply nodes4_event|]. split.
  { rewrite (linksFrom_of_event themes _ j row Hj), rowLinks_known, Hlisted.
    - reflexivity.
    - rewrite Hlisted. by repeat constructor. }
  by repeat split.
Qed.

(** C4.  In test4.vue, with every row carrying a Theme, the transformer
    returns whatever the known themes are.  A listed theme that is not
    among them gets no link and a warning on the console; every listed theme
    that is known, of every row, gets its link to the row's event node. *)
Theorem unknown_theme_skipped csvData themes w :
  Forall (carries ["Theme"]) csvData →
  ∃ d out,
    run (Test4.transformCSVToSankey localeCompare csvData themes) w
    = (Returned d, logged out w)
    ∧ ∀ row theme, row ∈ csvData → theme ∈ Test4.listedThemes row →
        if decide (theme ∈ themes) then
          ∃ j : nat,
            Test4.nodes d !! (length themes + j)%nat
            = Some (Test4.eventNode themes (Z.of_nat j) row)
            ∧ Test4.makeLink (indexOf themes theme) (len themes + Z.of_nat j) row theme
              ∈ Test4.links d
        else
          Forall (λ link, Test4.theme link ≠ theme) (Test4.links d)
          ∧ Test4.themeWarning theme ∈ out.
Proof.
  intros Hcols. apply carries_Theme in Hcols.
  eexists _, _. split; [by apply transformCSVToSankey4_run|].
  intros row theme Hrow Hlisted. simpl.
  rewrite <- (sortRows_Permutation localeCompare csvData) in Hrow.
  destruct (decide (theme ∈ themes)) as [Hknown|Hunknown].
  - apply list_elem_of_lookup in Hrow as [j Hj]. exists j.
    split; [by apply nodes4_event|].
    apply elem_of_linksFrom. by exists j, row, theme.
  - split.
    + apply Forall_forall.
      intros link (j & row' & theme' & _ & _ & Hin & ->)%elem_of_linksFrom.
      simpl. by intros ->.
    + apply elem_of_app. left. apply logOf_warnings. exists row.
      split; [done|]. right. apply elem_of_rowWarnings. by exists theme.
Qed.

(** C9.  In test4.vue, with the themes the loader computes from the rows
    (every row carrying a Theme), every theme a row lists is among them, the
    transformer writes no warning, and the number of links is the number of
    listed themes summed over the rows. *)
Theorem loader_themes_always_resolve csvData w :
  Forall (carries ["Theme"]) csvData →
  ∃ themes d out,
    run (Test4.uniqueThemes csvData) w = (Returned themes, w)
    ∧ run (Test4.transformCSVToSankey localeCompare csvData themes) w
      = (Returned d, logged out w)
    ∧ (∀ row theme, row ∈ csvData → theme ∈ Test4.listedThemes row → theme ∈ themes)
    ∧ Forall (λ entry, level entry ≠ WarnLevel) out
    ∧ length (Test4.links d)
      = sum_list_with (λ row, length (Test4.listedThemes row)) csvData.
Proof.
  intros Hcols. apply carries_Theme in Hcols.
  set (themes := newSet (concat (Test4.listedThemes <$> csvData))).
  assert (∀ row, row ∈ csvData →
            Forall (λ theme, theme ∈ themes) (Test4.listedThemes row)) as Hknown.
  { intros row Hrow. apply Forall_forall. intros theme Hl.
    apply elem_of_uniqueThemes. by exists row. }
  exists themes. eexists _, _. split; [by apply uniqueThemes_run|].
  split; [by apply transformCSVToSankey4_run|].
  split; [|split].
  - intros row theme Hrow Hl. specialize (Hknown row Hrow).
    rewrite Forall_forall in Hknown. by apply Hknown.
  - apply Forall_app. split; [|by repeat constructor].
    apply Forall_forall. intros entry (row & Hrow & Hentry)%logOf_warnings.
    rewrite (sortRows_Permutation localeCompare csvData) in Hrow.
    destruct Hentry as [->|Hw]; [done|].
    rewrite rowWarnings_known in Hw by by apply Hknown. by apply elem_of_nil in Hw.
  - simpl. unfold Test4.linksFrom.
    rewrite (length_collectFrom_with _ (λ row, length (Test4.listedThemes row))).
    + by rewrite (sortRows_Permutation localeCompare csvData).
    + intros j row Hrow. rewrite (sortRows_Permutation localeCompare csvData) in Hrow.
      rewrite rowLinks_known by by apply Hknown. by rewrite length_fmap.
Qed.

(** C8.  Each transformer returns (or throws) the same thing in every
    world, for the same rows and category lists, and leaves the refs as they
    are; so does the step of the loader of test4.vue that computes the
    themes.  Run twice in a row on the same arguments, a transformer gives
    two equal datasets: same nodes in the same order, same links in the same
    order. *)
Theorem transformer_deterministic csvData (themes2 years2 : list JsVal)
    (themes4 : list string) :
  stateless (Test2.transformCSVToSankey csvData themes2 years2 : M V _)
  ∧ stateless (Test4.transformCSVToSankey localeCompare csvData themes4 : M V _)
  ∧ stateless (Test4.uniqueThemes csvData : M V _)
  ∧ ∀ w,
      (run (twice (Test2.transformCSVToSankey csvData themes2 years2)) w).1
      = match (run (Test2.transformCSVToSankey csvData themes2 years2) w).1 with
        | Returned d => Returned (d, d)
        | Thrown e => Thrown e
        end
      ∧ (run (twice (Test4.transformCSVToSankey localeCompare csvData themes4)) w).1
        = match (run (Test4.transformCSVToSankey localeCompare csvData themes4) w).1 with
          | Returned d => Returned (d, d)
          | Thrown e => Thrown e
          end.
Proof.
  split; [apply stateless_transformCSVToSankey2|].
  split; [apply stateless_transformCSVToSankey4|].
  split; [apply stateless_uniqueThemes|].
  intros w. split; apply stateless_twice.
  - apply stateless_transformCSVToSankey2.
  - apply stateless_transformCSVToSankey4.
Qed.

End Transformers.

(** ** Restyling *)

Section SvgFacts.
Import Svg.
Context {D : Type}.
Implicit Types (sel : Selection D) (p : D → bool) (f : D → Shape → Shape).

Lemma opacity_styleOpacityTo v s : opacity (styleOpacityTo v s) = v.
Proof. reflexivity. Qed.

Lemma restyle_data p f sel : (restyle p f sel).*1 = sel.*1.
Proof.
  unfold restyle. induction sel as [|e sel IH]; [done|].
  simpl. f_equal; [by destruct (p e.1)|apply IH].
Qed.

Lemma restyle_keeps {X} (obs : D * Shape → X) p f sel :
  (∀ d s, obs (d, f d s) = obs (d, s)) → obs <$> restyle p f sel = obs <$> sel.
Proof.
  intros Hf. unfold restyle. induction sel as [|[d s] sel IH]; [done|].
  simpl. f_equal; [|apply IH]. destruct (p d); [apply Hf|done].
Qed.

Lemma alter_keeps {X} (obs : D * Shape → X) (g : D * Shape → D * Shape) j sel :
  (∀ e, obs (g e) = obs e) → obs <$> alter g j sel = obs <$> sel.
Proof.
  intros Hg. revert j. induction sel as [|e sel IH]; intros j; [done|].
  destruct j as [|j]; simpl; [by rewrite Hg|]. f_equal. apply IH.
Qed.

Lemma seen_same_opacity sel sel' o :
  Forall (λ e, opacity e.2 = o) sel →
  Forall (λ e, opacity e.2 = o) sel' →
  girth <$> sel = girth <$> sel' →
  seen sel = seen sel'.
Proof.
  intros Ho. revert sel'. induction Ho as [|[d s] sel Hs Hsel IH]; intros sel' Ho' Heq.
  - by destruct sel'.
  - destruct Ho' as [|[d' s'] sel' Hs' Hsel']; [done|].
    simpl in *. injection Heq as -> Hw Heq. rewrite Hs, Hs', Hw. f_equal.
    by apply IH.
Qed.

Lemma restyle_length p f sel : length (restyle p f sel) = length sel.
Proof. unfold restyle. apply length_map. Qed.

Lemma alter_data (g : D * Shape → D * Shape) j sel :
  (∀ e, (g e).1 = e.1) → (alter g j sel).*1 = sel.*1.
Proof.
  intros Hg. revert j. induction sel as [|e sel IH]; intros j; [done|].
  destruct j as [|j]; simpl; [by rewrite Hg|]. f_equal. apply IH.
Qed.

(** After [g] on every element, each element stands in [R] to its new
    form. *)
Lemma Forall2_map_self (R : D * Shape → D * Shape → Prop) (g : D * Shape → D * Shape) sel :
  (∀ e, R e (g e)) → Forall2 R sel (map g sel).
Proof. intros Hg. induction sel as [|e sel IH]; simpl; by constructor. Qed.

Lemma seen_data sel (o w : D → Q) :
  Forall (λ e, opacity e.2 = o e.1 ∧ strokeWidth e.2 = w e.1) sel →
  seen sel = (λ d, (d, (o d, w d))) <$> sel.*1.
Proof.
  induction 1 as [|[d s] sel [Ho Hw] Hsel IH]; [done|].
  simpl in *. rewrite Ho, Hw. f_equal. apply IH.
Qed.

Lemma Forall_restyle_all f sel (P : D * Shape → Prop) :
  (∀ d s, P (d, f d s)) → Forall P (restyle all f sel).
Proof.
  intros Hf. unfold restyle. induction sel as [|[d s] sel IH]; simpl; by constructor.
Qed.

Lemma Forall_enter (mk : D → Shape) ds (P : D * Shape → Prop) :
  (∀ d, P (d, mk d)) → Forall P (enter mk ds).
Proof. intros Hf. unfold enter. induction ds; simpl; by constructor. Qed.

Lemma enter_data (mk : D → Shape) ds : (enter mk ds).*1 = ds.
Proof. unfold enter. induction ds as [|d ds IH]; [done|]. simpl. f_equal. apply IH. Qed.

End SvgFacts.

Lemma ge_not_lt (d : Svg.NodeDatum) (c : Q) :
  Svg.ge (Svg.x0Of d) c = negb (Svg.lt (Svg.x0Of d) c).
Proof. unfold Svg.ge, Svg.lt, Svg.x0Of. by destruct (Qlt_le_dec _ _). Qed.

(** The emphasised stroke is thicker than the idle one. *)
Lemma emphasised_thicker (w : Q) : (Qmax 2 w < Qmax 3 (w + 1))%Q.
Proof.
  destruct (Q.max_spec 2 w) as [[? ->]|[? ->]],
           (Q.max_spec 3 (w + 1)) as [[? ->]|[? ->]]; lra.
Qed.

(** ** Hover highlighting: what the handlers keep

    No handler changes a datum, and only the links ever get a new stroke
    width. *)

Section HoverKeeps.
Import Svg.
Variable chartWidth : Q.
Local Arguments restyle : simpl never.
Local Arguments alter : simpl never.

Local Arguments lt : simpl never.
Local Arguments ge : simpl never.

Lemma test2_handle_keeps c ev :
  (Test2.Hover.links (Test2.Hover.handle chartWidth c ev)).*1 = (Test2.Hover.links c).*1
  ∧ girth <$> Test2.Hover.nodes (Test2.Hover.handle chartWidth c ev)
    = girth <$> Test2.Hover.nodes c
  ∧ girth <$> Test2.Hover.labels (Test2.Hover.handle chartWidth c ev)
    = girth <$> Test2.Hover.labels c.
Proof.
  destruct ev as [i|i|j|j]; simpl.
  - destruct (Test2.Hover.nodes c !! i) as [[d s]|]; [|done].
    destruct (Test2.Hover.isLeftSide chartWidth d); simpl;
      by rewrite !restyle_data, !restyle_keeps.
  - destruct (Test2.Hover.nodes c !! i); [|done]. simpl.
    by rewrite !restyle_data, !restyle_keeps.
  - by rewrite alter_data.
  - by rewrite alter_data.
Qed.

Lemma test2_after_keeps evs c :
  (Test2.Hover.links (Test2.Hover.after chartWidth evs c)).*1 = (Test2.Hover.links c).*1
  ∧ girth <$> Test2.Hover.nodes (Test2.Hover.after chartWidth evs c)
    = girth <$> Test2.Hover.nodes c
  ∧ girth <$> Test2.Hover.labels (Test2.Hover.after chartWidth evs c)
    = girth <$> Test2.Hover.labels c.
Proof.
  revert c. induction evs as [|ev evs IH]; intros c; [done|].
  simpl. destruct (IH (Test2.Hover.handle chartWidth c ev)) as (-> & -> & ->).
  apply test2_handle_keeps.
Qed.

Lemma historical_handle_keeps c ev :
  (Historical.Hover.links (Historical.Hover.handle chartWidth c ev)).*1
  = (Historical.Hover.links c).*1
  ∧ girth <$> Historical.Hover.nodes (Historical.Hover.handle chartWidth c ev)
    = girth <$> Historical.Hover.nodes c
  ∧ girth <$> Historical.Hover.labels (Historical.Hover.handle chartWidth c ev)
    = girth <$> Historical.Hover.labels c
  ∧ girth <$> Historical.Hover.flowLabels (Historical.Hover.handle chartWidth c ev)
    = girth <$> Historical.Hover.flowLabels c.
Proof.
  destruct ev as [i|i]; simpl.
  - destruct (Historical.Hover.nodes c !! i) as [[d s]|]; [|done].
    destruct (lt (x0Of d) (chartWidth / 2)); simpl;
      [by rewrite !restyle_data, !restyle_keeps|].
    destruct (ge (x0Of d) (chartWidth / 2)); simpl; [|done].
    by rewrite !restyle_data, !restyle_keeps.
  - destruct (Historical.Hover.nodes c !! i); [|done]. simpl.
    by rewrite !restyle_data, !restyle_keeps.
Qed.

Lemma historical_after_keeps evs c :
  (Historical.Hover.links (Historical.Hover.after chartWidth evs c)).*1
  = (Historical.Hover.links c).*1
  ∧ girth <$> Historical.Hover.nodes (Historical.Hover.after chartWidth evs c)
    = girth <$> Historical.Hover.nodes c
  ∧ girth <$> Historical.Hover.labels (Historical.Hover.after chartWidth evs c)
    = girth <$> Historical.Hover.labels c
  ∧ girth <$> Historical.Hover.flowLabels (Historical.Hover.after chartWidth evs c)
    = girth <$> Historical.Hover.flowLabels c.
Proof.
  revert c. induction evs as [|ev evs IH]; intros c; [done|].
  simpl. destruct (IH (Historical.Hover.handle chartWidth c ev)) as (-> & -> & -> & ->).
  apply historical_handle_keeps.
Qed.

(** *** The reset of test2.vue and of the historical page

    Whatever the pointer did before, what is seen after [resetHighlighting]
    is what was seen when the chart was drawn. *)

Lemma test2_reset_restores result evs :
  seen (Test2.Hover.links (Test2.Hover.resetHighlighting
          (Test2.Hover.after chartWidth evs (Test2.Hover.createChartElements result))))
  = seen (Test2.Hover.links (Test2.Hover.createChartElements result))
  ∧ seen (Test2.Hover.nodes (Test2.Hover.resetHighlighting
            (Test2.Hover.after chartWidth evs (Test2.Hover.createChartElements result))))
    = seen (Test2.Hover.nodes (Test2.Hover.createChartElements result))
  ∧ seen (Test2.Hover.labels (Test2.Hover.resetHighlighting
            (Test2.Hover.after chartWidth evs (Test2.Hover.createChartElements result))))
    = seen (Test2.Hover.labels (Test2.Hover.createChartElements result)).
Proof.
  set (drawn := Test2.Hover.createChartElements result).
  destruct (test2_after_keeps evs drawn) as (Hl & Hn & Hb).
  split; [|split].
  - rewrite (seen_data _ (λ _, 0.7%Q) (λ d, Qmax 2 (width d)))
      by by apply Forall_restyle_all.
    rewrite (seen_data (Test2.Hover.links drawn) (λ _, 0.7%Q) (λ d, Qmax 2 (width d)))
      by by apply Forall_enter.
    simpl. by rewrite restyle_data, Hl.
  - apply (seen_same_opacity _ _ 1%Q).
    + by apply Forall_restyle_all.
    + by apply Forall_enter.
    + simpl. by rewrite restyle_keeps.
  - apply (seen_same_opacity _ _ 1%Q).
    + by apply Forall_restyle_all.
    + by apply Forall_enter.
    + simpl. by rewrite restyle_keeps.
Qed.

Lemma historical_reset_restores result evs :
  seen (Historical.Hover.links (Historical.Hover.resetHighlighting
          (Historical.Hover.after chartWidth evs (Historical.Hover.draw result))))
  = seen (Historical.Hover.links (Historical.Hover.draw result))
  ∧ seen (Historical.Hover.nodes (Historical.Hover.resetHighlighting
            (Historical.Hover.after chartWidth evs (Historical.Hover.draw result))))
    = seen (Historical.Hover.nodes (Historical.Hover.draw result))
  ∧ seen (Historical.Hover.labels (Historical.Hover.resetHighlighting
            (Historical.Hover.after chartWidth evs (Historical.Hover.draw result))))
    = seen (Historical.Hover.labels (Historical.Hover.draw result))
  ∧ seen (Historical.Hover.flowLabels (Historical.Hover.resetHighlighting
            (Historical.Hover.after chartWidth evs (Historical.Hover.draw result))))
    = seen (Historical.Hover.flowLabels (Historical.Hover.draw result)).
Proof.
  set (drawn := Historical.Hover.draw result).
  destruct (historical_after_keeps evs drawn) as (Hl & Hn & Hb & Hf).
  split; [|split; [|split]].
  - rewrite (seen_data _ (λ _, 0.7%Q) (λ d, Qmax 2 (width d)))
      by by apply Forall_restyle_all.
    rewrite (seen_data (Historical.Hover.links drawn) (λ _, 0.7%Q)
               (λ d, Qmax 2 (width d))) by by apply Forall_enter.
    simpl. by rewrite restyle_data, Hl.
  - apply (seen_same_opacity _ _ 1%Q).
    + by apply Forall_restyle_all.
    + by apply Forall_enter.
    + simpl. by rewrite restyle_keeps.
  - apply (seen_same_opacity _ _ 1%Q).
    + by apply Forall_restyle_all.
    + by apply Forall_enter.
    + simpl. by rewrite restyle_keeps.
  - apply (seen_same_opacity _ _ 1%Q).
    + by apply Forall_restyle_all.
    + by apply Forall_enter.
    + simpl. by rewrite restyle_keeps.
Qed.

End HoverKeeps.

(** ** The claims about the hover highlighting *)

Section HoverClaims.
Import Svg.
Local Arguments restyle : simpl never.
Local Arguments alter : simpl never.
Local Arguments lt : simpl never.
Local Arguments ge : simpl never.

Lemma test4_handle_keeps chartWidth c ev :
  girth <$> Test4.Hover.nodes (Test4.Hover.handle chartWidth c ev)
  = girth <$> Test4.Hover.nodes c.
Proof.
  destruct ev as [i|i|j|j]; simpl; try done.
  - destruct (Test4.Hover.nodes c !! i) as [[d s]|]; [|done].
    destruct (Test4.Hover.isThemeNode chartWidth d); simpl; by rewrite !restyle_keeps.
  - destruct (Test4.Hover.nodes c !! i); [|done]. simpl. by rewrite !restyle_keeps.
Qed.

Lemma test4_after_keeps chartWidth evs c :
  girth <$> Test4.Hover.nodes (Test4.Hover.after chartWidth evs c)
  = girth <$> Test4.Hover.nodes c.
Proof.
  revert c. induction evs as [|ev evs IH]; intros c; [done|].
  simpl. rewrite IH. apply test4_handle_keeps.
Qed.

(** In test4.vue the rectangles are drawn with no opacity of their own, so
    at opacity 1, and every reset leaves them at [defaultOpacity]. *)
Lemma test4_reset_nodes chartWidth result evs :
  seen (Test4.Hover.nodes (Test4.Hover.createChartElements chartWidth result))
  = (λ d, (d, (1%Q, 1%Q))) <$> layoutNodes result
  ∧ seen (Test4.Hover.nodes (Test4.Hover.resetHighlighting
            (Test4.Hover.after chartWidth evs
               (Test4.Hover.createChartElements chartWidth result))))
    = (λ d, (d, (Test4.defaultOpacity, 1%Q))) <$> layoutNodes result.
Proof.
  assert (seen (Test4.Hover.nodes (Test4.Hover.createChartElements chartWidth result))
          = (λ d, (d, (1%Q, 1%Q))) <$> layoutNodes result) as Hdrawn.
  { rewrite (seen_data _ (λ _, 1%Q) (λ _, 1%Q)) by by apply Forall_enter.
    simpl. unfold Test4.Hover.createNodes. by rewrite enter_data. }
  split; [done|].
  set (c := Test4.Hover.after _ _ _).
  assert (girth <$> Test4.Hover.nodes (Test4.Hover.resetHighlighting c)
          = (λ d, (d, 1%Q)) <$> layoutNodes result) as Hg.
  { simpl. rewrite restyle_keeps by done. unfold c. rewrite test4_after_keeps.
    simpl. unfold Test4.Hover.createNodes, enter.
    rewrite <- list_fmap_compose. done. }
  assert (Forall (λ e, opacity e.2 = Test4.defaultOpacity)
            (Test4.Hover.nodes (Test4.Hover.resetHighlighting c))) as Ho
    by by apply Forall_restyle_all.
  revert Hg Ho. generalize (Test4.Hover.nodes (Test4.Hover.resetHighlighting c)).
  generalize (layoutNodes result). clear.
  intros ds sel. revert ds. induction sel as [|[d s] sel IH]; intros ds Hg Ho.
  - by destruct ds.
  - destruct ds as [|d' ds]; [done|]. apply Forall_cons in Ho as [Ho1 Ho].
    simpl in *. injection Hg as -> Hw Hg. rewrite Ho1, Hw. f_equal. by apply IH.
Qed.

(** C5.  In test4.vue, on the chart of [Sample.twoFlows]: before any hover
    the three rectangles are at opacity 1; once the pointer has entered node
    0 and left it again they are at 0.5, which is another opacity.  The
    links and the labels are back at what they were, and no stroke width has
    changed. *)
Theorem test4_reset_leaves_nodes_dimmed :
  seen (Test4.Hover.nodes Sample.idle4)
  = [({| index := 0; x0 := 0 |}, (1%Q, 1%Q));
     ({| index := 1; x0 := 0 |}, (1%Q, 1%Q));
     ({| index := 2; x0 := 220 |}, (1%Q, 1%Q))]
  ∧ seen (Test4.Hover.nodes Sample.left4)
    = [({| index := 0; x0 := 0 |}, (0.5%Q, 1%Q));
       ({| index := 1; x0 := 0 |}, (0.5%Q, 1%Q));
       ({| index := 2; x0 := 220 |}, (0.5%Q, 1%Q))]
  ∧ ¬ (0.5 == 1)%Q
  ∧ seen (Test4.Hover.links Sample.left4) = seen (Test4.Hover.links Sample.idle4)
  ∧ seen (viewLabels (Test4.Hover.view Sample.left4))
    = seen (viewLabels (Test4.Hover.view Sample.idle4)).
Proof.
  split; [reflexivity|]. split; [reflexivity|]. split; [by intros ?|].
  split; reflexivity.
Qed.

(** The spec's rule fails on two pages.  In test2.vue the label of the
    right-hand node keeps its opacity 1 while its rectangle goes to 0.7.
    In test4.vue the emphasised link keeps its stroke width, and the
    right-hand rectangle goes to 0.1, the opacity of the other link. *)
Lemma focus_rule_fails :
  ¬ focusRule 300 0 (Test2.Hover.view Sample.idle2) (Test2.Hover.view Sample.focused2)
  ∧ seen (Test2.Hover.nodes Sample.focused2)
    = [({| index := 0; x0 := 0 |}, (1%Q, 1%Q));
       ({| index := 1; x0 := 275 |}, (0.7%Q, 1%Q))]
  ∧ seen (Test2.Hover.labels Sample.focused2)
    = [({| index := 0; x0 := 0 |}, (1%Q, 1%Q));
       ({| index := 1; x0 := 275 |}, (1%Q, 1%Q))]
  ∧ ¬ focusRule 300 0 (Test4.Hover.view Sample.idle4) (Test4.Hover.view Sample.focused4)
  ∧ strokeWidth ∘ snd <$> Test4.Hover.links Sample.focused4
    = strokeWidth ∘ snd <$> Test4.Hover.links Sample.idle4
  ∧ opacity ∘ snd <$> Test4.Hover.links Sample.focused4 = [0.9%Q; 0.1%Q]
  ∧ opacity ∘ snd <$> Test4.Hover.nodes Sample.focused4 = [1%Q; 0.1%Q; 0.1%Q].
Proof.
  split; [|split; [reflexivity|split; [reflexivity|split; [|by repeat split]]]].
  - intros (lowLink & lowNode & middle & high & _ & _ & _ & _ & Hnodes & Hlabels).
    rewrite Forall_lookup in Hnodes. rewrite Forall_lookup in Hlabels.
    pose proof (Hnodes 1%nat _ eq_refl) as Hn. pose proof (Hlabels 1%nat _ eq_refl) as Hl.
    simpl in Hn, Hl. unfold opacity in Hn, Hl. simpl in Hn, Hl. lra.
  - intros (lowLink & lowNode & middle & high & _ & _ & _ & Hlinks & _).
    pose proof (Forall2_lookup_lr _ _ _ 0%nat _ _ Hlinks eq_refl eq_refl) as [_ Hw].
    simpl in Hw. destruct Hw as [_ Hw]. unfold strokeWidth in Hw. simpl in Hw.
    by apply Qlt_irrefl in Hw.
Qed.

End HoverClaims.

Section FocusEffect.
Import Svg.
Variable chartWidth : Q.
Local Arguments lt : simpl never.
Local Arguments ge : simpl never.
Local Arguments onLeft : simpl never.

Lemma onLeft_cases (d : NodeDatum) :
  (lt (x0Of d) (chartWidth / 2) = true ∧ ge (x0Of d) (chartWidth / 2) = false
   ∧ onLeft chartWidth d = true)
  ∨ (lt (x0Of d) (chartWidth / 2) = false ∧ ge (x0Of d) (chartWidth / 2) = true
     ∧ onLeft chartWidth d = false).
Proof.
  unfold onLeft. rewrite ge_not_lt. destruct (lt (x0Of d) (chartWidth / 2)); auto.
Qed.

(** C6, as the three pages have it.  Entering a node [n] of the left
    column puts exactly the links from [n] at opacity 0.9 and every other
    link at 0.1; test2.vue and the historical page also widen the stroke of
    the links from [n] to [max(3, width + 1)], wider than the idle
    [max(2, width)], while test4.vue leaves every stroke width as it is.
    The other rectangles of the left column go to 0.3 (0.1 in test4.vue),
    the rectangles of the right column to 0.7 (0.1 in test4.vue), and the
    rectangle of [n] keeps its opacity.  The labels of the right column are
    left as they are on every page; in test4.vue the labels of the other
    themes go to 0.1. *)
Theorem focus_on_theme_effect (n : nat) :
  (∀ c : Test2.Hover.Chart,
     Forall2 (λ e e',
         e'.1 = e.1
         ∧ if decide (sourceIndex e.1 = n)
           then opacity e'.2 = 0.9%Q ∧ strokeWidth e'.2 = Qmax 3 (width e.1 + 1)
           else opacity e'.2 = 0.1%Q ∧ strokeWidth e'.2 = strokeWidth e.2)
       (Test2.Hover.links c)
       (Test2.Hover.links (Test2.Hover.highlightThemeFlows chartWidth n c))
     ∧ Forall2 (λ e e',
           e'.1 = e.1
           ∧ opacity e'.2
             = if onLeft chartWidth e.1
               then if decide (index e.1 = n) then opacity e.2 else 0.3%Q
               else 0.7%Q)
         (Test2.Hover.nodes c)
         (Test2.Hover.nodes (Test2.Hover.highlightThemeFlows chartWidth n c))
     ∧ Forall2 (λ e e', e'.1 = e.1 ∧ if onLeft chartWidth e.1 then True else e' = e)
         (Test2.Hover.labels c)
         (Test2.Hover.labels (Test2.Hover.highlightThemeFlows chartWidth n c)))
  ∧ (∀ c : Historical.Hover.Chart,
       Forall2 (λ e e',
           e'.1 = e.1
           ∧ if decide (sourceIndex e.1 = n)
             then opacity e'.2 = 0.9%Q ∧ strokeWidth e'.2 = Qmax 3 (width e.1 + 1)
             else opacity e'.2 = 0.1%Q ∧ strokeWidth e'.2 = strokeWidth e.2)
         (Historical.Hover.links c)
         (Historical.Hover.links (Historical.Hover.highlightThemeFlows chartWidth n c))
       ∧ Forall2 (λ e e',
             e'.1 = e.1
             ∧ opacity e'.2
               = if onLeft chartWidth e.1
                 then if decide (index e.1 = n) then opacity e.2 else 0.3%Q
                 else 0.7%Q)
           (Historical.Hover.nodes c)
           (Historical.Hover.nodes (Historical.Hover.highlightThemeFlows chartWidth n c))
       ∧ Forall2 (λ e e', e'.1 = e.1 ∧ if onLeft chartWidth e.1 then True else e' = e)
           (Historical.Hover.labels c)
           (Historical.Hover.labels (Historical.Hover.highlightThemeFlows chartWidth n c)))
  ∧ (∀ c : Test4.Hover.Chart,
       Forall2 (λ e e',
           e'.1 = e.1
           ∧ opacity e'.2 = (if decide (sourceIndex e.1 = n) then 0.9%Q else 0.1%Q)
           ∧ strokeWidth e'.2 = strokeWidth e.2)
         (Test4.Hover.links c)
         (Test4.Hover.links (Test4.Hover.highlightThemeFlows chartWidth n c))
       ∧ Forall2 (λ e e',
             e'.1 = e.1
             ∧ opacity e'.2
               = if onLeft chartWidth e.1
                 then if decide (index e.1 = n) then opacity e.2 else 0.1%Q
                 else 0.1%Q)
           (Test4.Hover.nodes c)
           (Test4.Hover.nodes (Test4.Hover.highlightThemeFlows chartWidth n c))
       ∧ Forall2 (λ e e',
             e'.1 = e.1
             ∧ opacity e'.2 = if decide (index e.1 = n) then opacity e.2 else 0.1%Q)
           (Test4.Hover.themeLabels (Test4.Hover.labels c))
           (Test4.Hover.themeLabels
              (Test4.Hover.labels (Test4.Hover.highlightThemeFlows chartWidth n c)))
       ∧ Test4.Hover.yearLabels
           (Test4.Hover.labels (Test4.Hover.highlightThemeFlows chartWidth n c))
         = Test4.Hover.yearLabels (Test4.Hover.labels c)
       ∧ Test4.Hover.titleLabels
           (Test4.Hover.labels (Test4.Hover.highlightThemeFlows chartWidth n c))
         = Test4.Hover.titleLabels (Test4.Hover.labels c))
  ∧ (∀ w : Q, (Qmax 2 w < Qmax 3 (w + 1))%Q).
Proof.
  split; [|split; [|split; [|apply emphasised_thicker]]].
  - intros c. unfold Test2.Hover.highlightThemeFlows. simpl.
    unfold restyle. rewrite !map_map. split; [|split].
    + apply Forall2_map_self. intros [d s]. simpl. split; [by destruct (bool_decide _)|].
      destruct (decide (sourceIndex d = n)) as [Hd|Hd].
      * by rewrite bool_decide_eq_true_2.
      * by rewrite bool_decide_eq_false_2.
    + apply Forall2_map_self. intros [d s]. simpl.
      destruct (onLeft_cases d) as [(-> & Hge & ->)|(-> & Hge & ->)]; simpl.
      * destruct (decide (index d = n)) as [Hd|Hd].
        -- rewrite bool_decide_eq_false_2 by tauto. simpl. by rewrite Hge.
        -- rewrite bool_decide_eq_true_2 by done. simpl. by rewrite Hge.
      * by rewrite Hge.
    + apply Forall2_map_self. intros [d s]. simpl. split; [done|].
      by destruct (onLeft chartWidth d).
  - intros c. unfold Historical.Hover.highlightThemeFlows. simpl.
    unfold restyle. rewrite !map_map. split; [|split].
    + apply Forall2_map_self. intros [d s]. simpl. split; [by destruct (bool_decide _)|].
      destruct (decide (sourceIndex d = n)) as [Hd|Hd].
      * by rewrite bool_decide_eq_true_2.
      * by rewrite bool_decide_eq_false_2.
    + apply Forall2_map_self. intros [d s]. simpl.
      destruct (onLeft_cases d) as [(-> & Hge & ->)|(-> & Hge & ->)]; simpl.
      * destruct (decide (index d = n)) as [Hd|Hd].
        -- rewrite bool_decide_eq_false_2 by tauto. simpl. by rewrite Hge.
        -- rewrite bool_decide_eq_true_2 by done. simpl. by rewrite Hge.
      * by rewrite Hge.
    + apply Forall2_map_self. intros [d s]. simpl. split; [done|].
      by destruct (onLeft chartWidth d).
  - intros c. unfold Test4.Hover.highlightThemeFlows. simpl.
    unfold restyle. rewrite !map_map. split; [|split; [|split; [|done]]].
    + apply Forall2_map_self. intros [d s]. simpl. split; [by destruct (bool_decide _)|].
      destruct (decide (sourceIndex d = n)) as [Hd|Hd].
      * by rewrite bool_decide_eq_true_2.
      * by rewrite bool_decide_eq_false_2.
    + apply Forall2_map_self. intros [d s]. simpl.
      destruct (onLeft_cases d) as [(-> & Hge & ->)|(-> & Hge & ->)]; simpl.
      * destruct (decide (index d = n)) as [Hd|Hd].
        -- rewrite bool_decide_eq_false_2 by tauto. simpl. by rewrite Hge.
        -- rewrite bool_decide_eq_true_2 by done. simpl. by rewrite Hge.
      * by rewrite Hge.
    + apply Forall2_map_self. intros [d s]. simpl.
      destruct (decide (index d = n)) as [Hd|Hd].
      * by rewrite bool_decide_eq_false_2 by tauto.
      * by rewrite bool_decide_eq_true_2.
Qed.

End FocusEffect.

(** ** The loaders *)

Lemma filter_having {A} (P : A → Prop) `{∀ x, Decision (P x)} (l : list A) :
  (0 < length (filter P l))%nat ↔ Exists P l.
Proof.
  induction l as [|x l IH].
  - split; [simpl; lia|]. by intros ?%Exists_nil.
  - rewrite filter_cons, Exists_cons. destruct (decide (P x)); simpl.
    + split; [by left|lia].
    + rewrite IH. tauto.
Qed.

Section HistoricalLoader.
Import Js Eff Historical.
Variable layoutError : Dataset → option string.
Implicit Types (w : World Refs).

(** What the [catch] block of [loadData] leaves, from the world [w] the
    [try] block failed in, when the layout accepts the fallback dataset. *)
Lemma historical_catch e w :
  layoutError fallbackData = None →
  run (consoleError "Error loading CSV data:";;
       setRefs (setError (Some (message e)));;
       useFallbackData layoutError) w
  = (Returned (),
     {| refs :=
          {| chartContainer :=
               match chartContainer (refs w) with
               | Some _ => Some (Some fallbackData)
               | None => None
               end;
             loading := false;
             error := Some (message e);
             currentData := Some fallbackData |};
        console := console w
                   ++ [{| level := ErrorLevel; text := "Error loading CSV data:" |}] |}).
Proof.
  intros Hlayout. unfold useFallbackData, createSankeyDiagram, run.
  unfold mbind, M_bind, consoleError, consoleWrite, setRefs, getRefs, mret, M_ret.
  unfold setCurrentData, setLoading, setError, setChartContainer. simpl.
  destruct (chartContainer (refs w)); simpl; [|done].
  rewrite Hlayout. done.
Qed.

Lemma historical_loadData_failure fetched e w :
  layoutError fallbackData = None →
  fetchFailure fetched = Some e →
  run (loadData layoutError fetched) w
  = (Returned (),
     {| refs :=
          {| chartContainer :=
               match chartContainer (refs w) with
               | Some _ => Some (Some fallbackData)
               | None => None
               end;
             loading := false;
             error := Some (message e);
             currentData := Some fallbackData |};
        console := console w
                   ++ [{| level := ErrorLevel; text := "Error loading CSV data:" |}] |}).
Proof.
  intros Hlayout Hfail.
  set (w1 := {| refs := setError None (setLoading true (refs w)); console := console w |}).
  assert (run (loadData layoutError fetched) w
          = run (consoleError "Error loading CSV data:";;
                 setRefs (setError (Some (message e)));;
                 useFallbackData layoutError) w1) as ->.
  { unfold loadData, tryCatch, run.
    destruct fetched as [e'|csvData]; simpl in Hfail.
    - by injection Hfail as ->.
    - destruct (decide _) as [|Hno] in Hfail; [done|]. injection Hfail as <-.
      unfold mbind, M_bind, setRefs, await, mret, M_ret. simpl.
      case_bool_decide as Hrows; [|done].
      case_bool_decide as Hnodes; simpl; [|done].
      case_bool_decide as Hlinks; simpl; [|done].
      destruct Hno. split; by apply (proj1 (filter_having _ _)). }
  by rewrite historical_catch.
Qed.

End HistoricalLoader.

Section LoaderClaims.
Import Js Eff.

(** C7, as the historical page has it.  When the fetch path fails with [e]
    (the retrieval or the parsing is rejected, or the result has no node row
    or no link row), [loadData] catches the failure and returns: the error
    ref holds the message of [e], one line is on the error console, loading
    is off, and the hardcoded fallback dataset (9 nodes, 14 links) is the
    current data.  The fallback diagram is what the chart container shows
    when the container is attached; with no container attached nothing is
    drawn.  The layout library is taken to accept the fallback dataset. *)
Theorem fetch_failure_falls_back (layoutError : Historical.Dataset → option string)
    (fetched : Fetched) (e : JsError) (w : World Historical.Refs) :
  layoutError Historical.fallbackData = None →
  Historical.fetchFailure fetched = Some e →
  ∃ w',
    run (Historical.loadData layoutError fetched) w = (Returned (), w')
    ∧ Historical.error (refs w') = Some (message e)
    ∧ console w'
      = console w ++ [{| level := ErrorLevel; text := "Error loading CSV data:" |}]
    ∧ Historical.loading (refs w') = false
    ∧ Historical.currentData (refs w') = Some Historical.fallbackData
    ∧ length (Historical.nodes Historical.fallbackData) = 9%nat
    ∧ length (Historical.links Historical.fallbackData) = 14%nat
    ∧ match Historical.chartContainer (refs w) with
      | Some _ => Historical.rendered Historical.fallbackData (refs w')
      | None => Historical.chartContainer (refs w') = None
      end.
Proof.
  intros Hlayout Hfail. eexists. split.
  { by apply historical_loadData_failure. }
  simpl. repeat (split; [done|]).
  unfold Historical.rendered. simpl. by destruct (Historical.chartContainer (refs w)).
Qed.

(** The claim as the spec states it fails when no chart container is
    attached: the message is recorded and the fallback dataset is the
    current data, but it is not rendered. *)
Lemma fallback_not_rendered_when_detached :
  Historical.fetchFailure (Rejected (Error "404 Not Found"))
  = Some (Error "404 Not Found")
  ∧ Historical.error (refs Sample.afterFailedLoad) = Some "404 Not Found"
  ∧ Historical.currentData (refs Sample.afterFailedLoad) = Some Historical.fallbackData
  ∧ ¬ Historical.rendered Historical.fallbackData (refs Sample.afterFailedLoad).
Proof. by repeat split. Qed.

(** The pages without a fallback record the message and stop loading; the
    current data and the chart container are left as they were. *)
Lemma test2_loadData_failure layoutError fetched e (w : World Test2.Refs) :
  fetched = Rejected e ∨ (fetched = Resolved [] ∧ e = Error "CSV data was empty") →
  ∃ w',
    run (Test2.loadData layoutError fetched) w = (Returned (), w')
    ∧ Test2.error (refs w') = Some (message e)
    ∧ Test2.loading (refs w') = false
    ∧ Test2.currentData (refs w') = Test2.currentData (refs w)
    ∧ Test2.chartContainer (refs w') = Test2.chartContainer (refs w).
Proof.
  intros [->|[-> ->]]; eexists; (split; [reflexivity|]); by repeat split.
Qed.

Lemma test4_loadData_failure localeCompare layoutError fetched e (w : World Test4.Refs) :
  fetched = Rejected e ∨ (fetched = Resolved [] ∧ e = Error "CSV data was empty") →
  ∃ w',
    run (Test4.loadData localeCompare layoutError fetched) w = (Returned (), w')
    ∧ Test4.error (refs w') = Some (message e)
    ∧ Test4.loading (refs w') = false
    ∧ Test4.currentData (refs w') = Test4.currentData (refs w)
    ∧ Test4.chartContainer (refs w') = Test4.chartContainer (refs w).
Proof.
  intros [->|[-> ->]]; eexists; (split; [reflexivity|]); by repeat split.
Qed.

(** C10.  The fallback dataset has 14 links.  Each goes from one of the
    nodes 0 to 3, a theme node, to one of the nodes 4 to 8, a decade node,
    and its value is positive. *)
Theorem fallback_links_well_formed :
  length (Historical.links Historical.fallbackData) = 14%nat
  ∧ Forall (λ link,
      ∃ s t v origin dest,
        Historical.source link = Num s ∧ Historical.target link = Num t
        ∧ Historical.value link = Num v
        ∧ 0 ≤ s ≤ 3 ∧ 4 ≤ t ≤ 8 ∧ 0 < v
        ∧ origin ∈ Historical.nodes Historical.fallbackData
        ∧ Historical.id origin = Num s ∧ Historical.type origin = Historical.type_theme
        ∧ dest ∈ Historical.nodes Historical.fallbackData
        ∧ Historical.id dest = Num t ∧ Historical.type dest = Historical.type_decade)
      (Historical.links Historical.fallbackData).
Proof.
  split; [reflexivity|].
  assert (∀ s t v d,
    0 ≤ s ≤ 3 → 4 ≤ t ≤ 8 → 0 < v →
    ∃ s' t' v' origin dest,
      Historical.source (Historical.flow s t v d) = Num s'
      ∧ Historical.target (Historical.flow s t v d) = Num t'
      ∧ Historical.value (Historical.flow s t v d) = Num v'
      ∧ 0 ≤ s' ≤ 3 ∧ 4 ≤ t' ≤ 8 ∧ 0 < v'
      ∧ origin ∈ Historical.nodes Historical.fallbackData
      ∧ Historical.id origin = Num s' ∧ Historical.type origin = Historical.type_theme
      ∧ dest ∈ Historical.nodes Historical.fallbackData
      ∧ Historical.id dest = Num t' ∧ Historical.type dest = Historical.type_decade) as Hflow.
  { intros s t v d Hs Ht Hv.
    assert (∃ origin, origin ∈ Historical.nodes Historical.fallbackData
              ∧ Historical.id origin = Num s
              ∧ Historical.type origin = Historical.type_theme) as (origin & ? & ? & ?).
    { assert (s = 0 ∨ s = 1 ∨ s = 2 ∨ s = 3) as [-> | [-> | [-> | ->]]] by lia;
        match goal with
        | |- ∃ node, _ ∧ Historical.id node = Num ?z ∧ _ =>
            eexists; split;
              [eapply (list_elem_of_lookup_2 _ (Z.to_nat z)); reflexivity
              |split; reflexivity]
        end. }
    assert (∃ dest, dest ∈ Historical.nodes Historical.fallbackData
              ∧ Historical.id dest = Num t
              ∧ Historical.type dest = Historical.type_decade) as (dest & ? & ? & ?).
    { assert (t = 4 ∨ t = 5 ∨ t = 6 ∨ t = 7 ∨ t = 8) as [-> | [-> | [-> | [-> | ->]]]] by lia;
        match goal with
        | |- ∃ node, _ ∧ Historical.id node = Num ?z ∧ _ =>
            eexists; split;
              [eapply (list_elem_of_lookup_2 _ (Z.to_nat z)); reflexivity
              |split; reflexivity]
        end. }
    exists s, t, v, origin, dest. repeat split; (done || lia). }
  repeat (apply Forall_cons; split; [apply Hflow; lia|]). apply Forall_nil. done.
Qed.

End LoaderClaims.

(** ** The theorems at sample inputs *)

(** Settles a decidable statement about given values by computing. *)
Ltac decided := refine (bool_decide_unpack _ _); vm_compute; exact I.

Section Witnesses.
Import Js Eff.

Lemma transformer_dataset_well_formed_witness :
  Sample.colonialism ≠ []
  ∧ Forall (carries ["Theme"; "Year"]) Sample.colonialism
  ∧ (∃ d,
       run (Test2.transformCSVToSankey Sample.colonialism
              (Test2.distinct "Theme" Sample.colonialism)
              (Test2.distinct "Year" Sample.colonialism)) (Sample.fresh ())
       = (Returned d, Sample.fresh ())
       ∧ (2 ≤ length (Test2.nodes d))%nat
       ∧ (1 ≤ length (Test2.links d))%nat
       ∧ Forall (λ link,
            Test2.source link ∈ Test2.id <$> Test2.nodes d
            ∧ Test2.target link ∈ Test2.id <$> Test2.nodes d) (Test2.links d))
  ∧ (∃ d w',
       run (themes ← Test4.uniqueThemes Sample.colonialism;
            Test4.transformCSVToSankey Sample.byCodeUnits Sample.colonialism themes)
           (Sample.fresh ())
       = (Returned d, w')
       ∧ (2 ≤ length (Test4.nodes d))%nat
       ∧ (1 ≤ length (Test4.links d))%nat
       ∧ Forall (λ link,
            Test4.source link ∈ Test4.id <$> Test4.nodes d
            ∧ Test4.target link ∈ Test4.id <$> Test4.nodes d) (Test4.links d)).
Proof.
  assert (Sample.colonialism ≠ []) as Hne by done.
  assert (Forall (carries ["Theme"; "Year"]) Sample.colonialism) as Hcols
    by decided.
  split; [exact Hne|]. split; [exact Hcols|].
  exact (transformer_dataset_well_formed Sample.byCodeUnits Sample.colonialism
           (Sample.fresh ()) Hne Hcols).
Defined.

Lemma node_identifiers_consecutive_witness :
  Forall (carries ["Theme"; "Year"]) Sample.twoThemes
  ∧ (∃ d,
       let themes := Test2.distinct "Theme" Sample.twoThemes in
       let years := Test2.distinct "Year" Sample.twoThemes in
       run (Test2.transformCSVToSankey Sample.twoThemes themes years) (Sample.fresh ())
       = (Returned d, Sample.fresh ())
       ∧ themes = firstSeen ((λ row : Row, row !! "Theme") <$> Sample.twoThemes)
       ∧ years = firstSeen ((λ row : Row, row !! "Year") <$> Sample.twoThemes)
       ∧ NoDup themes ∧ NoDup years
       ∧ Test2.id <$> Test2.nodes d = seqZ 0 (len themes + len years)
       ∧ (λ node, (Test2.name node, Test2.type node)) <$> Test2.nodes d
         = ((λ theme, (theme, Test2.type_theme)) <$> themes)
           ++ ((λ year, (year, Test2.type_year)) <$> years))
  ∧ (∃ themes d w' sortedData,
       run (Test4.uniqueThemes Sample.twoThemes) (Sample.fresh ())
       = (Returned themes, Sample.fresh ())
       ∧ run (Test4.transformCSVToSankey Sample.byCodeUnits Sample.twoThemes themes)
             (Sample.fresh ())
         = (Returned d, w')
       ∧ themes = firstSeen (concat (Test4.listedThemes <$> Sample.twoThemes))
       ∧ NoDup themes
       ∧ sortedData ≡ₚ Sample.twoThemes
       ∧ (Forall (λ row : Row, isSafeInteger (parseInt (row !! "Year")))
            Sample.twoThemes →
          Sorted Test4.notLater sortedData)
       ∧ Test4.id <$> Test4.nodes d = seqZ 0 (len themes + len Sample.twoThemes)
       ∧ Test4.nodes d
         = mapi (λ index theme, Test4.ThemeNode index theme) themes
           ++ mapi (Test4.eventNode themes) sortedData).
Proof.
  assert (Forall (carries ["Theme"; "Year"]) Sample.twoThemes) as Hcols by decided.
  split; [exact Hcols|].
  exact (node_identifiers_consecutive Sample.byCodeUnits Sample.twoThemes
           (Sample.fresh ()) Hcols).
Defined.

Lemma two_themes_two_links_witness :
  Forall (carries ["Theme"]) Sample.twoThemes
  ∧ Sample.csvRow "A;B" "1910" "Strike" "General strike" ∈ Sample.twoThemes
  ∧ Test4.listedThemes (Sample.csvRow "A;B" "1910" "Strike" "General strike")
    = ["A"; "B"]
  ∧ "A" ≠ "B" ∧ "A" ∈ ["A"; "B"; "C"] ∧ "B" ∈ ["A"; "B"; "C"]
  ∧ ∃ d w' (j : nat) linkA linkB,
      run (Test4.transformCSVToSankey Sample.byCodeUnits Sample.twoThemes
             ["A"; "B"; "C"]) (Sample.fresh ())
      = (Returned d, w')
      ∧ Test4.nodes d !! (length ["A"; "B"; "C"] + j)%nat
        = Some (Test4.eventNode ["A"; "B"; "C"] (Z.of_nat j)
                  (Sample.csvRow "A;B" "1910" "Strike" "General strike"))
      ∧ filter (λ link, Test4.target link = len ["A"; "B"; "C"] + Z.of_nat j)
          (Test4.links d)
        = [linkA; linkB]
      ∧ Test4.theme linkA = "A" ∧ Test4.theme linkB = "B"
      ∧ Test4.theme linkA ≠ Test4.theme linkB
      ∧ Test4.target linkA = Test4.target linkB
      ∧ Test4.value linkA = Test4.value linkB
      ∧ Test4.description linkA = Test4.description linkB
      ∧ Test4.fullDescription linkA = Test4.fullDescription linkB
      ∧ Test4.year linkA = Test4.year linkB.
Proof.
  assert (Forall (carries ["Theme"]) Sample.twoThemes) as Hcols
    by decided.
  assert (Sample.csvRow "A;B" "1910" "Strike" "General strike" ∈ Sample.twoThemes)
    as Hrow by apply list_elem_of_here.
  assert (Test4.listedThemes (Sample.csvRow "A;B" "1910" "Strike" "General strike")
          = ["A"; "B"]) as Hlisted by reflexivity.
  assert ("A" ≠ "B") as Hab by done.
  assert ("A" ∈ ["A"; "B"; "C"]) as Ha by decided.
  assert ("B" ∈ ["A"; "B"; "C"]) as Hb by decided.
  repeat (split; [assumption|]).
  exact (two_themes_two_links Sample.byCodeUnits Sample.twoThemes ["A"; "B"; "C"]
           (Sample.csvRow "A;B" "1910" "Strike" "General strike") "A" "B"
           (Sample.fresh ()) Hcols Hrow Hlisted Hab Ha Hb).
Defined.

Lemma unknown_theme_skipped_witness :
  Forall (carries ["Theme"]) Sample.strayTheme
  ∧ ∃ d out,
      run (Test4.transformCSVToSankey Sample.byCodeUnits Sample.strayTheme ["A"])
          (Sample.fresh ())
      = (Returned d, logged out (Sample.fresh ()))
      ∧ ∀ row theme, row ∈ Sample.strayTheme → theme ∈ Test4.listedThemes row →
          if decide (theme ∈ ["A"]) then
            ∃ j : nat,
              Test4.nodes d !! (length ["A"] + j)%nat
              = Some (Test4.eventNode ["A"] (Z.of_nat j) row)
              ∧ Test4.makeLink (indexOf ["A"] theme) (len ["A"] + Z.of_nat j) row theme
                ∈ Test4.links d
          else
            Forall (λ link, Test4.theme link ≠ theme) (Test4.links d)
            ∧ Test4.themeWarning theme ∈ out.
Proof.
  assert (Forall (carries ["Theme"]) Sample.strayTheme) as Hcols
    by decided.
  split; [exact Hcols|].
  exact (unknown_theme_skipped Sample.byCodeUnits Sample.strayTheme ["A"]
           (Sample.fresh ()) Hcols).
Defined.

Lemma loader_themes_always_resolve_witness :
  Forall (carries ["Theme"]) Sample.twoThemes
  ∧ ∃ themes d out,
      run (Test4.uniqueThemes Sample.twoThemes) (Sample.fresh ())
      = (Returned themes, Sample.fresh ())
      ∧ run (Test4.transformCSVToSankey Sample.byCodeUnits Sample.twoThemes themes)
            (Sample.fresh ())
        = (Returned d, logged out (Sample.fresh ()))
      ∧ (∀ row theme, row ∈ Sample.twoThemes → theme ∈ Test4.listedThemes row →
           theme ∈ themes)
      ∧ Forall (λ entry, level entry ≠ WarnLevel) out
      ∧ length (Test4.links d)
        = sum_list_with (λ row, length (Test4.listedThemes row)) Sample.twoThemes.
Proof.
  assert (Forall (carries ["Theme"]) Sample.twoThemes) as Hcols
    by decided.
  split; [exact Hcols|].
  exact (loader_themes_always_resolve Sample.byCodeUnits Sample.twoThemes
           (Sample.fresh ()) Hcols).
Defined.

Lemma fetch_failure_falls_back_witness :
  (λ _ : Historical.Dataset, @None string) Historical.fallbackData = None
  ∧ Historical.fetchFailure (Resolved [])
    = Some (Error "Invalid or empty CSV data")
  ∧ ∃ w',
      run (Historical.loadData (λ _, None) (Resolved []))
          (Sample.fresh Historical.mounted)
      = (Returned (), w')
      ∧ Historical.error (refs w') = Some (message (Error "Invalid or empty CSV data"))
      ∧ console w'
        = console (Sample.fresh Historical.mounted)
          ++ [{| level := ErrorLevel; text := "Error loading CSV data:" |}]
      ∧ Historical.loading (refs w') = false
      ∧ Historical.currentData (refs w') = Some Historical.fallbackData
      ∧ length (Historical.nodes Historical.fallbackData) = 9%nat
      ∧ length (Historical.links Historical.fallbackData) = 14%nat
      ∧ match Historical.chartContainer (refs (Sample.fresh Historical.mounted)) with
        | Some _ => Historical.rendered Historical.fallbackData (refs w')
        | None => Historical.chartContainer (refs w') = None
        end.
Proof.
  assert ((λ _ : Historical.Dataset, @None string) Historical.fallbackData = None)
    as Hlayout by reflexivity.
  assert (Historical.fetchFailure (Resolved [])
          = Some (Error "Invalid or empty CSV data")) as Hfail by reflexivity.
  split; [exact Hlayout|]. split; [exact Hfail|].
  exact (fetch_failure_falls_back (λ _, None) (Resolved [])
           (Error "Invalid or empty CSV data") (Sample.fresh Historical.mounted)
           Hlayout Hfail).
Defined.

End Witnesses.

(** ** The loaders, case by case *)

Section Test2Loader.
Import Js Eff Test2.
Variable layoutError : Dataset → option string.
Implicit Types (w : World Refs) (rows : list Row).
Local Opaque transformCSVToSankey.

(** What [loadData] ends with when the [try] block throws [e] at or after
    the transformer. *)
Lemma test2_loadData_transformer_throws rows e w :
  rows ≠ [] →
  (∀ w1 : World Refs,
     run (transformCSVToSankey rows (distinct "Theme" rows) (distinct "Year" rows)) w1
     = (Thrown e, w1)) →
  ∃ w',
    run (loadData layoutError (Resolved rows)) w = (Returned (), w')
    ∧ settled (refs w') (Some (message e)) (currentData (refs w))
        (chartContainer (refs w)).
Proof.
  intros Hne Hthrow. unfold loadData, tryCatch, run, await.
  unfold mbind, M_bind. simpl.
  rewrite bool_decide_eq_false_2 by by destruct rows.
  match goal with
  | |- context [transformCSVToSankey _ _ _ ?w1] =>
      pose proof (Hthrow w1) as H; unfold run in H; rewrite H
  end.
  eexists. split; [reflexivity|]. by repeat split.
Qed.

(** What [loadData] ends with when the transformer returns [d]. *)
Lemma test2_loadData_transformer_returns rows d w :
  rows ≠ [] →
  (∀ w1 : World Refs,
     run (transformCSVToSankey rows (distinct "Theme" rows) (distinct "Year" rows)) w1
     = (Returned d, w1)) →
  ∃ w',
    run (loadData layoutError (Resolved rows)) w = (Returned (), w')
    ∧ match chartContainer (refs w), layoutError d with
      | None, _ => settled (refs w') None (Some d) None
      | Some _, None => settled (refs w') None (Some d) (Some (Some d))
      | Some _, Some msg => settled (refs w') (Some msg) (Some d) (Some None)
      end.
Proof.
  intros Hne Hret. unfold loadData, tryCatch, run, await.
  unfold mbind, M_bind. simpl.
  rewrite bool_decide_eq_false_2 by by destruct rows.
  match goal with
  | |- context [transformCSVToSankey _ _ _ ?w1] =>
      pose proof (Hret w1) as H; unfold run in H; rewrite H
  end.
  unfold createSankeyDiagram, mbind, M_bind, getRefs, setRefs. simpl.
  destruct (chartContainer (refs w)) as [c|] eqn:Hc; simpl.
  - destruct (layoutError d) as [msg|] eqn:Hl; simpl;
      (eexists; split; [reflexivity|]); by repeat split.
  - eexists. split; [reflexivity|]. by repeat split.
Qed.

End Test2Loader.

Section Test4Loader.
Import Js Eff Test4.
Variable localeCompare : string → string → Z.
Variable layoutError : Dataset → option string.
Implicit Types (w : World Refs) (rows : list Row).

Lemma uniqueThemes_throws {V} rows (w : World V) :
  ¬ Forall (λ row : Row, is_Some (row !! "Theme")) rows →
  run (uniqueThemes rows) w = (Thrown (TypeError "split"), w).
Proof.
  intros Hrows. unfold uniqueThemes.
  apply run_bind_thrown. generalize 0.
  induction rows as [|row rows IH]; intros i.
  - destruct Hrows. constructor.
  - simpl. destruct (row !! "Theme") as [s|] eqn:Hrow; [|reflexivity].
    rewrite run_bind. simpl.
    rewrite run_bind, IH; [done|]. intros H. apply Hrows. by constructor.
Qed.

Local Opaque transformCSVToSankey uniqueThemes.

(** What [loadData] ends with when [uniqueThemes] throws. *)
Lemma test4_loadData_themes_throw rows e w :
  rows ≠ [] →
  (∀ w1 : World Refs, run (uniqueThemes rows) w1 = (Thrown e, w1)) →
  ∃ w',
    run (loadData localeCompare layoutError (Resolved rows)) w = (Returned (), w')
    ∧ settled (refs w') (Some (message e)) (currentData (refs w))
        (chartContainer (refs w)).
Proof.
  intros Hne Hthrow. unfold loadData, tryCatch, run, await.
  unfold mbind, M_bind. simpl.
  rewrite bool_decide_eq_false_2 by by destruct rows.
  match goal with
  | |- context [uniqueThemes _ ?w1] =>
      pose proof (Hthrow w1) as H; unfold run in H; rewrite H
  end.
  eexists. split; [reflexivity|]. by repeat split.
Qed.

(** What [loadData] ends with when [uniqueThemes] returns [themes] and the
    transformer returns [d], whatever they write on the console. *)
Lemma test4_loadData_transformer_returns rows themes d w :
  rows ≠ [] →
  (∀ w1 : World Refs, run (uniqueThemes rows) w1 = (Returned themes, w1)) →
  (∀ w1 : World Refs, ∃ entries,
     run (transformCSVToSankey localeCompare rows themes) w1
     = (Returned d, logged entries w1)) →
  ∃ w',
    run (loadData localeCompare layoutError (Resolved rows)) w = (Returned (), w')
    ∧ match chartContainer (refs w), layoutError d with
      | None, _ => settled (refs w') None (Some d) None
      | Some _, None => settled (refs w') None (Some d) (Some (Some d))
      | Some _, Some msg => settled (refs w') (Some msg) (Some d) (Some None)
      end.
Proof.
  intros Hne Hthemes Hret. unfold loadData, tryCatch, run, await.
  unfold mbind, M_bind. simpl.
  rewrite bool_decide_eq_false_2 by by destruct rows.
  match goal with
  | |- context [uniqueThemes _ ?w1] =>
      pose proof (Hthemes w1) as H; unfold run in H; rewrite H; clear H
  end.
  simpl.
  match goal with
  | |- context [transformCSVToSankey _ _ _ ?w1] =>
      destruct (Hret w1) as [entries H]; unfold run in H; rewrite H; clear H
  end.
  unfold createSankeyDiagram, mbind, M_bind, getRefs, setRefs. simpl.
  destruct (chartContainer (refs w)) as [c|] eqn:Hc; simpl.
  - destruct (layoutError d) as [msg|] eqn:Hl; simpl;
      (eexists; split; [reflexivity|]); by repeat split.
  - eexists. split; [reflexivity|]. by repeat split.
Qed.

End Test4Loader.

(** ** The loaders of test2.vue and test4.vue *)

Section LoaderOutcomes.
Import Js Eff.

(** Every way [loadData] of test2.vue ends: it returns with loading off,
    and either a failure before the drawing left its message, the current
    data and the container untouched, or the dataset [d] became the current
    data and was drawn as far as the container and the layout allowed. *)
Lemma test2_loadData_outcome layoutError fetched (w : World Test2.Refs) :
  ∃ w',
    run (Test2.loadData layoutError fetched) w = (Returned (), w')
    ∧ ((∃ msg, Test2.settled (refs w') (Some msg) (Test2.currentData (refs w))
                 (Test2.chartContainer (refs w)))
       ∨ (∃ d,
            match Test2.chartContainer (refs w), layoutError d with
            | None, _ => Test2.settled (refs w') None (Some d) None
            | Some _, None => Test2.settled (refs w') None (Some d) (Some (Some d))
            | Some _, Some msg => Test2.settled (refs w') (Some msg) (Some d) (Some None)
            end)).
Proof.
  destruct fetched as [e|rows].
  { destruct (test2_loadData_failure layoutError (Rejected e) e w) as
      (w' & Hrun & Herr & Hload & Hdata & Hchart); [by left|].
    exists w'. split; [done|]. left. by exists (message e). }
  destruct rows as [|row rows].
  { destruct (test2_loadData_failure layoutError (Resolved []) _ w
                (or_intror (conj eq_refl eq_refl)))
      as (w' & Hrun & Herr & Hload & Hdata & Hchart).
    exists w'. split; [done|]. left. by eexists. }
  set (csvData := row :: rows).
  destruct (decide (Forall is_Some (Test2.distinct "Year" csvData))) as [Hy|Hy].
  - pose proof (λ w1 : World Test2.Refs,
        transformCSVToSankey2_run csvData (Test2.distinct "Theme" csvData) _ w1 Hy)
      as Hd.
    destruct (test2_loadData_transformer_returns layoutError csvData _ w
                ltac:(done) Hd) as (w' & Hrun & Hw').
    exists w'. split; [done|]. right. by eexists.
  - destruct (test2_loadData_transformer_throws layoutError csvData
                (TypeError "toString") w) as (w' & Hrun & Hw'); [done|..].
    { intros w1. by apply transformCSVToSankey2_throws. }
    exists w'. split; [done|]. left. by eexists.
Qed.

(** The same for [loadData] of test4.vue. *)
Lemma test4_loadData_outcome localeCompare layoutError fetched (w : World Test4.Refs) :
  ∃ w',
    run (Test4.loadData localeCompare layoutError fetched) w = (Returned (), w')
    ∧ ((∃ msg, Test4.settled (refs w') (Some msg) (Test4.currentData (refs w))
                 (Test4.chartContainer (refs w)))
       ∨ (∃ d,
            match Test4.chartContainer (refs w), layoutError d with
            | None, _ => Test4.settled (refs w') None (Some d) None
            | Some _, None => Test4.settled (refs w') None (Some d) (Some (Some d))
            | Some _, Some msg => Test4.settled (refs w') (Some msg) (Some d) (Some None)
            end)).
Proof.
  destruct fetched as [e|rows].
  { destruct (test4_loadData_failure localeCompare layoutError (Rejected e) e w) as
      (w' & Hrun & Herr & Hload & Hdata & Hchart); [by left|].
    exists w'. split; [done|]. left. by exists (message e). }
  destruct rows as [|row rows].
  { destruct (test4_loadData_failure localeCompare layoutError (Resolved []) _ w
                (or_intror (conj eq_refl eq_refl)))
      as (w' & Hrun & Herr & Hload & Hdata & Hchart).
    exists w'. split; [done|]. left. by eexists. }
  set (csvData := row :: rows).
  destruct (decide (Forall (λ r : Row, is_Some (r !! "Theme")) csvData)) as [Ht|Ht].
  - destruct (test4_loadData_transformer_returns localeCompare layoutError csvData
                _ _ w ltac:(done) (λ w1, uniqueThemes_run csvData w1 Ht)
                (λ w1, ex_intro _ _
                   (transformCSVToSankey4_run localeCompare csvData _ w1 Ht)))
      as (w' & Hrun & Hw').
    exists w'. split; [done|]. right. by eexists.
  - destruct (test4_loadData_themes_throw localeCompare layoutError csvData
                (TypeError "split") w) as (w' & Hrun & Hw'); [done|..].
    { intros w1. by apply uniqueThemes_throws. }
    exists w'. split; [done|]. left. by eexists.
Qed.

(** X1.  In test2.vue, [loadData] never throws: whatever the fetch settles
    with and whatever state the page is in, it returns with loading off.
    When it leaves no error message, the current data is a dataset and an
    attached chart container shows that dataset. *)
Theorem test2_loadData_settles layoutError fetched (w : World Test2.Refs) :
  ∃ w',
    run (Test2.loadData layoutError fetched) w = (Returned (), w')
    ∧ Test2.loading (refs w') = false
    ∧ (Test2.error (refs w') = None →
       ∃ d, Test2.currentData (refs w') = Some d
            ∧ Test2.chartContainer (refs w')
              = (λ _, Some d) <$> Test2.chartContainer (refs w)).
Proof.
  destruct (test2_loadData_outcome layoutError fetched w)
    as (w' & Hrun & [(msg & Hload & Herr & _)|(d & Hd)]).
  - exists w'. split; [done|]. split; [done|]. by rewrite Herr.
  - exists w'. split; [done|].
    destruct (Test2.chartContainer (refs w)) as [c|];
      [destruct (layoutError d) as [msg|]|];
      destruct Hd as (Hload & Herr & Hdata & Hchart);
      (split; [done|]); rewrite Herr; intros ?; by eauto.
Qed.

(** X2.  In test4.vue, [loadData] never throws either, with the same
    guarantee: loading ends off, and with no error message left the current
    data is a dataset that an attached chart container shows. *)
Theorem test4_loadData_settles localeCompare layoutError fetched
    (w : World Test4.Refs) :
  ∃ w',
    run (Test4.loadData localeCompare layoutError fetched) w = (Returned (), w')
    ∧ Test4.loading (refs w') = false
    ∧ (Test4.error (refs w') = None →
       ∃ d, Test4.currentData (refs w') = Some d
            ∧ Test4.chartContainer (refs w')
              = (λ _, Some d) <$> Test4.chartContainer (refs w)).
Proof.
  destruct (test4_loadData_outcome localeCompare layoutError fetched w)
    as (w' & Hrun & [(msg & Hload & Herr & _)|(d & Hd)]).
  - exists w'. split; [done|]. split; [done|]. by rewrite Herr.
  - exists w'. split; [done|].
    destruct (Test4.chartContainer (refs w)) as [c|];
      [destruct (layoutError d) as [msg|]|];
      destruct Hd as (Hload & Herr & Hdata & Hchart);
      (split; [done|]); rewrite Herr; intros ?; by eauto.
Qed.

(** X3.  In test2.vue, a CSV with a row that has no Year makes
    [year.toString()] throw inside the transformer.  The loader catches it:
    the error ref holds the engine's message, loading is off, and the
    current data and the chart container are what they were. *)
Theorem test2_row_without_year layoutError rows (w : World Test2.Refs) :
  Exists (λ row : Row, row !! "Year" = None) rows →
  ∃ w',
    run (Test2.loadData layoutError (Resolved rows)) w = (Returned (), w')
    ∧ Test2.settled (refs w')
        (Some "Cannot read properties of undefined (reading 'toString')")
        (Test2.currentData (refs w)) (Test2.chartContainer (refs w)).
Proof.
  intros Hrow.
  apply (test2_loadData_transformer_throws layoutError rows (TypeError "toString")).
  { intros ->. by apply Exists_nil in Hrow. }
  intros w1. apply transformCSVToSankey2_throws.
  rewrite Forall_forall. intros Hall.
  apply Exists_exists in Hrow as (row & Hin & Hyear).
  destruct (Hall None) as [? [=]].
  apply distinct_values. by exists row.
Qed.

(** X4.  In test4.vue, a CSV with a row that has no Theme makes
    [themeString.split] throw while the themes are collected, before the
    transformer runs.  The loader catches it and records the engine's
    message; the current data and the chart container are what they were. *)
Theorem test4_row_without_theme localeCompare layoutError rows (w : World Test4.Refs) :
  Exists (λ row : Row, row !! "Theme" = None) rows →
  ∃ w',
    run (Test4.loadData localeCompare layoutError (Resolved rows)) w = (Returned (), w')
    ∧ Test4.settled (refs w')
        (Some "Cannot read properties of undefined (reading 'split')")
        (Test4.currentData (refs w)) (Test4.chartContainer (refs w)).
Proof.
  intros Hrow.
  apply (test4_loadData_themes_throw localeCompare layoutError rows (TypeError "split")).
  { intros ->. by apply Exists_nil in Hrow. }
  intros w1. apply uniqueThemes_throws.
  rewrite Forall_forall. intros Hall.
  apply Exists_exists in Hrow as (row & Hin & Htheme).
  destruct (Hall row Hin) as [s Hs]. congruence.
Qed.

(** X5.  In test2.vue, a CSV of at least one row where every row has its
    Year is transformed with the distinct themes and years, and the result
    becomes the current data.  With the container attached and the layout
    accepting the dataset, the container shows it and no error is left.
    With the layout throwing, the loader records its message and the
    container stays cleared, while the current data is the new dataset.
    With the container detached nothing is drawn. *)
Theorem test2_loadData_draws layoutError rows (w : World Test2.Refs) :
  rows ≠ [] →
  Forall (carries ["Year"]) rows →
  ∃ d w',
    run (Test2.transformCSVToSankey rows (Test2.distinct "Theme" rows)
           (Test2.distinct "Year" rows)) w = (Returned d, w)
    ∧ run (Test2.loadData layoutError (Resolved rows)) w = (Returned (), w')
    ∧ match Test2.chartContainer (refs w), layoutError d with
      | None, _ => Test2.settled (refs w') None (Some d) None
      | Some _, None => Test2.settled (refs w') None (Some d) (Some (Some d))
      | Some _, Some msg => Test2.settled (refs w') (Some msg) (Some d) (Some None)
      end.
Proof.
  intros Hne Hcols.
  assert (Forall is_Some (Test2.distinct "Year" rows)) as Hy.
  { apply distinct_defined. eapply Forall_impl; [exact Hcols|].
    intros row Hr. by apply Forall_cons in Hr as [? _]. }
  eexists.
  destruct (test2_loadData_transformer_returns layoutError rows _ w Hne
              (λ w1, transformCSVToSankey2_run rows (Test2.distinct "Theme" rows) _ w1 Hy))
    as (w' & Hrun & Hw').
  exists w'. split; [by apply transformCSVToSankey2_run|]. by split.
Qed.

(** X6.  In test4.vue, a CSV of at least one row where every row has its
    Theme is transformed with the themes collected from it, and the result
    becomes the current data, drawn under the same conditions as in
    test2.vue: shown when the container is attached and the layout accepts
    it; with the layout throwing, the message is recorded and the container
    stays cleared; detached, nothing is drawn. *)
Theorem test4_loadData_draws localeCompare layoutError rows (w : World Test4.Refs) :
  rows ≠ [] →
  Forall (carries ["Theme"]) rows →
  ∃ themes d w1 w',
    run (Test4.uniqueThemes rows) w = (Returned themes, w)
    ∧ run (Test4.transformCSVToSankey localeCompare rows themes) w = (Returned d, w1)
    ∧ run (Test4.loadData localeCompare layoutError (Resolved rows)) w = (Returned (), w')
    ∧ match Test4.chartContainer (refs w), layoutError d with
      | None, _ => Test4.settled (refs w') None (Some d) None
      | Some _, None => Test4.settled (refs w') None (Some d) (Some (Some d))
      | Some _, Some msg => Test4.settled (refs w') (Some msg) (Some d) (Some None)
      end.
Proof.
  intros Hne Hcols. apply carries_Theme in Hcols.
  eexists _, _, _.
  destruct (test4_loadData_transformer_returns localeCompare layoutError rows _ _ w Hne
              (λ w1, uniqueThemes_run rows w1 Hcols)
              (λ w1, ex_intro _ _ (transformCSVToSankey4_run localeCompare rows _ w1 Hcols)))
    as (w' & Hrun & Hw').
  exists w'. split; [by apply uniqueThemes_run|].
  split; [by apply transformCSVToSankey4_run|]. by split.
Qed.

End LoaderOutcomes.

(** ** The historical page: a valid CSV, and what the chart shows *)

Section HistoricalOutcomes.
Import Js Eff Historical.
Variable layoutError : Dataset → option string.
Implicit Types (w : World Refs) (rows : list Row).

(** What [loadData] ends with on a CSV that has node rows and link rows. *)
Lemma historical_loadData_parsed rows w :
  layoutError fallbackData = None →
  fetchFailure (Resolved rows) = None →
  ∃ w',
    run (loadData layoutError (Resolved rows)) w = (Returned (), w')
    ∧ let d := transformData (parseCSVData rows).1 (parseCSVData rows).2 in
      match chartContainer (refs w), layoutError d with
      | None, _ => settled (refs w') None (Some d) None
      | Some _, None => settled (refs w') None (Some d) (Some (Some d))
      | Some _, Some msg =>
          settled (refs w') (Some msg) (Some fallbackData) (Some (Some fallbackData))
      end.
Proof.
  intros Hlayout Hvalid. simpl in Hvalid.
  destruct (decide _) as [[Hnodes Hlinks]|] in Hvalid; [clear Hvalid|done].
  assert (rows ≠ []) as Hrows by (intros ->; by apply Exists_nil in Hnodes).
  apply (proj2 (filter_having _ _)) in Hnodes, Hlinks.
  unfold loadData, tryCatch, run, await. unfold mbind, M_bind. simpl.
  rewrite bool_decide_eq_true_2 by (destruct rows; [done|simpl; lia]).
  rewrite !bool_decide_eq_true_2 by done. simpl.
  unfold createSankeyDiagram, mbind, M_bind, getRefs, setRefs. simpl.
  destruct (chartContainer (refs w)) as [c|] eqn:Hc; simpl.
  - destruct (layoutError (transformData _ _)) as [msg|] eqn:Hl; simpl.
    + unfold useFallbackData, createSankeyDiagram, mbind, M_bind, getRefs, setRefs.
      simpl. rewrite Hlayout. simpl.
      eexists. split; [reflexivity|]. by repeat split.
    + eexists. split; [reflexivity|]. by repeat split.
  - eexists. split; [reflexivity|]. by repeat split.
Qed.

End HistoricalOutcomes.

(** ** Redrawing on resize *)

Section Resize.
Import Js Eff.

(** A world where loading is off and an attached container shows the current
    data is left as it is by the resize callback, if the layout accepts the
    current data. *)
Lemma test4_onResize_consistent layoutError (w : World Test4.Refs) :
  (∀ d, Test4.currentData (refs w) = Some d → layoutError d = None) →
  Test4.loading (refs w) = false →
  (∀ c, Test4.chartContainer (refs w) = Some c → c = Test4.currentData (refs w)) →
  run (Test4.onResize layoutError) w = (Returned (), w).
Proof.
  destruct w as [[c l e dbg cd] con]. simpl. intros Hlayout -> Hc.
  destruct c as [c|]; [|reflexivity]. rewrite (Hc c eq_refl).
  destruct cd as [d|]; [|reflexivity].
  unfold Test4.onResize, Test4.createSankeyDiagram, run.
  unfold mbind, M_bind, getRefs, setRefs. simpl. by rewrite (Hlayout d eq_refl).
Qed.

Lemma historical_onResize_consistent layoutError (w : World Historical.Refs) :
  (∀ d, Historical.currentData (refs w) = Some d →
        is_Some (Historical.chartContainer (refs w)) → layoutError d = None) →
  Historical.loading (refs w) = false →
  (∀ c, Historical.chartContainer (refs w) = Some c
        → c = Historical.currentData (refs w)) →
  run (Historical.onResize layoutError) w = (Returned (), w).
Proof.
  destruct w as [[c l e cd] con]. simpl. intros Hlayout -> Hc.
  destruct c as [c|]; [|reflexivity]. rewrite (Hc c eq_refl).
  destruct cd as [d|]; [|reflexivity].
  unfold Historical.onResize, Historical.createSankeyDiagram, run.
  unfold mbind, M_bind, getRefs, setRefs. simpl. by rewrite (Hlayout d eq_refl).
Qed.

(** X7.  On the historical page, a CSV with at least one node row and one
    link row is parsed and transformed, and the result becomes the current
    data with no error left; an attached container shows it.  If the layout
    throws on that dataset, the loader falls back like for a failed fetch:
    the layout's message is recorded and the fallback dataset is current
    and drawn. *)
Theorem historical_valid_csv layoutError rows (w : World Historical.Refs) :
  layoutError Historical.fallbackData = None →
  Exists (λ row : Row, row !! "type" = Some "node") rows →
  Exists (λ row : Row, row !! "type" = Some "link") rows →
  ∃ w',
    run (Historical.loadData layoutError (Resolved rows)) w = (Returned (), w')
    ∧ let d := Historical.transformData (Historical.parseCSVData rows).1
                 (Historical.parseCSVData rows).2 in
      match Historical.chartContainer (refs w), layoutError d with
      | None, _ => Historical.settled (refs w') None (Some d) None
      | Some _, None => Historical.settled (refs w') None (Some d) (Some (Some d))
      | Some _, Some msg =>
          Historical.settled (refs w') (Some msg) (Some Historical.fallbackData)
            (Some (Some Historical.fallbackData))
      end.
Proof.
  intros Hlayout Hnodes Hlinks. apply historical_loadData_parsed; [done|].
  simpl. by rewrite decide_True.
Qed.

(** X8.  On the historical page, as long as the layout accepts the fallback
    dataset, [loadData] never throws and never leaves the page without
    data: whatever the fetch settles with, loading ends off, the current
    data is a dataset, an attached container shows exactly that dataset, and
    the dataset is the fallback whenever an error message is left. *)
Theorem historical_chart_shows_current_data layoutError fetched
    (w : World Historical.Refs) :
  layoutError Historical.fallbackData = None →
  ∃ w' d,
    run (Historical.loadData layoutError fetched) w = (Returned (), w')
    ∧ Historical.loading (refs w') = false
    ∧ Historical.currentData (refs w') = Some d
    ∧ Historical.chartContainer (refs w')
      = (λ _, Some d) <$> Historical.chartContainer (refs w)
    ∧ (Historical.error (refs w') ≠ None → d = Historical.fallbackData).
Proof.
  intros Hlayout.
  destruct (Historical.fetchFailure fetched) as [e|] eqn:Hfetch.
  - eexists _, _. split; [by apply historical_loadData_failure|]. simpl.
    by destruct (Historical.chartContainer (refs w)).
  - destruct fetched as [e|rows]; [done|].
    destruct (historical_loadData_parsed layoutError rows w Hlayout Hfetch)
      as (w' & Hrun & Hw').
    set (d := Historical.transformData _ _) in Hw'. cbv zeta in Hw'.
    destruct (Historical.chartContainer (refs w)) as [c|];
      [destruct (layoutError d) as [msg|]|];
      destruct Hw' as (Hload & Herr & Hdata & Hchart);
      eexists w', _; (split; [done|]); (split; [done|]); (split; [done|]);
      (split; [done|]); rewrite Herr; done.
Qed.

(** X9.  On the historical page, a resize that follows [loadData] leaves
    the refs and the console as they are, whatever the fetch settled with:
    the callback redraws the current data, which is the dataset the
    container already shows. *)
Theorem historical_resize_after_load layoutError fetched (w : World Historical.Refs) :
  layoutError Historical.fallbackData = None →
  run (Historical.loadData layoutError fetched;; Historical.onResize layoutError) w
  = run (Historical.loadData layoutError fetched) w.
Proof.
  intros Hlayout.
  assert (∃ w', run (Historical.loadData layoutError fetched) w = (Returned (), w')
                ∧ run (Historical.onResize layoutError) w' = (Returned (), w'))
    as (w' & Hrun & Hresize).
  { destruct (Historical.fetchFailure fetched) as [e|] eqn:Hfetch.
    - eexists. split; [by apply historical_loadData_failure|].
      apply historical_onResize_consistent; simpl; [|done|].
      + by intros d [= <-] _.
      + by destruct (Historical.chartContainer (refs w)); intros c [= <-].
    - destruct fetched as [e|rows]; [done|].
      destruct (historical_loadData_parsed layoutError rows w Hlayout Hfetch)
        as (w' & Hrun & Hw').
      set (d := Historical.transformData _ _) in Hw'. cbv zeta in Hw'.
      exists w'. split; [done|].
      destruct (Historical.chartContainer (refs w)) as [c|];
        [destruct (layoutError d) as [msg|] eqn:Hl|];
        destruct Hw' as (Hload & Herr & Hdata & Hchart);
        (apply historical_onResize_consistent; [|done|]);
        rewrite Hdata, Hchart; by intros c' [= <-]. }
  rewrite (run_bind_returned _ _ w () w' Hrun), Hrun. exact Hresize.
Qed.

(** X10.  In test4.vue, with a layout that accepts the datasets and
    starting from a page whose attached container shows the current data,
    a resize that follows [loadData] leaves the refs and the console as
    they are, whatever the fetch settled with: it redraws the dataset the
    container already shows. *)
Theorem test4_resize_after_load localeCompare layoutError fetched
    (w : World Test4.Refs) :
  (∀ d, layoutError d = None) →
  (∀ c, Test4.chartContainer (refs w) = Some c → c = Test4.currentData (refs w)) →
  run (Test4.loadData localeCompare layoutError fetched;; Test4.onResize layoutError) w
  = run (Test4.loadData localeCompare layoutError fetched) w.
Proof.
  intros Hlayout Hshown.
  destruct (test4_loadData_outcome localeCompare layoutError fetched w)
    as (w' & Hrun & Hw').
  rewrite (run_bind_returned _ _ w () w' Hrun), Hrun.
  apply test4_onResize_consistent; [by intros d _|..].
  - destruct Hw' as [(msg & Hload & _)|(d & Hd)]; [done|].
    destruct (Test4.chartContainer (refs w)) as [c|];
      [destruct (layoutError d) as [msg|]|]; by destruct Hd as (Hload & _).
  - destruct Hw' as [(msg & _ & _ & Hdata & Hchart)|(d & Hd)].
    { by rewrite Hdata, Hchart. }
    rewrite (Hlayout d) in Hd.
    destruct (Test4.chartContainer (refs w)) as [c|];
      destruct Hd as (_ & _ & Hdata & Hchart); rewrite Hdata, Hchart;
      by intros c' [= <-].
Qed.


End Resize.

(** ** test2.vue: the links, row by row *)

Section ArrayPositions.
Import Js.
Context {A : Type} `{EqDecision A}.
Implicit Types (l : list A) (x : A).

(** In an array without repeats, [indexOf] finds each value where it is. *)
Lemma indexOf_NoDup l (i : nat) x :
  NoDup l → l !! i = Some x → indexOf l x = Z.of_nat i.
Proof.
  intros Hnd Hi.
  assert (x ∈ l) as Hx by by eapply list_elem_of_lookup_2.
  pose proof (indexOf_present l x Hx) as Hrange.
  pose proof (indexOf_lookup l x Hx) as Hfound.
  rewrite <- (NoDup_lookup l _ _ x Hnd Hfound Hi). lia.
Qed.

End ArrayPositions.

Section Test2Links.
Import Js Eff Test2.
Context {V : Type}.
Implicit Types (w : World V) (rows : list Row) (themes years : list JsVal).

(** The node at the position of a listed theme. *)
Lemma nodes2_theme themes years (v : JsVal) :
  v ∈ themes →
  (mapi (λ index theme,
       {| id := index; name := theme; type := type_theme; x_position := 0 |}) themes
   ++ mapi (λ index year,
       {| id := len themes + index; name := year; type := type_year;
          x_position := 1 |}) years)
    !! Z.to_nat (indexOf themes v)
  = Some {| id := indexOf themes v; name := v; type := type_theme; x_position := 0 |}.
Proof.
  intros Hv. pose proof (indexOf_present themes v Hv) as Hrange.
  rewrite lookup_app_l by (rewrite mapi_length; unfold len in Hrange; lia).
  rewrite mapi_lookup, (indexOf_lookup themes v Hv). simpl.
  by rewrite Z2Nat.id by lia.
Qed.

(** The node at the position of a listed year. *)
Lemma nodes2_year themes years (v : JsVal) :
  v ∈ years →
  (mapi (λ index theme,
       {| id := index; name := theme; type := type_theme; x_position := 0 |}) themes
   ++ mapi (λ index year,
       {| id := len themes + index; name := year; type := type_year;
          x_position := 1 |}) years)
    !! Z.to_nat (len themes + indexOf years v)
  = Some {| id := len themes + indexOf years v; name := v; type := type_year;
            x_position := 1 |}.
Proof.
  intros Hv. pose proof (indexOf_present years v Hv) as Hrange.
  rewrite lookup_app_r by (rewrite mapi_length; unfold len; lia).
  rewrite mapi_length.
  replace (Z.to_nat (len themes + indexOf years v) - length themes)%nat
    with (Z.to_nat (indexOf years v)) by (unfold len; lia).
  rewrite mapi_lookup, (indexOf_lookup years v Hv). simpl.
  by rewrite Z2Nat.id by lia.
Qed.

(** X12.  In test2.vue, the links are the rows, one for one and in the
    order of the CSV: the link of a row has value 1 and carries the row's
    Theme, Year, Title and Description.  When the row's Theme is among the
    themes, the node at the link's source is the theme node of that name;
    when its Year is among the years, the node at the link's target is the
    year node of that name. *)
Theorem test2_links_follow_rows rows themes years w :
  Forall is_Some years →
  ∃ d,
    run (transformCSVToSankey rows themes years) w = (Returned d, w)
    ∧ length (links d) = length rows
    ∧ ∀ (i : nat) row, rows !! i = Some row →
        ∃ link,
          links d !! i = Some link
          ∧ value link = 1
          ∧ theme link = row !! "Theme" ∧ year link = row !! "Year"
          ∧ description link = row !! "Title"
          ∧ fullDescription link = row !! "Description"
          ∧ (row !! "Theme" ∈ themes →
             ∃ node, nodes d !! Z.to_nat (source link) = Some node
                     ∧ id node = source link ∧ name node = row !! "Theme"
                     ∧ type node = type_theme)
          ∧ (row !! "Year" ∈ years →
             ∃ node, nodes d !! Z.to_nat (target link) = Some node
                     ∧ id node = target link ∧ name node = row !! "Year"
                     ∧ type node = type_year).
Proof.
  intros Hyears. eexists. split; [by apply transformCSVToSankey2_run|].
  simpl. split; [apply length_map|].
  intros i row Hrow. eexists. split.
  { rewrite list_lookup_fmap, Hrow. reflexivity. }
  simpl. repeat (split; [done|]). split.
  - intros Ht. eexists. split; [by apply nodes2_theme|]. done.
  - intros Hy. eexists. split; [by apply nodes2_year|]. done.
Qed.

(** X13.  In test2.vue, the transformer does not check the caller's
    lists.  For a row whose Theme is not among the themes, the link's
    source is -1, which is the identifier of no node.  For a row whose Year
    is not among the years, the link's target is the number of themes less
    one: no year node, but the last theme node when there is one. *)
Theorem test2_unlisted_values rows themes years w (i : nat) row :
  Forall is_Some years →
  rows !! i = Some row →
  ∃ d link,
    run (transformCSVToSankey rows themes years) w = (Returned d, w)
    ∧ links d !! i = Some link
    ∧ (row !! "Theme" ∉ themes →
       source link = -1 ∧ source link ∉ id <$> nodes d)
    ∧ (row !! "Year" ∉ years →
       target link = len themes - 1
       ∧ ∀ node, node ∈ nodes d → id node = target link →
           type node = type_theme ∧ last themes = Some (name node)).
Proof.
  intros Hyears Hrow. eexists _, _.
  split; [by apply transformCSVToSankey2_run|]. simpl.
  split; [by rewrite list_lookup_fmap, Hrow|]. simpl. split.
  - intros Ht. rewrite (indexOf_absent _ _ Ht). split; [done|].
    rewrite fmap_app, (ids_mapi _ id 0), (ids_mapi _ id (len themes)) by done.
    rewrite elem_of_app, !elem_of_seqZ. unfold len. lia.
  - intros Hy. rewrite (indexOf_absent _ _ Hy). split; [lia|].
    intros node Hnode Hid. apply elem_of_app in Hnode as [Hnode|Hnode].
    + apply elem_of_mapi in Hnode as (j & v & Hj & ->). simpl in *.
      split; [done|]. rewrite last_lookup.
      replace (Nat.pred (length themes)) with j by (unfold len in Hid; lia). done.
    + apply elem_of_mapi in Hnode as (j & v & Hj & ->). simpl in Hid. lia.
Qed.

(** X14.  In test2.vue, with the themes and the years taken from the rows
    as the loader does, no node is left without a link: every theme node is
    the source of the link of some row, and every year node is the target
    of one. *)
Theorem test2_every_node_linked rows w :
  Forall (carries ["Year"]) rows →
  ∃ d,
    run (transformCSVToSankey rows (distinct "Theme" rows) (distinct "Year" rows)) w
    = (Returned d, w)
    ∧ ∀ node, node ∈ nodes d →
        ∃ link, link ∈ links d
          ∧ match type node with
            | type_theme => source link = id node ∧ theme link = name node
            | type_year => target link = id node ∧ year link = name node
            end.
Proof.
  intros Hcols.
  assert (Forall is_Some (distinct "Year" rows)) as Hy.
  { apply distinct_defined. eapply Forall_impl; [exact Hcols|].
    intros row Hr. by apply Forall_cons in Hr as [? _]. }
  eexists. split; [by apply transformCSVToSankey2_run|]. simpl.
  intros node [Hnode|Hnode]%elem_of_app;
    apply elem_of_mapi in Hnode as (j & v & Hj & ->); simpl.
  - assert (v ∈ distinct "Theme" rows) as Hv by by eapply list_elem_of_lookup_2.
    apply distinct_values in Hv as (row & Hrow & Hval).
    eexists. split; [apply list_elem_of_fmap; by exists row|]. simpl.
    rewrite Hval. split; [|done]. apply indexOf_NoDup; [apply NoDup_newSet|done].
  - assert (v ∈ distinct "Year" rows) as Hv by by eapply list_elem_of_lookup_2.
    apply distinct_values in Hv as (row & Hrow & Hval).
    eexists. split; [apply list_elem_of_fmap; by exists row|]. simpl.
    rewrite Hval. split; [|done]. f_equal.
    apply indexOf_NoDup; [apply NoDup_newSet|done].
Qed.

End Test2Links.

(** ** test4.vue: the links, event by event *)

Section Test4Links.
Import Js Eff Test4.
Variable localeCompare : string → string → Z.
Context {V : Type}.
Implicit Types (w : World V) (rows : list Row) (themes : list string).

(** The inner [forEach] pushes a link for the listed themes that are known,
    in the order listed. *)
Lemma rowLinks_filter themes eventIndex row :
  rowLinks themes eventIndex row
  = (λ theme, makeLink (indexOf themes theme) eventIndex row theme)
    <$> filter (λ theme, theme ∈ themes) (listedThemes row).
Proof.
  unfold rowLinks. generalize 0.
  induction (listedThemes row) as [|theme ts IH]; intros i; [done|].
  simpl. rewrite filter_cons. destruct (decide (indexOf themes theme ≠ -1)) as [Hi|Hi].
  - rewrite decide_True by by apply indexOf_found. simpl. by rewrite IH.
  - rewrite decide_False by (by rewrite <- indexOf_found). simpl. apply IH.
Qed.

(** It warns about the others. *)
Lemma rowWarnings_filter themes row :
  rowWarnings themes row
  = themeWarning <$> filter (λ theme, theme ∉ themes) (listedThemes row).
Proof.
  unfold rowWarnings. generalize 0.
  induction (listedThemes row) as [|theme ts IH]; intros i; [done|].
  simpl. rewrite filter_cons. destruct (decide (indexOf themes theme ≠ -1)) as [Hi|Hi].
  - rewrite decide_False by (apply indexOf_found in Hi; tauto). simpl. apply IH.
  - rewrite decide_True by (by rewrite <- indexOf_found). simpl. by rewrite IH.
Qed.

Lemma length_filter_split {A} (P : A → Prop) `{∀ x, Decision (P x)} (l : list A) :
  (length (filter P l) + length (filter (λ x, ¬ P x) l) = length l)%nat.
Proof.
  induction l as [|x l IH]; [done|].
  rewrite !filter_cons. destruct (decide (P x)).
  - rewrite decide_False by tauto. simpl. lia.
  - rewrite decide_True by done. simpl. lia.
Qed.

(** The warnings among the console lines of one event. *)
Lemma rowLog_warnings themes row :
  filter (λ entry, level entry = WarnLevel) (rowLog themes row) = rowWarnings themes row.
Proof.
  unfold rowLog. rewrite filter_cons_False by done.
  apply filter_all, Forall_forall.
  by intros entry (theme & _ & _ & ->)%elem_of_rowWarnings.
Qed.

(** Links and warnings together account for every listed theme. *)
Lemma links_and_warnings themes i i' rows :
  (length (collectFrom (λ index row, rowLinks themes (len themes + index) row) i rows)
   + length (filter (λ entry, level entry = WarnLevel)
       (collectFrom (λ _ row, rowLog themes row) i' rows))
   = sum_list_with (λ row, length (listedThemes row)) rows)%nat.
Proof.
  revert i i'. induction rows as [|row rows IH]; intros i i'; [done|].
  cbn [collectFrom sum_list_with].
  rewrite filter_app, !length_app, <- (IH (i + 1) (i' + 1)).
  rewrite rowLog_warnings, rowLinks_filter, rowWarnings_filter, !length_fmap.
  pose proof (length_filter_split (λ theme, theme ∈ themes) (listedThemes row)). lia.
Qed.

(** X15.  In test4.vue, whatever themes the caller passes, the transformer
    accounts for every theme a row lists: the number of links and the number
    of warnings on the console add up to the number of listed themes, summed
    over the rows.  The last console line reports the number of links and the
    number of rows. *)
Theorem test4_links_and_warnings rows themes w :
  Forall (carries ["Theme"]) rows →
  ∃ d out,
    run (transformCSVToSankey localeCompare rows themes) w = (Returned d, logged out w)
    ∧ (length (links d) + length (filter (λ entry, level entry = WarnLevel) out)
       = sum_list_with (λ row, length (listedThemes row)) rows)%nat
    ∧ text <$> last out
      = Some ("Created " +:+ pretty (length (links d)) +:+ " links for "
              +:+ pretty (length rows) +:+ " events").
Proof.
  intros Hcols. apply carries_Theme in Hcols.
  eexists _, _. split; [by apply transformCSVToSankey4_run|]. simpl. split.
  - rewrite filter_app, length_app. simpl. rewrite Nat.add_0_r.
    unfold linksFrom, logOf. rewrite links_and_warnings.
    by rewrite (sortRows_Permutation localeCompare rows).
  - rewrite last_snoc. simpl. by rewrite sortRows_length.
Qed.

(** X16.  In test4.vue, the links that end at an event are the themes its
    row lists, less the unknown ones: one link per known entry, in the order
    listed, a theme listed twice getting two links.  Each carries the row's
    Title, Description and parsed Year. *)
Theorem test4_event_links rows themes w :
  Forall (carries ["Theme"]) rows →
  ∃ d w' sortedData,
    run (transformCSVToSankey localeCompare rows themes) w = (Returned d, w')
    ∧ sortedData ≡ₚ rows
    ∧ ∀ (j : nat) row, sortedData !! j = Some row →
        nodes d !! (length themes + j)%nat
          = Some (eventNode themes (Z.of_nat j) row)
        ∧ filter (λ link, target link = len themes + Z.of_nat j) (links d)
          = (λ theme,
               {| source := indexOf themes theme;
                  target := len themes + Z.of_nat j;
                  value := 1;
                  description := row !! "Title";
                  fullDescription := row !! "Description";
                  year := parseInt (row !! "Year");
                  theme := theme |})
            <$> filter (λ theme, theme ∈ themes) (listedThemes row).
Proof.
  intros Hcols. apply carries_Theme in Hcols.
  eexists _, _, _. split; [by apply transformCSVToSankey4_run|].
  split; [apply sortRows_Permutation|].
  intros j row Hj. simpl. split; [by apply nodes4_event|].
  by rewrite (linksFrom_of_event themes _ j row Hj), rowLinks_filter.
Qed.

(** X17.  In test4.vue, whatever themes the caller passes, every link goes
    from a theme node to an event node of the dataset: the node at its
    source is the theme node named by the link's theme, and the node at its
    target is an event node with the link's year, title and description. *)
Theorem test4_links_theme_to_event rows themes w :
  Forall (carries ["Theme"]) rows →
  ∃ d w',
    run (transformCSVToSankey localeCompare rows themes) w = (Returned d, w')
    ∧ Forall (λ link,
        value link = 1
        ∧ nodes d !! Z.to_nat (source link)
          = Some (ThemeNode (source link) (theme link))
        ∧ ∃ label,
            nodes d !! Z.to_nat (target link)
            = Some (EventNode (target link) label (year link) (description link)
                      (fullDescription link))) (links d).
Proof.
  intros Hcols. apply carries_Theme in Hcols.
  eexists _, _. split; [by apply transformCSVToSankey4_run|]. simpl.
  apply Forall_forall.
  intros link (j & row & theme & Hj & Hlisted & Hknown & ->)%elem_of_linksFrom.
  simpl. split; [done|]. split.
  - pose proof (indexOf_present themes theme Hknown) as Hrange.
    rewrite lookup_app_l by (rewrite mapi_length; unfold len in Hrange; lia).
    rewrite mapi_lookup, (indexOf_lookup themes theme Hknown). simpl.
    by rewrite Z2Nat.id by lia.
  - eexists.
    replace (Z.to_nat (len themes + Z.of_nat j)) with (length themes + j)%nat
      by (unfold len; lia).
    rewrite (nodes4_event themes _ j row Hj). reflexivity.
Qed.

(** X18.  In test4.vue, with the themes the loader collects from the rows,
    no node is left without a link: every theme node is the source of a link
    that carries its name, and every event node is the target of a link that
    carries its title. *)
Theorem test4_every_node_linked rows w :
  Forall (carries ["Theme"]) rows →
  ∃ themes d w',
    run (uniqueThemes rows) w = (Returned themes, w)
    ∧ run (transformCSVToSankey localeCompare rows themes) w = (Returned d, w')
    ∧ ∀ node, node ∈ nodes d →
        ∃ link, link ∈ links d
          ∧ match node with
            | ThemeNode i name => source link = i ∧ theme link = name
            | EventNode i _ _ title _ => target link = i ∧ description link = title
            end.
Proof.
  intros Hcols. apply carries_Theme in Hcols.
  eexists _, _, _. split; [by apply uniqueThemes_run|].
  split; [by apply transformCSVToSankey4_run|]. simpl.
  set (themes := newSet (concat (listedThemes <$> rows))).
  set (sortedData := sortRows localeCompare rows).
  intros node [Hnode|Hnode]%elem_of_app.
  - apply elem_of_mapi in Hnode as (i & theme & Hi & ->).
    assert (theme ∈ themes) as Hknown by by eapply list_elem_of_lookup_2.
    pose proof Hknown as (row & Hrow & Hlisted)%elem_of_uniqueThemes.
    rewrite <- (sortRows_Permutation localeCompare rows) in Hrow.
    apply list_elem_of_lookup in Hrow as [j Hj].
    eexists. split.
    { apply elem_of_linksFrom. by exists j, row, theme. }
    simpl. split; [|done]. apply indexOf_NoDup; [apply NoDup_newSet|done].
  - apply elem_of_mapi in Hnode as (j & row & Hj & ->).
    destruct (listedThemes row) as [|theme ts] eqn:Hlisted.
    { by destruct (listedThemes_nonempty row). }
    assert (theme ∈ listedThemes row) as Hin by (rewrite Hlisted; left).
    eexists. split.
    { apply elem_of_linksFrom. exists j, row, theme.
      split; [done|]. split; [done|]. split; [|done].
      apply elem_of_uniqueThemes. exists row. split; [|done].
      rewrite <- (sortRows_Permutation localeCompare rows).
      by eapply list_elem_of_lookup_2. }
    done.
Qed.

End Test4Links.

(** ** Hover highlighting: the right-hand column, the labels, the links *)

Section HoverEffects.
Import Svg.
Variable chartWidth : Q.
Local Arguments lt : simpl never.
Local Arguments ge : simpl never.
Local Arguments onLeft : simpl never.

(** A filter that selects nothing leaves the selection as it is. *)
Lemma restyle_none {D} (p : D → bool) (f : D → Shape → Shape) (sel : Selection D) :
  (∀ d, p d = false) → restyle p f sel = sel.
Proof.
  intros Hp. unfold restyle. induction sel as [|[d s] sel IH]; [done|].
  simpl. by rewrite Hp, IH.
Qed.

(** X19.  In test2.vue and on the historical page the reset law holds:
    whatever sequence of pointer events came before, after
    [resetHighlighting] every link, rectangle and label (and flow label) is
    seen with the opacity and the stroke width it was drawn with. *)
Theorem reset_restores_the_drawing (result : Layout) :
  (∀ evs,
     let drawn := Test2.Hover.createChartElements result in
     let reset := Test2.Hover.resetHighlighting (Test2.Hover.after chartWidth evs drawn) in
     seen (Test2.Hover.links reset) = seen (Test2.Hover.links drawn)
     ∧ seen (Test2.Hover.nodes reset) = seen (Test2.Hover.nodes drawn)
     ∧ seen (Test2.Hover.labels reset) = seen (Test2.Hover.labels drawn))
  ∧ (∀ evs,
       let drawn := Historical.Hover.draw result in
       let reset :=
         Historical.Hover.resetHighlighting (Historical.Hover.after chartWidth evs drawn) in
       seen (Historical.Hover.links reset) = seen (Historical.Hover.links drawn)
       ∧ seen (Historical.Hover.nodes reset) = seen (Historical.Hover.nodes drawn)
       ∧ seen (Historical.Hover.labels reset) = seen (Historical.Hover.labels drawn)
       ∧ seen (Historical.Hover.flowLabels reset)
         = seen (Historical.Hover.flowLabels drawn)).
Proof.
  split; intros evs.
  - apply test2_reset_restores.
  - apply historical_reset_restores.
Qed.

(** X20.  Entering a node [n] of the right column mirrors the rule for the
    left column, keyed on the target.  Exactly the links into [n] go to
    opacity 0.9 and every other link to 0.1; test2.vue and the historical
    page widen the links into [n] to [max(3, width + 1)], test4.vue leaves
    the widths.  The other rectangles of the right column go to 0.3 (0.1 in
    test4.vue), those of the left column to 0.7 (0.1 in test4.vue), and the
    rectangle of [n] keeps its opacity.  In test4.vue the year and title
    labels of the other events go to 0.1 and the theme labels stay. *)
Theorem focus_on_target_effect (n : nat) :
  (∀ c : Test2.Hover.Chart,
     Forall2 (λ e e',
         e'.1 = e.1
         ∧ if decide (targetIndex e.1 = n)
           then opacity e'.2 = 0.9%Q ∧ strokeWidth e'.2 = Qmax 3 (width e.1 + 1)
           else opacity e'.2 = 0.1%Q ∧ strokeWidth e'.2 = strokeWidth e.2)
       (Test2.Hover.links c)
       (Test2.Hover.links (Test2.Hover.highlightYearFlows chartWidth n c))
     ∧ Forall2 (λ e e',
           e'.1 = e.1
           ∧ opacity e'.2
             = if onLeft chartWidth e.1 then 0.7%Q
               else if decide (index e.1 = n) then opacity e.2 else 0.3%Q)
         (Test2.Hover.nodes c)
         (Test2.Hover.nodes (Test2.Hover.highlightYearFlows chartWidth n c)))
  ∧ (∀ c : Historical.Hover.Chart,
       Forall2 (λ e e',
           e'.1 = e.1
           ∧ if decide (targetIndex e.1 = n)
             then opacity e'.2 = 0.9%Q ∧ strokeWidth e'.2 = Qmax 3 (width e.1 + 1)
             else opacity e'.2 = 0.1%Q ∧ strokeWidth e'.2 = strokeWidth e.2)
         (Historical.Hover.links c)
         (Historical.Hover.links (Historical.Hover.highlightDecadeFlows chartWidth n c))
       ∧ Forall2 (λ e e',
             e'.1 = e.1
             ∧ opacity e'.2
               = if onLeft chartWidth e.1 then 0.7%Q
                 else if decide (index e.1 = n) then opacity e.2 else 0.3%Q)
           (Historical.Hover.nodes c)
           (Historical.Hover.nodes (Historical.Hover.highlightDecadeFlows chartWidth n c)))
  ∧ (∀ c : Test4.Hover.Chart,
       Forall2 (λ e e',
           e'.1 = e.1
           ∧ opacity e'.2 = (if decide (targetIndex e.1 = n) then 0.9%Q else 0.1%Q)
           ∧ strokeWidth e'.2 = strokeWidth e.2)
         (Test4.Hover.links c)
         (Test4.Hover.links (Test4.Hover.highlightEventFlows chartWidth n c))
       ∧ Forall2 (λ e e',
             e'.1 = e.1
             ∧ opacity e'.2
               = if onLeft chartWidth e.1 then 0.1%Q
                 else if decide (index e.1 = n) then opacity e.2 else 0.1%Q)
           (Test4.Hover.nodes c)
           (Test4.Hover.nodes (Test4.Hover.highlightEventFlows chartWidth n c))
       ∧ Forall2 (λ e e',
             e'.1 = e.1
             ∧ opacity e'.2 = if decide (index e.1 = n) then opacity e.2 else 0.1%Q)
           (Test4.Hover.yearLabels (Test4.Hover.labels c))
           (Test4.Hover.yearLabels
              (Test4.Hover.labels (Test4.Hover.highlightEventFlows chartWidth n c)))
       ∧ Forall2 (λ e e',
             e'.1 = e.1
             ∧ opacity e'.2 = if decide (index e.1 = n) then opacity e.2 else 0.1%Q)
           (Test4.Hover.titleLabels (Test4.Hover.labels c))
           (Test4.Hover.titleLabels
              (Test4.Hover.labels (Test4.Hover.highlightEventFlows chartWidth n c)))
       ∧ Test4.Hover.themeLabels
           (Test4.Hover.labels (Test4.Hover.highlightEventFlows chartWidth n c))
         = Test4.Hover.themeLabels (Test4.Hover.labels c)).
Proof.
  split; [|split].
  - intros c. unfold Test2.Hover.highlightYearFlows. simpl.
    unfold restyle. rewrite !map_map. split.
    + apply Forall2_map_self. intros [d s]. simpl. split; [by destruct (bool_decide _)|].
      destruct (decide (targetIndex d = n)) as [Hd|Hd].
      * by rewrite bool_decide_eq_true_2.
      * by rewrite bool_decide_eq_false_2.
    + apply Forall2_map_self. intros [d s]. simpl.
      destruct (onLeft_cases chartWidth d) as [(Hlt & -> & ->)|(Hlt & -> & ->)]; simpl.
      * by rewrite Hlt.
      * destruct (decide (index d = n)) as [Hd|Hd].
        -- rewrite bool_decide_eq_false_2 by tauto. simpl. by rewrite Hlt.
        -- rewrite bool_decide_eq_true_2 by done. simpl. by rewrite Hlt.
  - intros c. unfold Historical.Hover.highlightDecadeFlows. simpl.
    unfold restyle. rewrite !map_map. split.
    + apply Forall2_map_self. intros [d s]. simpl. split; [by destruct (bool_decide _)|].
      destruct (decide (targetIndex d = n)) as [Hd|Hd].
      * by rewrite bool_decide_eq_true_2.
      * by rewrite bool_decide_eq_false_2.
    + apply Forall2_map_self. intros [d s]. simpl.
      destruct (onLeft_cases chartWidth d) as [(Hlt & -> & ->)|(Hlt & -> & ->)]; simpl.
      * by rewrite Hlt.
      * destruct (decide (index d = n)) as [Hd|Hd].
        -- rewrite bool_decide_eq_false_2 by tauto. simpl. by rewrite Hlt.
        -- rewrite bool_decide_eq_true_2 by done. simpl. by rewrite Hlt.
  - intros c. unfold Test4.Hover.highlightEventFlows. simpl.
    unfold restyle. rewrite !map_map. split; [|split; [|split; [|split; [|done]]]].
    + apply Forall2_map_self. intros [d s]. simpl. split; [by destruct (bool_decide _)|].
      destruct (decide (targetIndex d = n)) as [Hd|Hd].
      * by rewrite bool_decide_eq_true_2.
      * by rewrite bool_decide_eq_false_2.
    + apply Forall2_map_self. intros [d s]. simpl.
      destruct (onLeft_cases chartWidth d) as [(Hlt & -> & ->)|(Hlt & -> & ->)]; simpl.
      * by rewrite Hlt.
      * destruct (decide (index d = n)) as [Hd|Hd].
        -- rewrite bool_decide_eq_false_2 by tauto. simpl. by rewrite Hlt.
        -- rewrite bool_decide_eq_true_2 by done. simpl. by rewrite Hlt.
    + apply Forall2_map_self. intros [d s]. simpl.
      destruct (decide (index d = n)) as [Hd|Hd].
      * by rewrite bool_decide_eq_false_2 by tauto.
      * by rewrite bool_decide_eq_true_2.
    + apply Forall2_map_self. intros [d s]. simpl.
      destruct (decide (index d = n)) as [Hd|Hd].
      * by rewrite bool_decide_eq_false_2 by tauto.
      * by rewrite bool_decide_eq_true_2.
Qed.

End HoverEffects.

Section HoverLabels.
Import Svg.
Variable chartWidth : Q.
Local Arguments restyle : simpl never.
Local Arguments alter : simpl never.
Local Arguments lt : simpl never.
Local Arguments ge : simpl never.

(** In test2.vue every handler leaves the node labels or resets them. *)
Lemma test2_handle_labels c ev :
  Test2.Hover.labels (Test2.Hover.handle chartWidth c ev) = Test2.Hover.labels c
  ∨ Test2.Hover.labels (Test2.Hover.handle chartWidth c ev)
    = restyle all (λ _, styleOpacityTo 1) (Test2.Hover.labels c).
Proof.
  destruct ev as [i|i|j|j]; simpl; try by left.
  - left. destruct (Test2.Hover.nodes c !! i) as [[d s]|]; [|done].
    destruct (Test2.Hover.isLeftSide chartWidth d); simpl; by apply restyle_none.
  - destruct (Test2.Hover.nodes c !! i); [by right|by left].
Qed.

Lemma historical_handle_labels c ev :
  Historical.Hover.labels (Historical.Hover.handle chartWidth c ev)
  = Historical.Hover.labels c
  ∨ Historical.Hover.labels (Historical.Hover.handle chartWidth c ev)
    = restyle all (λ _, styleOpacityTo 1) (Historical.Hover.labels c).
Proof.
  destruct ev as [i|i]; simpl.
  - left. destruct (Historical.Hover.nodes c !! i) as [[d s]|]; [|done].
    destruct (lt (x0Of d) (chartWidth / 2)); simpl; [by apply restyle_none|].
    destruct (ge (x0Of d) (chartWidth / 2)); simpl; [|done]. by apply restyle_none.
  - destruct (Historical.Hover.nodes c !! i); [by right|by left].
Qed.

Lemma test2_after_labels_opaque evs c :
  Forall (λ e, opacity e.2 = 1%Q) (Test2.Hover.labels c) →
  Forall (λ e, opacity e.2 = 1%Q)
    (Test2.Hover.labels (Test2.Hover.after chartWidth evs c)).
Proof.
  revert c. induction evs as [|ev evs IH]; intros c Hc; [done|].
  simpl. apply IH. destruct (test2_handle_labels c ev) as [->| ->]; [done|].
  by apply Forall_restyle_all.
Qed.

Lemma historical_after_labels_opaque evs c :
  Forall (λ e, opacity e.2 = 1%Q) (Historical.Hover.labels c) →
  Forall (λ e, opacity e.2 = 1%Q)
    (Historical.Hover.labels (Historical.Hover.after chartWidth evs c)).
Proof.
  revert c. induction evs as [|ev evs IH]; intros c Hc; [done|].
  simpl. apply IH. destruct (historical_handle_labels c ev) as [->| ->]; [done|].
  by apply Forall_restyle_all.
Qed.

(** X21.  In test2.vue and on the historical page no pointer event ever
    changes how a node label is seen.  Both highlight functions select the
    labels to fade by [label.x], a property the layout does not set, so they
    select none; all that ever touches a label is the reset, which gives it
    the opacity 1 it was drawn with. *)
Theorem node_labels_never_fade (result : Layout) :
  (∀ n c,
     Test2.Hover.labels (Test2.Hover.highlightThemeFlows chartWidth n c)
     = Test2.Hover.labels c
     ∧ Test2.Hover.labels (Test2.Hover.highlightYearFlows chartWidth n c)
       = Test2.Hover.labels c)
  ∧ (∀ n c,
       Historical.Hover.labels (Historical.Hover.highlightThemeFlows chartWidth n c)
       = Historical.Hover.labels c
       ∧ Historical.Hover.labels (Historical.Hover.highlightDecadeFlows chartWidth n c)
         = Historical.Hover.labels c)
  ∧ (∀ evs,
       seen (Test2.Hover.labels
               (Test2.Hover.after chartWidth evs (Test2.Hover.createChartElements result)))
       = seen (Test2.Hover.labels (Test2.Hover.createChartElements result)))
  ∧ (∀ evs,
       seen (Historical.Hover.labels
               (Historical.Hover.after chartWidth evs (Historical.Hover.draw result)))
       = seen (Historical.Hover.labels (Historical.Hover.draw result))).
Proof.
  split; [|split; [|split]].
  - intros n c. split; simpl; by apply restyle_none.
  - intros n c. split; simpl; by apply restyle_none.
  - intros evs. apply (seen_same_opacity _ _ 1%Q).
    + apply test2_after_labels_opaque. by apply Forall_enter.
    + by apply Forall_enter.
    + apply test2_after_keeps.
  - intros evs. apply (seen_same_opacity _ _ 1%Q).
    + apply historical_after_labels_opaque. by apply Forall_enter.
    + by apply Forall_enter.
    + apply historical_after_keeps.
Qed.

End HoverLabels.

Section LinkHover.
Import Svg.
Variable chartWidth : Q.
Local Arguments restyle : simpl never.
Local Arguments alter : simpl never.
Local Arguments lt : simpl never.
Local Arguments ge : simpl never.

(** What is seen of a selection after [g] on its element [j]. *)
Lemma seen_alter {D} (g : D * Shape → D * Shape) (j : nat) (sel : Selection D) e :
  sel !! j = Some e →
  seen (alter g j sel)
  = <[j := ((g e).1, (opacity (g e).2, strokeWidth (g e).2))]> (seen sel).
Proof.
  revert j. induction sel as [|e' sel IH]; intros j Hj; [done|].
  destruct j as [|j]; simpl in *.
  - by injection Hj as ->.
  - f_equal. by apply IH.
Qed.

Lemma alter_twice {D} (g h : D * Shape → D * Shape) (j : nat) (sel : Selection D) :
  alter g j (alter h j sel) = alter (g ∘ h) j sel.
Proof. apply list_alter_alter_eq. Qed.

Lemma lookup_enter {D} (mk : D → Shape) (ds : list D) (j : nat) d :
  ds !! j = Some d → enter mk ds !! j = Some (d, mk d).
Proof.
  intros Hj. unfold enter, Selection. change (map ?f ?l) with (f <$> l).
  by rewrite list_lookup_fmap, Hj.
Qed.

Lemma lookup_seen {D} (sel : Selection D) (j : nat) e :
  sel !! j = Some e → seen sel !! j = Some (e.1, (opacity e.2, strokeWidth e.2)).
Proof.
  unfold seen, Selection in *. intros Hj. change (map ?f ?l) with (f <$> l).
  by rewrite list_lookup_fmap, Hj.
Qed.

(** X22.  The pointer over a link, from the chart as drawn.  In test2.vue
    the link goes to opacity 1 and to the stroke width [max(4, width + 2)],
    wider than the [max(2, width)] it was drawn with; in test4.vue it goes
    to opacity 1 and keeps its width.  No other link changes, and when the
    pointer leaves, every link is seen as it was drawn. *)
Theorem link_hover_round_trip (result : Layout) (j : nat) (d : LinkDatum) :
  layoutLinks result !! j = Some d →
  (let drawn := Test2.Hover.createChartElements result in
   let over := Test2.Hover.handle chartWidth drawn (Test2.Hover.LinkEnter j) in
   seen (Test2.Hover.links over)
   = <[j := (d, (1%Q, Qmax 4 (width d + 2)))]> (seen (Test2.Hover.links drawn))
   ∧ (Qmax 2 (width d) < Qmax 4 (width d + 2))%Q
   ∧ seen (Test2.Hover.links (Test2.Hover.handle chartWidth over (Test2.Hover.LinkLeave j)))
     = seen (Test2.Hover.links drawn))
  ∧ (let drawn := Test4.Hover.createChartElements chartWidth result in
     let over := Test4.Hover.handle chartWidth drawn (Test4.Hover.LinkEnter j) in
     seen (Test4.Hover.links over)
     = <[j := (d, (1%Q, Qmax 4 (width d + 2)))]> (seen (Test4.Hover.links drawn))
     ∧ seen (Test4.Hover.links
               (Test4.Hover.handle chartWidth over (Test4.Hover.LinkLeave j)))
       = seen (Test4.Hover.links drawn)).
Proof.
  intros Hj. split; cbv zeta.
  - split; [|split].
    + simpl. by rewrite (seen_alter _ j _ _ (lookup_enter _ _ j d Hj)).
    + destruct (Q.max_spec 2 (width d)) as [[? ->]|[? ->]],
               (Q.max_spec 4 (width d + 2)) as [[? ->]|[? ->]]; lra.
    + simpl. rewrite alter_twice.
      rewrite (seen_alter _ j _ _ (lookup_enter _ _ j d Hj)). simpl.
      apply list_insert_id.
      by rewrite (lookup_seen _ j _ (lookup_enter _ _ j d Hj)).
  - split.
    + simpl. unfold Test4.Hover.createLinks.
      by rewrite (seen_alter _ j _ _ (lookup_enter _ _ j d Hj)).
    + simpl. unfold Test4.Hover.createLinks. rewrite alter_twice.
      rewrite (seen_alter _ j _ _ (lookup_enter _ _ j d Hj)). simpl.
      apply list_insert_id.
      by rewrite (lookup_seen _ j _ (lookup_enter _ _ j d Hj)).
Qed.

(** X23.  On the historical page the flow labels follow their links.
    With the pointer on a node, the flow label at a position keeps the
    opacity 1 it was drawn with exactly when the link at that position is
    emphasised (opacity 0.9); all other links and their flow labels are at
    0.1. *)
Theorem flow_labels_follow_links (result : Layout) (n : nat) :
  let drawn := Historical.Hover.draw result in
  Forall2 (λ link label,
      label.1 = link.1
      ∧ (opacity link.2, opacity label.2)
        = if decide (sourceIndex link.1 = n) then (0.9%Q, 1%Q) else (0.1%Q, 0.1%Q))
    (Historical.Hover.links (Historical.Hover.highlightThemeFlows chartWidth n drawn))
    (Historical.Hover.flowLabels (Historical.Hover.highlightThemeFlows chartWidth n drawn))
  ∧ Forall2 (λ link label,
        label.1 = link.1
        ∧ (opacity link.2, opacity label.2)
          = if decide (targetIndex link.1 = n) then (0.9%Q, 1%Q) else (0.1%Q, 0.1%Q))
      (Historical.Hover.links (Historical.Hover.highlightDecadeFlows chartWidth n drawn))
      (Historical.Hover.flowLabels
         (Historical.Hover.highlightDecadeFlows chartWidth n drawn)).
Proof.
  cbv zeta. unfold Historical.Hover.highlightThemeFlows,
    Historical.Hover.highlightDecadeFlows, Historical.Hover.draw. simpl.
  unfold restyle, enter. rewrite !map_map.
  split; apply Forall2_fmap, Forall_Forall2_diag, Forall_forall; intros d _; simpl.
  - destruct (decide (sourceIndex d = n)) as [Hd|Hd].
    + rewrite (bool_decide_eq_true_2 (sourceIndex d = n)) by done.
      rewrite (bool_decide_eq_false_2 (sourceIndex d ≠ n)) by tauto.
      simpl. by rewrite decide_True.
    + rewrite (bool_decide_eq_false_2 (sourceIndex d = n)) by done.
      rewrite (bool_decide_eq_true_2 (sourceIndex d ≠ n)) by done.
      simpl. by rewrite decide_False.
  - destruct (decide (targetIndex d = n)) as [Hd|Hd].
    + rewrite (bool_decide_eq_true_2 (targetIndex d = n)) by done.
      rewrite (bool_decide_eq_false_2 (targetIndex d ≠ n)) by tauto.
      simpl. by rewrite decide_True.
    + rewrite (bool_decide_eq_false_2 (targetIndex d = n)) by done.
      rewrite (bool_decide_eq_true_2 (targetIndex d ≠ n)) by done.
      simpl. by rewrite decide_False.
Qed.

End LinkHover.

(** ** test4.vue: what a reset restores, and the labels of the nodes *)

Section Test4Hover.
Import Svg.
Variable chartWidth : Q.
Local Arguments restyle : simpl never.
Local Arguments alter : simpl never.
Local Arguments lt : simpl never.
Local Arguments ge : simpl never.

(** No handler of test4.vue changes a datum or a stroke width of a link or
    of a label. *)
Lemma test4_handle_keeps_widths c ev :
  girth <$> Test4.Hover.links (Test4.Hover.handle chartWidth c ev)
  = girth <$> Test4.Hover.links c
  ∧ girth <$> Test4.Hover.themeLabels
                (Test4.Hover.labels (Test4.Hover.handle chartWidth c ev))
    = girth <$> Test4.Hover.themeLabels (Test4.Hover.labels c)
  ∧ girth <$> Test4.Hover.yearLabels
                (Test4.Hover.labels (Test4.Hover.handle chartWidth c ev))
    = girth <$> Test4.Hover.yearLabels (Test4.Hover.labels c)
  ∧ girth <$> Test4.Hover.titleLabels
                (Test4.Hover.labels (Test4.Hover.handle chartWidth c ev))
    = girth <$> Test4.Hover.titleLabels (Test4.Hover.labels c).
Proof.
  destruct ev as [i|i|j|j]; simpl.
  - destruct (Test4.Hover.nodes c !! i) as [[d s]|]; [|done].
    destruct (Test4.Hover.isThemeNode chartWidth d); simpl;
      by rewrite !restyle_keeps.
  - destruct (Test4.Hover.nodes c !! i); [|done]. simpl. by rewrite !restyle_keeps.
  - by rewrite alter_keeps.
  - by rewrite alter_keeps.
Qed.

Lemma test4_after_keeps_widths evs c :
  girth <$> Test4.Hover.links (Test4.Hover.after chartWidth evs c)
  = girth <$> Test4.Hover.links c
  ∧ girth <$> Test4.Hover.themeLabels
                (Test4.Hover.labels (Test4.Hover.after chartWidth evs c))
    = girth <$> Test4.Hover.themeLabels (Test4.Hover.labels c)
  ∧ girth <$> Test4.Hover.yearLabels
                (Test4.Hover.labels (Test4.Hover.after chartWidth evs c))
    = girth <$> Test4.Hover.yearLabels (Test4.Hover.labels c)
  ∧ girth <$> Test4.Hover.titleLabels
                (Test4.Hover.labels (Test4.Hover.after chartWidth evs c))
    = girth <$> Test4.Hover.titleLabels (Test4.Hover.labels c).
Proof.
  revert c. induction evs as [|ev evs IH]; intros c; [done|].
  simpl. destruct (IH (Test4.Hover.handle chartWidth c ev)) as (-> & -> & -> & ->).
  apply test4_handle_keeps_widths.
Qed.

(** X24.  In test4.vue, whatever sequence of pointer events came before,
    [resetHighlighting] brings every link and every label back to what it
    was drawn with: the links at opacity 0.5 with their widths, the labels
    at opacity 1.  The rectangles it puts at 0.5, though they were drawn at
    opacity 1. *)
Theorem test4_reset_restores_links_and_labels (result : Layout) evs :
  let drawn := Test4.Hover.createChartElements chartWidth result in
  let reset := Test4.Hover.resetHighlighting (Test4.Hover.after chartWidth evs drawn) in
  seen (Test4.Hover.links reset) = seen (Test4.Hover.links drawn)
  ∧ seen (Test4.Hover.themeLabels (Test4.Hover.labels reset))
    = seen (Test4.Hover.themeLabels (Test4.Hover.labels drawn))
  ∧ seen (Test4.Hover.yearLabels (Test4.Hover.labels reset))
    = seen (Test4.Hover.yearLabels (Test4.Hover.labels drawn))
  ∧ seen (Test4.Hover.titleLabels (Test4.Hover.labels reset))
    = seen (Test4.Hover.titleLabels (Test4.Hover.labels drawn))
  ∧ seen (Test4.Hover.nodes drawn) = (λ d, (d, (1%Q, 1%Q))) <$> layoutNodes result
  ∧ seen (Test4.Hover.nodes reset) = (λ d, (d, (0.5%Q, 1%Q))) <$> layoutNodes result.
Proof.
  cbv zeta. set (drawn := Test4.Hover.createChartElements chartWidth result).
  destruct (test4_after_keeps_widths evs drawn) as (Hl & Ht & Hy & Hi).
  split; [|split; [|split; [|split]]].
  - apply (seen_same_opacity _ _ Test4.defaultOpacity).
    + by apply Forall_restyle_all.
    + by apply Forall_enter.
    + simpl. by rewrite restyle_keeps.
  - apply (seen_same_opacity _ _ 1%Q).
    + by apply Forall_restyle_all.
    + by apply Forall_enter.
    + simpl. by rewrite restyle_keeps.
  - apply (seen_same_opacity _ _ 1%Q).
    + by apply Forall_restyle_all.
    + by apply Forall_enter.
    + simpl. by rewrite restyle_keeps.
  - apply (seen_same_opacity _ _ 1%Q).
    + by apply Forall_restyle_all.
    + by apply Forall_enter.
    + simpl. by rewrite restyle_keeps.
  - apply test4_reset_nodes.
Qed.

Lemma filter_lt_ge (ds : list NodeDatum) :
  filter (λ d, lt (x0Of d) (chartWidth / 2) = true) ds
  ++ filter (λ d, ge (x0Of d) (chartWidth / 2) = true) ds ≡ₚ ds.
Proof.
  induction ds as [|d ds IH]; [done|].
  rewrite !filter_cons, ge_not_lt.
  destruct (lt (x0Of d) (chartWidth / 2)); simpl.
  - by rewrite IH.
  - by rewrite <- Permutation_middle, IH.
Qed.

(** X25.  In test4.vue every node gets its label: a node of the left
    column one theme label, a node of the right column one year label and
    one title label, and no node gets both kinds.  The labels are in the
    order of the layout's nodes. *)
Theorem test4_every_node_labelled (result : Layout) :
  let labels := Test4.Hover.createLabels chartWidth result in
  (Test4.Hover.themeLabels labels).*1 ++ (Test4.Hover.yearLabels labels).*1
    ≡ₚ layoutNodes result
  ∧ (Test4.Hover.titleLabels labels).*1 = (Test4.Hover.yearLabels labels).*1
  ∧ Forall (λ d, onLeft chartWidth d = true) (Test4.Hover.themeLabels labels).*1
  ∧ Forall (λ d, onLeft chartWidth d = false) (Test4.Hover.yearLabels labels).*1
  ∧ (Test4.Hover.themeLabels labels).*1 `sublist_of` layoutNodes result
  ∧ (Test4.Hover.yearLabels labels).*1 `sublist_of` layoutNodes result.
Proof.
  cbv zeta. simpl.
  unfold Test4.Hover.createThemeLabels, Test4.Hover.createYearLabels,
    Test4.Hover.createTitleLabels.
  rewrite !enter_data.
  split; [apply filter_lt_ge|]. split; [done|].
  split; [|split; [|split; apply sublist_filter]].
  - apply Forall_forall. by intros d [Hd _]%list_elem_of_filter.
  - apply Forall_forall. intros d [Hd _]%list_elem_of_filter.
    unfold onLeft. rewrite ge_not_lt in Hd. by destruct (lt _ _).
Qed.

End Test4Hover.

(** ** The layout's settings *)

Section Test4NodeOrder.
Import Js Eff Test4.
Variable localeCompare : string → string → Z.
Context {V : Type}.
Implicit Types (w : World V) (rows : list Row) (themes : list string).

Lemma notLater_trans : Transitive notLater.
Proof.
  intros a b c. unfold notLater.
  destruct (parseInt (a !! "Year")), (parseInt (b !! "Year")),
    (parseInt (c !! "Year")); try done. lia.
Qed.

(** In rows sorted by year, a row is not later than any row after it. *)
Lemma sorted_rows_lookup rows (i j : nat) a b :
  Sorted notLater rows → (i < j)%nat →
  rows !! i = Some a → rows !! j = Some b → notLater a b.
Proof.
  intros Hs. apply Sorted_StronglySorted in Hs; [|apply notLater_trans].
  revert i j. induction Hs as [|x l Hl IH Hx]; intros i j Hij Hi Hj; [done|].
  destruct j as [|j]; [lia|]. destruct i as [|i]; simpl in *.
  - injection Hi as ->. rewrite Forall_forall in Hx. apply Hx.
    by eapply list_elem_of_lookup_2.
  - apply (IH i j); [lia|done..].
Qed.

(** X26.  In test4.vue the transformer lists the nodes in the order the
    layout's [nodeSort] asks for: with every Year a safe integer, the
    comparator applied to a node and a node after it in the dataset never
    gives a positive number, so sorting by it moves no node.  Themes come
    before events, themes keep the order given, events are in order of
    year. *)
Theorem test4_nodes_in_layout_order rows themes w :
  Forall (carries ["Theme"]) rows →
  Forall (λ row : Row, isSafeInteger (parseInt (row !! "Year"))) rows →
  ∃ d w',
    run (transformCSVToSankey localeCompare rows themes) w = (Returned d, w')
    ∧ ∀ (i j : nat) a b, (i < j)%nat →
        nodes d !! i = Some a → nodes d !! j = Some b →
        ∃ z, nodeSort a b = Num z ∧ z ≤ 0.
Proof.
  intros Hcols Hsafe. apply carries_Theme in Hcols.
  eexists _, _. split; [by apply transformCSVToSankey4_run|]. simpl.
  assert (Sorted notLater (sortRows localeCompare rows)) as Hsorted.
  { apply sortRows_Sorted. eapply Forall_impl; [exact Hsafe|].
    intros row Hrow Hnan. simpl in Hrow. by rewrite Hnan in Hrow. }
  intros i j a b Hij Ha Hb.
  destruct (decide (i < length themes)%nat) as [Hi|Hi].
  - rewrite lookup_app_l in Ha by by rewrite mapi_length.
    rewrite mapi_lookup in Ha.
    destruct (themes !! i) as [ta|]; [|done]. injection Ha as <-.
    destruct (decide (j < length themes)%nat) as [Hj|Hj].
    + rewrite lookup_app_l in Hb by by rewrite mapi_length.
      rewrite mapi_lookup in Hb.
      destruct (themes !! j) as [tb|]; [|done]. injection Hb as <-.
      by exists 0.
    + rewrite lookup_app_r in Hb by (rewrite mapi_length; lia).
      rewrite mapi_lookup in Hb.
      destruct (sortRows localeCompare rows !! _) as [rb|]; [|done].
      injection Hb as <-. by exists (-1).
  - rewrite lookup_app_r in Ha by (rewrite mapi_length; lia).
    rewrite lookup_app_r in Hb by (rewrite mapi_length; lia).
    rewrite mapi_length, mapi_lookup in Ha, Hb.
    destruct (sortRows localeCompare rows !! (i - length themes)%nat) as [ra|] eqn:Hra;
      [|done].
    destruct (sortRows localeCompare rows !! (j - length themes)%nat) as [rb|] eqn:Hrb;
      [|done].
    injection Ha as <-. injection Hb as <-.
    assert (i - length themes < j - length themes)%nat as Hlt by lia.
    pose proof (sorted_rows_lookup _ _ _ ra rb Hsorted Hlt Hra Hrb) as Hab.
    unfold nodeSort, notLater in *. simpl.
    destruct (parseInt (ra !! "Year")) as [|ya]; [done|].
    destruct (parseInt (rb !! "Year")) as [|yb]; [done|].
    exists (ya - yb). split; [done|lia].
Qed.

(** X27.  In test4.vue the links are pushed event by event: along the
    list of links the target never decreases, so the links of one event are
    next to each other and the events come in the order of their nodes. *)
Theorem test4_links_in_event_order rows themes w :
  Forall (carries ["Theme"]) rows →
  ∃ d w',
    run (transformCSVToSankey localeCompare rows themes) w = (Returned d, w')
    ∧ StronglySorted (λ a b, target a ≤ target b) (links d).
Proof.
  intros Hcols. apply carries_Theme in Hcols.
  eexists _, _. split; [by apply transformCSVToSankey4_run|]. simpl.
  unfold linksFrom. generalize 0. generalize (sortRows localeCompare rows).
  induction l as [|row l IH]; intros i; simpl; [constructor|].
  apply StronglySorted_app_2; [| |apply IH].
  - intros a b Ha (j & row' & Hj & Hb)%elem_of_collectFrom.
    pose proof (rowLinks_target themes (len themes + i) row) as Ht.
    rewrite Forall_forall in Ht. rewrite (Ht a Ha).
    pose proof (rowLinks_target themes (len themes + (i + 1 + Z.of_nat j)) row') as Ht'.
    rewrite Forall_forall in Ht'. rewrite (Ht' b Hb). lia.
  - pose proof (rowLinks_target themes (len themes + i) row) as Ht.
    induction Ht as [|link ls Hlink Hls IHls]; constructor; [done|].
    eapply Forall_impl; [exact Hls|]. intros b Hb. simpl in *. lia.
Qed.

End Test4NodeOrder.

Section HistoricalLayout.
Import Historical.

(** X28.  On the historical page the padding between nodes shrinks with
    their number, from below 50 down to 10, where it stays from 20 nodes
    on, and the extent is at least 60 high per node.  So even with all
    nodes in one column the paddings leave at least 10 of height for each
    node. *)
Theorem historical_padding_leaves_room (height : Q) (nodeCount : nat) :
  (10 <= dynamicNodePadding nodeCount <= 50)%Q
  ∧ ((20 <= nodeCount)%nat → (dynamicNodePadding nodeCount == 10)%Q)
  ∧ (height <= dynamicHeight height nodeCount)%Q
  ∧ ((inject_Z (Z.of_nat nodeCount) - 1) * dynamicNodePadding nodeCount
     + 10 * inject_Z (Z.of_nat nodeCount)
     <= dynamicHeight height nodeCount)%Q.
Proof.
  unfold dynamicNodePadding, dynamicHeight.
  set (n := inject_Z (Z.of_nat nodeCount)).
  assert (0 <= n)%Q as Hn.
  { unfold n. rewrite <- (Zle_Qle 0). lia. }
  assert ((20 <= nodeCount)%nat → (20 <= n)%Q) as Hbig.
  { intros H. unfold n. rewrite <- (Zle_Qle 20). lia. }
  destruct (Q.max_spec 10 (50 - n * 2)) as [[Hp Hpe]|[Hp Hpe]],
           (Q.max_spec height (n * 60)) as [[Hh Hhe]|[Hh Hhe]];
    rewrite Hpe, Hhe; repeat split; try lra; try nra.
  all: intros H%Hbig; lra.
Qed.

End HistoricalLayout.

(** ** The theme names the loader of test4.vue collects *)

Section ThemeNames.
Import Js Eff Test4.

(** The code units of a string. *)
Lemma trimStart_units s c :
  In c (String.list_ascii_of_string (trimStart s)) → In c (String.list_ascii_of_string s).
Proof.
  induction s as [|a s IH]; simpl; [done|].
  destruct (isWhiteSpace a); simpl; [intros H; right; by apply IH|done].
Qed.

Lemma trimEnd_units s c :
  In c (String.list_ascii_of_string (trimEnd s)) → In c (String.list_ascii_of_string s).
Proof.
  induction s as [|a s IH]; simpl; [done|].
  destruct (trimEnd s) as [|b t] eqn:Ht.
  - destruct (isWhiteSpace a); simpl; [done|]. intros [->|[]]. by left.
  - simpl in *. intros [->|H]; [by left|right; by apply IH].
Qed.

Lemma split_units sep s part :
  part ∈ split sep s → ¬ In sep (String.list_ascii_of_string part).
Proof.
  revert part. induction s as [|a s IH]; intros part; simpl.
  - intros ->%list_elem_of_singleton. by intros [].
  - destruct (decide (a = sep)) as [->|Hne].
    + intros [->|Hpart]%elem_of_cons; [by intros []|by apply IH].
    + pose proof (split_nonempty sep s) as Hs.
      destruct (split sep s) as [|w ws]; [done|].
      intros [->|Hpart]%elem_of_cons.
      * simpl. intros [?|Hin]; [done|]. apply (IH w); [left|done].
      * apply IH. by right.
Qed.

Lemma trimEnd_head a s :
  isWhiteSpace a = false → ∃ t, trimEnd (String a s) = String a t.
Proof.
  intros Ha. simpl. destruct (trimEnd s); rewrite ?Ha; eauto.
Qed.

Lemma trimEnd_idempotent s : trimEnd (trimEnd s) = trimEnd s.
Proof.
  induction s as [|a s IH]; simpl; [done|].
  destruct (trimEnd s) as [|b t] eqn:Ht.
  - destruct (isWhiteSpace a) eqn:Ha; simpl; [done|]. by rewrite Ha.
  - simpl in *. by rewrite IH.
Qed.

Lemma trimStart_stops s :
  trimStart s = EmptyString
  ∨ ∃ a t, trimStart s = String a t ∧ isWhiteSpace a = false.
Proof.
  induction s as [|a s IH]; simpl; [by left|].
  destruct (isWhiteSpace a) eqn:Ha; [done|]. right. by exists a, s.
Qed.

(** [trim] leaves a trimmed string as it is. *)
Lemma trim_idempotent s : trim (trim s) = trim s.
Proof.
  unfold trim. destruct (trimStart_stops s) as [->|(a & t & -> & Ha)]; [done|].
  destruct (trimEnd_head a t Ha) as [u Hu]. rewrite Hu.
  simpl trimStart. rewrite Ha, <- Hu. apply trimEnd_idempotent.
Qed.

(** X29.  In test4.vue every theme name the loader collects is trimmed
    and free of semicolons: trimming it again changes nothing, and ';' is
    not among its code units.  So [A; B] and [A;B] in the Theme column name
    the same two themes. *)
Theorem loader_themes_are_clean {V} rows (w : World V) :
  Forall (carries ["Theme"]) rows →
  ∃ themes,
    run (uniqueThemes rows) w = (Returned themes, w)
    ∧ NoDup themes
    ∧ Forall (λ theme,
        trim theme = theme ∧ ¬ In ";"%char (String.list_ascii_of_string theme)) themes.
Proof.
  intros Hcols. apply carries_Theme in Hcols.
  eexists. split; [by apply uniqueThemes_run|]. split; [apply NoDup_newSet|].
  apply Forall_forall. intros theme (row & _ & Hlisted)%elem_of_uniqueThemes.
  unfold listedThemes, splitThemes in Hlisted.
  change (map ?f ?l) with (f <$> l) in Hlisted.
  apply list_elem_of_fmap in Hlisted as (part & -> & Hpart).
  split; [apply trim_idempotent|].
  intros Hin. apply (split_units _ _ _ Hpart).
  by apply trimStart_units, trimEnd_units.
Qed.

End ThemeNames.

(** ** The loaders, the links and the hover on sample inputs *)

Section MoreWitnesses.
Import Js Eff.

Lemma test2_row_without_year_witness :
  Exists (λ row : Row, row !! "Year" = None) Sample.themesOnly
  ∧ ∃ w',
      run (Test2.loadData Sample.accepting (Resolved Sample.themesOnly))
          (Sample.fresh Test2.mounted) = (Returned (), w')
      ∧ Test2.settled (refs w')
          (Some "Cannot read properties of undefined (reading 'toString')")
          (Test2.currentData (refs (Sample.fresh Test2.mounted)))
          (Test2.chartContainer (refs (Sample.fresh Test2.mounted))).
Proof.
  assert (Exists (λ row : Row, row !! "Year" = None) Sample.themesOnly) as Hrow
    by decided.
  split; [exact Hrow|].
  exact (test2_row_without_year Sample.accepting Sample.themesOnly
           (Sample.fresh Test2.mounted) Hrow).
Defined.

Lemma test4_row_without_theme_witness :
  Exists (λ row : Row, row !! "Theme" = None) Sample.yearsOnly
  ∧ ∃ w',
      run (Test4.loadData Sample.byCodeUnits Sample.accepting
             (Resolved Sample.yearsOnly)) (Sample.fresh Test4.mounted)
      = (Returned (), w')
      ∧ Test4.settled (refs w')
          (Some "Cannot read properties of undefined (reading 'split')")
          (Test4.currentData (refs (Sample.fresh Test4.mounted)))
          (Test4.chartContainer (refs (Sample.fresh Test4.mounted))).
Proof.
  assert (Exists (λ row : Row, row !! "Theme" = None) Sample.yearsOnly) as Hrow
    by decided.
  split; [exact Hrow|].
  exact (test4_row_without_theme Sample.byCodeUnits Sample.accepting Sample.yearsOnly
           (Sample.fresh Test4.mounted) Hrow).
Defined.

Lemma test2_loadData_draws_witness :
  Sample.colonialism ≠ []
  ∧ Forall (carries ["Year"]) Sample.colonialism
  ∧ ∃ d w',
      run (Test2.transformCSVToSankey Sample.colonialism
             (Test2.distinct "Theme" Sample.colonialism)
             (Test2.distinct "Year" Sample.colonialism)) (Sample.fresh Test2.mounted)
      = (Returned d, Sample.fresh Test2.mounted)
      ∧ run (Test2.loadData Sample.accepting (Resolved Sample.colonialism))
            (Sample.fresh Test2.mounted) = (Returned (), w')
      ∧ match Test2.chartContainer (refs (Sample.fresh Test2.mounted)),
              Sample.accepting d with
        | None, _ => Test2.settled (refs w') None (Some d) None
        | Some _, None => Test2.settled (refs w') None (Some d) (Some (Some d))
        | Some _, Some msg => Test2.settled (refs w') (Some msg) (Some d) (Some None)
        end.
Proof.
  assert (Sample.colonialism ≠ []) as Hne by done.
  assert (Forall (carries ["Year"]) Sample.colonialism) as Hcols by decided.
  split; [exact Hne|]. split; [exact Hcols|].
  exact (test2_loadData_draws Sample.accepting Sample.colonialism
           (Sample.fresh Test2.mounted) Hne Hcols).
Defined.

Lemma test4_loadData_draws_witness :
  Sample.twoThemes ≠ []
  ∧ Forall (carries ["Theme"]) Sample.twoThemes
  ∧ ∃ themes d w1 w',
      run (Test4.uniqueThemes Sample.twoThemes) (Sample.fresh Test4.mounted)
      = (Returned themes, Sample.fresh Test4.mounted)
      ∧ run (Test4.transformCSVToSankey Sample.byCodeUnits Sample.twoThemes themes)
            (Sample.fresh Test4.mounted) = (Returned d, w1)
      ∧ run (Test4.loadData Sample.byCodeUnits Sample.accepting
               (Resolved Sample.twoThemes)) (Sample.fresh Test4.mounted)
        = (Returned (), w')
      ∧ match Test4.chartContainer (refs (Sample.fresh Test4.mounted)),
              Sample.accepting d with
        | None, _ => Test4.settled (refs w') None (Some d) None
        | Some _, None => Test4.settled (refs w') None (Some d) (Some (Some d))
        | Some _, Some msg => Test4.settled (refs w') (Some msg) (Some d) (Some None)
        end.
Proof.
  assert (Sample.twoThemes ≠ []) as Hne by done.
  assert (Forall (carries ["Theme"]) Sample.twoThemes) as Hcols by decided.
  split; [exact Hne|]. split; [exact Hcols|].
  exact (test4_loadData_draws Sample.byCodeUnits Sample.accepting Sample.twoThemes
           (Sample.fresh Test4.mounted) Hne Hcols).
Defined.

Lemma historical_valid_csv_witness :
  Sample.accepting Historical.fallbackData = None
  ∧ Exists (λ row : Row, row !! "type" = Some "node") Sample.historicalCsv
  ∧ Exists (λ row : Row, row !! "type" = Some "link") Sample.historicalCsv
  ∧ ∃ w',
      run (Historical.loadData Sample.accepting (Resolved Sample.historicalCsv))
          (Sample.fresh Historical.mounted) = (Returned (), w')
      ∧ let d := Historical.transformData
                   (Historical.parseCSVData Sample.historicalCsv).1
                   (Historical.parseCSVData Sample.historicalCsv).2 in
        match Historical.chartContainer (refs (Sample.fresh Historical.mounted)),
              Sample.accepting d with
        | None, _ => Historical.settled (refs w') None (Some d) None
        | Some _, None => Historical.settled (refs w') None (Some d) (Some (Some d))
        | Some _, Some msg =>
            Historical.settled (refs w') (Some msg) (Some Historical.fallbackData)
              (Some (Some Historical.fallbackData))
        end.
Proof.
  assert (Exists (λ row : Row, row !! "type" = Some "node") Sample.historicalCsv)
    as Hnodes by decided.
  assert (Exists (λ row : Row, row !! "type" = Some "link") Sample.historicalCsv)
    as Hlinks by decided.
  split; [reflexivity|]. split; [exact Hnodes|]. split; [exact Hlinks|].
  exact (historical_valid_csv Sample.accepting Sample.historicalCsv
           (Sample.fresh Historical.mounted) eq_refl Hnodes Hlinks).
Defined.

Lemma historical_chart_shows_current_data_witness :
  Sample.accepting Historical.fallbackData = None
  ∧ ∃ w' d,
      run (Historical.loadData Sample.accepting (Rejected (Error "404 Not Found")))
          (Sample.fresh Historical.mounted) = (Returned (), w')
      ∧ Historical.loading (refs w') = false
      ∧ Historical.currentData (refs w') = Some d
      ∧ Historical.chartContainer (refs w')
        = (λ _, Some d)
          <$> Historical.chartContainer (refs (Sample.fresh Historical.mounted))
      ∧ (Historical.error (refs w') ≠ None → d = Historical.fallbackData).
Proof.
  split; [reflexivity|].
  exact (historical_chart_shows_current_data Sample.accepting
           (Rejected (Error "404 Not Found")) (Sample.fresh Historical.mounted) eq_refl).
Defined.

Lemma historical_resize_after_load_witness :
  Sample.accepting Historical.fallbackData = None
  ∧ run (Historical.loadData Sample.accepting (Resolved Sample.historicalCsv);;
         Historical.onResize Sample.accepting) (Sample.fresh Historical.mounted)
    = run (Historical.loadData Sample.accepting (Resolved Sample.historicalCsv))
        (Sample.fresh Historical.mounted).
Proof.
  split; [reflexivity|].
  exact (historical_resize_after_load Sample.accepting (Resolved Sample.historicalCsv)
           (Sample.fresh Historical.mounted) eq_refl).
Defined.

Lemma test4_resize_after_load_witness :
  (∀ d : Test4.Dataset, Sample.accepting d = None)
  ∧ (∀ c, Test4.chartContainer (refs (Sample.fresh Test4.mounted)) = Some c →
          c = Test4.currentData (refs (Sample.fresh Test4.mounted)))
  ∧ run (Test4.loadData Sample.byCodeUnits Sample.accepting (Resolved Sample.twoThemes);;
         Test4.onResize Sample.accepting) (Sample.fresh Test4.mounted)
    = run (Test4.loadData Sample.byCodeUnits Sample.accepting
             (Resolved Sample.twoThemes)) (Sample.fresh Test4.mounted).
Proof.
  assert (∀ d : Test4.Dataset, Sample.accepting d = None) as Hlayout by done.
  assert (∀ c, Test4.chartContainer (refs (Sample.fresh Test4.mounted)) = Some c →
               c = Test4.currentData (refs (Sample.fresh Test4.mounted))) as Hshown.
  { simpl. intros c Hc. by injection Hc as <-. }
  split; [exact Hlayout|]. split; [exact Hshown|].
  exact (test4_resize_after_load Sample.byCodeUnits Sample.accepting
           (Resolved Sample.twoThemes) (Sample.fresh Test4.mounted) Hlayout Hshown).
Defined.


End MoreWitnesses.

Section LinkWitnesses.
Import Js Eff.

Lemma test2_links_follow_rows_witness :
  Forall is_Some [Some "1900s"; Some "1910s"]
  ∧ ∃ d,
      run (Test2.transformCSVToSankey Sample.colonialism [Some "Colonialism"]
             [Some "1900s"; Some "1910s"]) (Sample.fresh ())
      = (Returned d, Sample.fresh ())
      ∧ length (Test2.links d) = length Sample.colonialism
      ∧ ∀ (i : nat) row, Sample.colonialism !! i = Some row →
          ∃ link,
            Test2.links d !! i = Some link
            ∧ Test2.value link = 1
            ∧ Test2.theme link = row !! "Theme" ∧ Test2.year link = row !! "Year"
            ∧ Test2.description link = row !! "Title"
            ∧ Test2.fullDescription link = row !! "Description"
            ∧ (row !! "Theme" ∈ [Some "Colonialism"] →
               ∃ node, Test2.nodes d !! Z.to_nat (Test2.source link) = Some node
                       ∧ Test2.id node = Test2.source link
                       ∧ Test2.name node = row !! "Theme"
                       ∧ Test2.type node = Test2.type_theme)
            ∧ (row !! "Year" ∈ [Some "1900s"; Some "1910s"] →
               ∃ node, Test2.nodes d !! Z.to_nat (Test2.target link) = Some node
                       ∧ Test2.id node = Test2.target link
                       ∧ Test2.name node = row !! "Year"
                       ∧ Test2.type node = Test2.type_year).
Proof.
  assert (Forall is_Some [Some "1900s"; Some "1910s"]) as Hyears by decided.
  split; [exact Hyears|].
  exact (test2_links_follow_rows Sample.colonialism [Some "Colonialism"]
           [Some "1900s"; Some "1910s"] (Sample.fresh ()) Hyears).
Defined.

Lemma test2_unlisted_values_witness :
  Forall is_Some [Some "1900s"]
  ∧ Sample.colonialism !! 1%nat = Some (Sample.csvRow "Colonialism" "1910s" "Treaty" "")
  ∧ ∃ d link,
      run (Test2.transformCSVToSankey Sample.colonialism [Some "Industry"]
             [Some "1900s"]) (Sample.fresh ())
      = (Returned d, Sample.fresh ())
      ∧ Test2.links d !! 1%nat = Some link
      ∧ (Sample.csvRow "Colonialism" "1910s" "Treaty" "" !! "Theme" ∉ [Some "Industry"] →
         Test2.source link = -1 ∧ Test2.source link ∉ Test2.id <$> Test2.nodes d)
      ∧ (Sample.csvRow "Colonialism" "1910s" "Treaty" "" !! "Year" ∉ [Some "1900s"] →
         Test2.target link = len [Some "Industry"] - 1
         ∧ ∀ node, node ∈ Test2.nodes d → Test2.id node = Test2.target link →
             Test2.type node = Test2.type_theme
             ∧ last [Some "Industry"] = Some (Test2.name node)).
Proof.
  assert (Forall is_Some [Some "1900s"]) as Hyears by decided.
  split; [exact Hyears|]. split; [reflexivity|].
  exact (test2_unlisted_values Sample.colonialism [Some "Industry"] [Some "1900s"]
           (Sample.fresh ()) 1%nat (Sample.csvRow "Colonialism" "1910s" "Treaty" "")
           Hyears eq_refl).
Defined.

Lemma test2_every_node_linked_witness :
  Forall (carries ["Year"]) Sample.colonialism
  ∧ ∃ d,
      run (Test2.transformCSVToSankey Sample.colonialism
             (Test2.distinct "Theme" Sample.colonialism)
             (Test2.distinct "Year" Sample.colonialism)) (Sample.fresh ())
      = (Returned d, Sample.fresh ())
      ∧ ∀ node, node ∈ Test2.nodes d →
          ∃ link, link ∈ Test2.links d
            ∧ match Test2.type node with
              | Test2.type_theme =>
                  Test2.source link = Test2.id node ∧ Test2.theme link = Test2.name node
              | Test2.type_year =>
                  Test2.target link = Test2.id node ∧ Test2.year link = Test2.name node
              end.
Proof.
  assert (Forall (carries ["Year"]) Sample.colonialism) as Hcols by decided.
  split; [exact Hcols|].
  exact (test2_every_node_linked Sample.colonialism (Sample.fresh ()) Hcols).
Defined.

Lemma test4_links_and_warnings_witness :
  Forall (carries ["Theme"]) Sample.strayTheme
  ∧ ∃ d out,
      run (Test4.transformCSVToSankey Sample.byCodeUnits Sample.strayTheme ["A"])
          (Sample.fresh ())
      = (Returned d, logged out (Sample.fresh ()))
      ∧ (length (Test4.links d) + length (filter (λ entry, level entry = WarnLevel) out)
         = sum_list_with (λ row, length (Test4.listedThemes row)) Sample.strayTheme)%nat
      ∧ text <$> last out
        = Some ("Created " +:+ pretty (length (Test4.links d)) +:+ " links for "
                +:+ pretty (length Sample.strayTheme) +:+ " events").
Proof.
  assert (Forall (carries ["Theme"]) Sample.strayTheme) as Hcols by decided.
  split; [exact Hcols|].
  exact (test4_links_and_warnings Sample.byCodeUnits Sample.strayTheme ["A"]
           (Sample.fresh ()) Hcols).
Defined.

Lemma test4_event_links_witness :
  Forall (carries ["Theme"]) Sample.twoThemes
  ∧ ∃ d w' sortedData,
      run (Test4.transformCSVToSankey Sample.byCodeUnits Sample.twoThemes
             ["A"; "B"; "C"]) (Sample.fresh ())
      = (Returned d, w')
      ∧ sortedData ≡ₚ Sample.twoThemes
      ∧ ∀ (j : nat) row, sortedData !! j = Some row →
          Test4.nodes d !! (length ["A"; "B"; "C"] + j)%nat
            = Some (Test4.eventNode ["A"; "B"; "C"] (Z.of_nat j) row)
          ∧ filter (λ link, Test4.target link = len ["A"; "B"; "C"] + Z.of_nat j)
              (Test4.links d)
            = (λ theme,
                 {| Test4.source := indexOf ["A"; "B"; "C"] theme;
                    Test4.target := len ["A"; "B"; "C"] + Z.of_nat j;
                    Test4.value := 1;
                    Test4.description := row !! "Title";
                    Test4.fullDescription := row !! "Description";
                    Test4.year := parseInt (row !! "Year");
                    Test4.theme := theme |})
              <$> filter (λ theme, theme ∈ ["A"; "B"; "C"]) (Test4.listedThemes row).
Proof.
  assert (Forall (carries ["Theme"]) Sample.twoThemes) as Hcols by decided.
  split; [exact Hcols|].
  exact (test4_event_links Sample.byCodeUnits Sample.twoThemes ["A"; "B"; "C"]
           (Sample.fresh ()) Hcols).
Defined.

Lemma test4_links_theme_to_event_witness :
  Forall (carries ["Theme"]) Sample.strayTheme
  ∧ ∃ d w',
      run (Test4.transformCSVToSankey Sample.byCodeUnits Sample.strayTheme ["A"])
          (Sample.fresh ())
      = (Returned d, w')
      ∧ Forall (λ link,
          Test4.value link = 1
          ∧ Test4.nodes d !! Z.to_nat (Test4.source link)
            = Some (Test4.ThemeNode (Test4.source link) (Test4.theme link))
          ∧ ∃ label,
              Test4.nodes d !! Z.to_nat (Test4.target link)
              = Some (Test4.EventNode (Test4.target link) label (Test4.year link)
                        (Test4.description link) (Test4.fullDescription link)))
          (Test4.links d).
Proof.
  assert (Forall (carries ["Theme"]) Sample.strayTheme) as Hcols by decided.
  split; [exact Hcols|].
  exact (test4_links_theme_to_event Sample.byCodeUnits Sample.strayTheme ["A"]
           (Sample.fresh ()) Hcols).
Defined.

Lemma test4_every_node_linked_witness :
  Forall (carries ["Theme"]) Sample.twoThemes
  ∧ ∃ themes d w',
      run (Test4.uniqueThemes Sample.twoThemes) (Sample.fresh ())
      = (Returned themes, Sample.fresh ())
      ∧ run (Test4.transformCSVToSankey Sample.byCodeUnits Sample.twoThemes themes)
            (Sample.fresh ())
        = (Returned d, w')
      ∧ ∀ node, node ∈ Test4.nodes d →
          ∃ link, link ∈ Test4.links d
            ∧ match node with
              | Test4.ThemeNode i name =>
                  Test4.source link = i ∧ Test4.theme link = name
              | Test4.EventNode i _ _ title _ =>
                  Test4.target link = i ∧ Test4.description link = title
              end.
Proof.
  assert (Forall (carries ["Theme"]) Sample.twoThemes) as Hcols by decided.
  split; [exact Hcols|].
  exact (test4_every_node_linked Sample.byCodeUnits Sample.twoThemes
           (Sample.fresh ()) Hcols).
Defined.

Lemma test4_nodes_in_layout_order_witness :
  Forall (carries ["Theme"]) Sample.twoThemes
  ∧ Forall (λ row : Row, isSafeInteger (parseInt (row !! "Year"))) Sample.twoThemes
  ∧ ∃ d w',
      run (Test4.transformCSVToSankey Sample.byCodeUnits Sample.twoThemes
             ["A"; "B"; "C"]) (Sample.fresh ())
      = (Returned d, w')
      ∧ ∀ (i j : nat) a b, (i < j)%nat →
          Test4.nodes d !! i = Some a → Test4.nodes d !! j = Some b →
          ∃ z, Test4.nodeSort a b = Num z ∧ z ≤ 0.
Proof.
  assert (Forall (carries ["Theme"]) Sample.twoThemes) as Hcols by decided.
  assert (Forall (λ row : Row, isSafeInteger (parseInt (row !! "Year")))
            Sample.twoThemes) as Hsafe.
  { repeat constructor. }
  split; [exact Hcols|]. split; [exact Hsafe|].
  exact (test4_nodes_in_layout_order Sample.byCodeUnits Sample.twoThemes
           ["A"; "B"; "C"] (Sample.fresh ()) Hcols Hsafe).
Defined.

Lemma test4_links_in_event_order_witness :
  Forall (carries ["Theme"]) Sample.twoThemes
  ∧ ∃ d w',
      run (Test4.transformCSVToSankey Sample.byCodeUnits Sample.twoThemes
             ["A"; "B"; "C"]) (Sample.fresh ())
      = (Returned d, w')
      ∧ StronglySorted (λ a b, Test4.target a ≤ Test4.target b) (Test4.links d).
Proof.
  assert (Forall (carries ["Theme"]) Sample.twoThemes) as Hcols by decided.
  split; [exact Hcols|].
  exact (test4_links_in_event_order Sample.byCodeUnits Sample.twoThemes
           ["A"; "B"; "C"] (Sample.fresh ()) Hcols).
Defined.

Lemma loader_themes_are_clean_witness :
  Forall (carries ["Theme"]) Sample.twoThemes
  ∧ ∃ themes,
      run (Test4.uniqueThemes Sample.twoThemes) (Sample.fresh ())
      = (Returned themes, Sample.fresh ())
      ∧ NoDup themes
      ∧ Forall (λ theme,
          trim theme = theme ∧ ¬ In ";"%char (String.list_ascii_of_string theme))
          themes.
Proof.
  assert (Forall (carries ["Theme"]) Sample.twoThemes) as Hcols by decided.
  split; [exact Hcols|].
  exact (loader_themes_are_clean Sample.twoThemes (Sample.fresh ()) Hcols).
Defined.

Lemma link_hover_round_trip_witness :
  Svg.layoutLinks Sample.oneFlow !! 0%nat
  = Some {| Svg.sourceIndex := 0; Svg.targetIndex := 1; Svg.width := 10 |}
  ∧ (let d := {| Svg.sourceIndex := 0; Svg.targetIndex := 1; Svg.width := 10 |} in
     let drawn := Test2.Hover.createChartElements Sample.oneFlow in
     let over := Test2.Hover.handle 300 drawn (Test2.Hover.LinkEnter 0) in
     Svg.seen (Test2.Hover.links over)
     = <[0%nat := (d, (1%Q, Qmax 4 (Svg.width d + 2)))]>
         (Svg.seen (Test2.Hover.links drawn))
     ∧ (Qmax 2 (Svg.width d) < Qmax 4 (Svg.width d + 2))%Q
     ∧ Svg.seen (Test2.Hover.links
                   (Test2.Hover.handle 300 over (Test2.Hover.LinkLeave 0)))
       = Svg.seen (Test2.Hover.links drawn))
  ∧ (let d := {| Svg.sourceIndex := 0; Svg.targetIndex := 1; Svg.width := 10 |} in
     let drawn := Test4.Hover.createChartElements 300 Sample.oneFlow in
     let over := Test4.Hover.handle 300 drawn (Test4.Hover.LinkEnter 0) in
     Svg.seen (Test4.Hover.links over)
     = <[0%nat := (d, (1%Q, Qmax 4 (Svg.width d + 2)))]>
         (Svg.seen (Test4.Hover.links drawn))
     ∧ Svg.seen (Test4.Hover.links
                   (Test4.Hover.handle 300 over (Test4.Hover.LinkLeave 0)))
       = Svg.seen (Test4.Hover.links drawn)).
Proof.
  split; [reflexivity|].
  exact (link_hover_round_trip 300 Sample.oneFlow 0%nat
           {| Svg.sourceIndex := 0; Svg.targetIndex := 1; Svg.width := 10 |} eq_refl).
Defined.

End LinkWitnesses.
